(** * Unmessify: the projection and advisory engine

    A shallow embedding of the calculation functions and of the advice engine
    of the application script (computeDerivedData, calculateBurnRateWindow,
    calculateDailySafeLimit, predictExhaustionDate, determineRiskLevel,
    determineConfidenceLevel, adviceRules, generateAdvice), of the form
    handlers and of the data of the charts, followed by the properties the
    specification states about them and by further properties of the code.

    Conventions of the embedding.
    - The numbers are embedded twice.  In the first part a JavaScript number
      is a rational [Q] (no rounding, no overflow), which is the arithmetic
      of the formulas of the specification; a number that is integral by
      construction (the result of Math.floor, Math.ceil, Math.round,
      parseInt, Array.length) is a [Z].  The values [Infinity] and [NaN] are
      not rationals: the one place where the code stores [Infinity] on
      purpose has its own constructor ([Days.Infinity]), and a division whose
      divisor is zero, which is the only way the engine could leave the
      rationals, makes the computation return [None].  The properties that
      hold of the code up to the rounding of a continuous value, or that
      speak of days, dates, lists and texts, are stated on this part.
    - In module [Double] the same functions are written on the numbers of the
      host, IEEE 754 binary64 ([F64]), where rounding decides the result: the
      integer that calculateDailySafeLimit rounds to, the comparisons of
      determineRiskLevel, the ceiling and the sentinel of
      predictExhaustionDate.  There the table of tolerance factors also has
      the properties that every object inherits ([JsObject], which the
      objects of the category chart use as well), and a Date has its range.
    - A [Date] object is its time value, milliseconds since the epoch.  A
      date string 'YYYY-MM-DD' is the number of the day it denotes (days
      since 1970-01-01); [new Date(str)] is midnight UTC of that day.  The
      local time zone is a fixed offset [tz] from UTC (no daylight saving).
    - The clock is read (new Date()) several times during one call of
      computeDerivedData; all the reads of one call return the same
      instant [now].
    - The engine copies a Date object before it moves it (new Date(d), then
      setDate on the copy), so the functions are written on time values;
      predictExhaustionDate is written a second time on a store of Date
      objects, to show that it leaves its arguments as they were.
    - Math.pow is a function of the host; it is a parameter [Math_pow]. *)

From Stdlib Require Import ZArith QArith Qround Qminmax Qabs Lia Lqa List Sorted.
From Stdlib Require Import Qpower Floats.SpecFloat.
From stdpp Require Import base option gmap strings.
Import ListNotations.

Local Open Scope Z_scope.

(** ** Host primitives *)

Module Js.

(** [a / b] on numbers.  [None] stands for the non-finite results
    (Infinity, -Infinity, NaN) that JavaScript gives for a zero divisor. *)
Definition div (a b : Q) : option Q :=
  if Qeq_bool b 0 then None else Some (a / b)%Q.

(** [a < b], [a <= b] on numbers, as booleans. *)
Definition lt (a b : Q) : bool := negb (Qle_bool b a).
Definition le (a b : Q) : bool := Qle_bool a b.

(** Math.round rounds to the nearest integer, halves towards +Infinity. *)
Definition Math_round (q : Q) : Z := Qfloor (q + (1 # 2)).
Definition Math_ceil (q : Q) : Z := Qceiling q.

(** The truth value of a number: every number but 0 is truthy. *)
Definition truthy (q : Q) : bool := negb (Qeq_bool q 0).

(** [o || d] where [o] is a number or undefined. *)
Definition or_else (o : option Q) (d : Q) : Q :=
  match o with
  | Some v => if truthy v then v else d
  | None => d
  end.

(** [xs.reduce((sum, x) => sum + f(x), 0)] *)
Definition sum {A : Type} (f : A -> Q) (xs : list A) : Q :=
  fold_left (fun acc x => (acc + f x)%Q) xs 0%Q.

(** [xs.sort(cmp)]: the sort of an array is stable (ECMAScript 2019); an
    element moves in front of another one only when [cmp] is positive.
    Insertion from the right end realises this order. *)
Fixpoint sort_insert {A : Type} (cmp : A -> A -> Z) (x : A) (l : list A) : list A :=
  match l with
  | [] => [x]
  | y :: l' => if 0 <? cmp x y then y :: sort_insert cmp x l' else x :: l
  end.

Definition sort {A : Type} (cmp : A -> A -> Z) (l : list A) : list A :=
  fold_right (sort_insert cmp) [] l.

(** [xs.slice(0, n)] *)
Definition slice0 {A : Type} (n : nat) (l : list A) : list A := firstn n l.

End Js.

Module Date.

(** 1000 * 60 * 60 * 24 *)
Definition MS_PER_DAY : Z := 1000 * 60 * 60 * 24.

(** [new Date('YYYY-MM-DD')]: midnight UTC of that day. *)
Definition parse (day : Z) : Z := day * MS_PER_DAY.

(** [d.setDate(d.getDate() + k)] on a copy of [d]. *)
Definition addDays (d k : Z) : Z := d + k * MS_PER_DAY.

(** The local calendar day of an instant. *)
Definition localDay (tz d : Z) : Z := (d + tz) / MS_PER_DAY.

(** [d.getDay()]: 0 is Sunday; 1970-01-01 was a Thursday. *)
Definition getDay (tz d : Z) : Z := (localDay tz d + 4) mod 7.

(** [formatDate(d)]: the local year, month and day as 'YYYY-MM-DD'. *)
Definition formatDate (tz d : Z) : Z := localDay tz d.

End Date.

(** ** Data model *)

Module Thresholds.
Record t := mk { warning : Q; danger : Q }.
End Thresholds.

Module Preferences.
Record t := mk {
  riskTolerance : option string;
  weekendBoost : bool;
  examMode : bool;
  maxSpendPerDay : option Q;
  vegetarian : bool;
  notificationThresholds : Thresholds.t
}.
End Preferences.

Module Profile.
Record t := mk {
  userType : string;
  monthlyCredits : Q;
  monthDays : Z;
  startDate : Z;
  preferences : Preferences.t
}.
End Profile.

Module Expense.
Record t := mk {
  id : string;
  date : Z;
  mealType : string;
  itemType : string;
  quantity : Z;
  cost : Q;
  notes : option string
}.
End Expense.

Module Risk.
Inductive t := safe | watch | danger.
End Risk.

Module Confidence.
Inductive t := low | medium | high.
End Confidence.

Module Severity.
Inductive t := high | medium | low.
End Severity.

Module Days.
(** The value of daysUntilExhaustion: an integer or [Infinity]. *)
Inductive t := Finite (n : Z) | Infinity.

(** [d !== Infinity] *)
Definition isFinite (d : t) : bool :=
  match d with Finite _ => true | Infinity => false end.

(** [d < n] for a number [n] *)
Definition ltb (d : t) (n : Z) : bool :=
  match d with Finite k => k <? n | Infinity => false end.
End Days.

Module DerivedBase.
Record t := mk {
  remainingCredits : Q;
  remainingDays : Z;
  averageDailySpend : Q;
  targetBurnRate : Q
}.
End DerivedBase.

Module Prediction.
Record t := mk {
  predictedExhaustionDate : option Z;
  daysUntilExhaustion : Days.t
}.
End Prediction.

Module Derived.
Record t := mk {
  today : Z;
  daysElapsed : Z;
  remainingDays : Z;
  totalSpent : Q;
  remainingCredits : Q;
  todaySpend : Q;
  dailySafeLimit : Z;
  averageDailySpend : Q;
  burnRate7d : Q;
  burnRate3d : Q;
  burnRateOverall : Q;
  targetBurnRate : Q;
  predictedExhaustionDate : option Z;
  daysUntilExhaustion : Days.t;
  riskLevel : Risk.t;
  surplusOrDeficit : Q;
  creditsUsedRatio : Q;
  timeElapsedRatio : Q;
  confidenceLevel : Confidence.t;
  endDate : Z
}.
End Derived.

(** The preferences of createDefaultProfile. *)
Definition defaultPreferences : Preferences.t :=
  {| Preferences.riskTolerance := Some "medium"%string;
     Preferences.weekendBoost := false;
     Preferences.examMode := false;
     Preferences.maxSpendPerDay := None;
     Preferences.vegetarian := false;
     Preferences.notificationThresholds :=
       {| Thresholds.warning := 0.7; Thresholds.danger := 0.9 |} |}.

(** ** Calculation functions *)

(** The object literal of calculateDailySafeLimit. *)
Definition toleranceFactors : gmap string Q :=
  {[ "low"%string := 0.85%Q; "medium"%string := 1.0%Q; "high"%string := 1.1%Q ]}.

(** [toleranceFactors[key]], own properties only; an absent key reads the
    property 'undefined', which the object does not have.  The names that the
    object inherits are in [Double.toleranceFactor]. *)
Definition toleranceFactor (key : option string) : option Q :=
  match key with
  | Some k => toleranceFactors !! k
  | None => None
  end.

Section Engine.

(** Math.pow of the host and the offset of the local time zone (ms). *)
Variable Math_pow : Q -> Q -> Q.
Variable tz : Z.

Definition calculateBurnRateWindow (now : Z) (expenses : list Expense.t)
    (windowDays : Z) (startDate : Z) : option Q :=
  let today := now in
  let windowStart := Date.addDays today (- windowDays + 1) in
  let effectiveStart := if startDate <? windowStart then windowStart else startDate in
  let windowExpenses :=
    List.filter (fun exp =>
      let expDate := Date.parse (Expense.date exp) in
      (effectiveStart <=? expDate) && (expDate <=? today)) expenses in
  let windowTotal := Js.sum Expense.cost windowExpenses in
  let actualWindowDays := Z.max 1 ((today - effectiveStart) / Date.MS_PER_DAY + 1) in
  Js.div windowTotal (inject_Z actualWindowDays).

Definition calculateDailySafeLimit (now : Z) (profile : Profile.t)
    (expenses : list Expense.t) (derivedBase : DerivedBase.t) : option Z :=
  let remainingCredits := DerivedBase.remainingCredits derivedBase in
  let remainingDays := DerivedBase.remainingDays derivedBase in
  let averageDailySpend := DerivedBase.averageDailySpend derivedBase in
  let targetBurnRate := DerivedBase.targetBurnRate derivedBase in
  let prefs := Profile.preferences profile in
  if remainingDays <=? 0 then Some 0 else
  base ← Js.div remainingCredits (inject_Z remainingDays);
  base ← (if Js.lt 0 averageDailySpend && Js.lt 0 targetBurnRate
             && Js.lt targetBurnRate averageDailySpend
          then overshootRatio ← Js.div averageDailySpend targetBurnRate;
               Js.div base (Math_pow overshootRatio 0.5)
          else Some base);
  let factor := Js.or_else (toleranceFactor (Preferences.riskTolerance prefs)) 1.0 in
  let base := (base * factor)%Q in
  let today := now in
  let isWeekend := (Date.getDay tz today =? 0) || (Date.getDay tz today =? 6) in
  let base := if Preferences.weekendBoost prefs && isWeekend
              then (base * 1.15)%Q else base in
  let base := if Preferences.examMode prefs then (base * 1.05)%Q else base in
  let base := match Preferences.maxSpendPerDay prefs with
              | Some cap => if Js.truthy cap && Js.lt 0 cap then Qmin base cap else base
              | None => base
              end in
  Some (Z.max 0 (Js.Math_round base)).

Definition predictExhaustionDate (remainingCredits burnRate : Q)
    (today endDate : Z) : option Prediction.t :=
  if Js.le remainingCredits 0 then
    Some {| Prediction.predictedExhaustionDate := Some (Date.formatDate tz today);
            Prediction.daysUntilExhaustion := Days.Finite 0 |}
  else if Js.le burnRate 0 then
    Some {| Prediction.predictedExhaustionDate := None;
            Prediction.daysUntilExhaustion := Days.Infinity |}
  else
    q ← Js.div remainingCredits burnRate;
    let daysUntilExhaustion := Js.Math_ceil q in
    let exhaustionDate := Date.addDays today daysUntilExhaustion in
    Some {| Prediction.predictedExhaustionDate := Some (Date.formatDate tz exhaustionDate);
            Prediction.daysUntilExhaustion := Days.Finite daysUntilExhaustion |}.

Definition determineRiskLevel (totalSpent monthlyCredits : Q)
    (daysElapsed monthDays : Z) (daysUntilExhaustion : Days.t)
    (remainingDays : Z) (thresholds : Thresholds.t) : option Risk.t :=
  creditsUsedRatio ← (if Js.lt 0 monthlyCredits
                       then Js.div totalSpent monthlyCredits else Some 0%Q);
  timeElapsedRatio ← (if 0 <? monthDays
                       then Js.div (inject_Z daysElapsed) (inject_Z monthDays)
                       else Some 0%Q);
  if Days.isFinite daysUntilExhaustion
     && Days.ltb daysUntilExhaustion (remainingDays - 3) then Some Risk.danger
  else if Js.le (Thresholds.danger thresholds) creditsUsedRatio then Some Risk.danger
  else if Js.le (Thresholds.warning thresholds) creditsUsedRatio then Some Risk.watch
  else if Js.lt (timeElapsedRatio + 0.15)%Q creditsUsedRatio then Some Risk.danger
  else if Js.lt (timeElapsedRatio + 0.05)%Q creditsUsedRatio then Some Risk.watch
  else Some Risk.safe.

Definition determineConfidenceLevel (expenseCount : nat) (daysElapsed : Z)
    : Confidence.t :=
  if (Z.of_nat expenseCount <? 3) || (daysElapsed <? 2) then Confidence.low
  else if (Z.of_nat expenseCount <? 10) || (daysElapsed <? 5) then Confidence.medium
  else Confidence.high.

Definition computeDerivedData (now : Z) (profile : Profile.t)
    (expenses : list Expense.t) : option Derived.t :=
  let today := now in
  let todayStr := Date.formatDate tz today in
  let startDate := Date.parse (Profile.startDate profile) in
  let endDate := Date.addDays startDate (Profile.monthDays profile - 1) in
  let daysElapsed := Z.max 0 ((today - startDate) / Date.MS_PER_DAY + 1) in
  let remainingDays := Z.max 0 (Profile.monthDays profile - daysElapsed) in
  let totalSpent := Js.sum Expense.cost expenses in
  let remainingCredits := Qmax 0 (Profile.monthlyCredits profile - totalSpent) in
  let todayExpenses := List.filter (fun exp => Expense.date exp =? todayStr) expenses in
  let todaySpend := Js.sum Expense.cost todayExpenses in
  burnRateOverall ← (if 0 <? daysElapsed
                      then Js.div totalSpent (inject_Z daysElapsed) else Some 0%Q);
  burnRate7d ← calculateBurnRateWindow now expenses 7 startDate;
  burnRate3d ← calculateBurnRateWindow now expenses 3 startDate;
  targetBurnRate ← Js.div (Profile.monthlyCredits profile)
                          (inject_Z (Profile.monthDays profile));
  dailySafeLimit ← calculateDailySafeLimit now profile expenses
                     {| DerivedBase.remainingCredits := remainingCredits;
                        DerivedBase.remainingDays := remainingDays;
                        DerivedBase.averageDailySpend := burnRateOverall;
                        DerivedBase.targetBurnRate := targetBurnRate |};
  prediction ← predictExhaustionDate remainingCredits
                 (if Js.lt 0 burnRate7d then burnRate7d else burnRateOverall)
                 today endDate;
  let projectedTotalSpend := (burnRateOverall * inject_Z (Profile.monthDays profile))%Q in
  let surplusOrDeficit := (Profile.monthlyCredits profile - projectedTotalSpend)%Q in
  riskLevel ← determineRiskLevel totalSpent (Profile.monthlyCredits profile)
                daysElapsed (Profile.monthDays profile)
                (Prediction.daysUntilExhaustion prediction) remainingDays
                (Preferences.notificationThresholds (Profile.preferences profile));
  creditsUsedRatio ← (if Js.lt 0 (Profile.monthlyCredits profile)
                       then Js.div totalSpent (Profile.monthlyCredits profile)
                       else Some 0%Q);
  timeElapsedRatio ← (if 0 <? Profile.monthDays profile
                       then Js.div (inject_Z daysElapsed)
                                   (inject_Z (Profile.monthDays profile))
                       else Some 0%Q);
  let confidenceLevel := determineConfidenceLevel (length expenses) daysElapsed in
  Some {| Derived.today := todayStr;
          Derived.daysElapsed := daysElapsed;
          Derived.remainingDays := remainingDays;
          Derived.totalSpent := totalSpent;
          Derived.remainingCredits := remainingCredits;
          Derived.todaySpend := todaySpend;
          Derived.dailySafeLimit := dailySafeLimit;
          Derived.averageDailySpend := burnRateOverall;
          Derived.burnRate7d := burnRate7d;
          Derived.burnRate3d := burnRate3d;
          Derived.burnRateOverall := burnRateOverall;
          Derived.targetBurnRate := targetBurnRate;
          Derived.predictedExhaustionDate := Prediction.predictedExhaustionDate prediction;
          Derived.daysUntilExhaustion := Prediction.daysUntilExhaustion prediction;
          Derived.riskLevel := riskLevel;
          Derived.surplusOrDeficit := surplusOrDeficit;
          Derived.creditsUsedRatio := creditsUsedRatio;
          Derived.timeElapsedRatio := timeElapsedRatio;
          Derived.confidenceLevel := confidenceLevel;
          Derived.endDate := Date.formatDate tz endDate |}.

End Engine.

(** ** Advice engine *)

Module Message.
(** A message is the sequence of the pieces of its template literal: fixed
    text, and interpolated numbers ([None] for a number that is not
    finite). *)
Inductive part := Txt (s : string) | Num (v : option Q).
Definition t := list part.

Definition int (z : Z) : part := Num (Some (inject_Z z)).
Definition num (q : Q) : part := Num (Some q).
Definition days (d : Days.t) : option Q :=
  match d with Days.Finite n => Some (inject_Z n) | Days.Infinity => None end.

(** The double-quote character. *)
Definition quote : string := String (Ascii.ascii_of_nat 34) EmptyString.
End Message.

Module AdviceItem.
Record t := mk {
  id : string;
  title : string;
  message : Message.t;
  severity : Severity.t;
  category : string
}.
End AdviceItem.

Module Rule.
(** [when] gets, before the arguments of the source, the instant that the
    rule reads from the clock. *)
Record t := mk {
  id : string;
  when : Z -> Profile.t -> Derived.t -> list Expense.t -> bool;
  message : Profile.t -> Derived.t -> list Expense.t -> Message.t;
  severity : Severity.t;
  category : string;
  title : string
}.
End Rule.

Definition Risk_eqb (a b : Risk.t) : bool :=
  match a, b with
  | Risk.safe, Risk.safe | Risk.watch, Risk.watch | Risk.danger, Risk.danger => true
  | _, _ => false
  end.

(** [expenses.filter(e => e.itemType === name)] *)
Definition ofItemType (name : string) (expenses : list Expense.t) : list Expense.t :=
  List.filter (fun e => String.eqb (Expense.itemType e) name) expenses.

(** The object literal of generateAdvice. *)
Definition severityOrder (s : Severity.t) : Z :=
  match s with
  | Severity.high => 0
  | Severity.medium => 1
  | Severity.low => 2
  end.

Section Advice.

Variable tz : Z.

Import Message.

Definition on_track : Rule.t :=
  {| Rule.id := "on_track";
     Rule.when := fun _ profile derived expenses =>
       Risk_eqb (Derived.riskLevel derived) Risk.safe
       && (3 <=? Z.of_nat (length expenses));
     Rule.message := fun profile derived _ =>
       [ Txt "You're on track! Maintain your current spending pattern to finish the month with ~₹";
         int (Z.abs (Js.Math_round (Derived.surplusOrDeficit derived)));
         Txt " ";
         Txt (if Js.le 0 (Derived.surplusOrDeficit derived) then "surplus" else "to spare");
         Txt "." ];
     Rule.severity := Severity.low;
     Rule.category := "positive";
     Rule.title := "✅ Great Progress" |}.

Definition overspending_early : Rule.t :=
  {| Rule.id := "overspending_early";
     Rule.when := fun _ profile derived expenses =>
       Js.le (inject_Z (Derived.daysElapsed derived))
             (inject_Z (Profile.monthDays profile) / 2)%Q
       && Js.lt (Derived.timeElapsedRatio derived + 0.1)%Q
                (Derived.creditsUsedRatio derived);
     Rule.message := fun profile derived _ =>
       [ Txt "You've used ";
         int (Js.Math_round (Derived.creditsUsedRatio derived * 100)%Q);
         Txt "% of credits in ";
         int (Js.Math_round (Derived.timeElapsedRatio derived * 100)%Q);
         Txt "% of the month. Consider reducing spending for the next ";
         int (Z.max 3 (Js.Math_round (inject_Z (Derived.remainingDays derived) / 3)%Q));
         Txt " days." ];
     Rule.severity := Severity.high;
     Rule.category := "spend_control";
     Rule.title := "⚠️ Early Overspending" |}.

Definition exhaustion_warning : Rule.t :=
  {| Rule.id := "exhaustion_warning";
     Rule.when := fun _ profile derived expenses =>
       Days.isFinite (Derived.daysUntilExhaustion derived)
       && Days.ltb (Derived.daysUntilExhaustion derived) (Derived.remainingDays derived);
     Rule.message := fun profile derived _ =>
       let shortfall :=
         d ← days (Derived.daysUntilExhaustion derived);
         Some (inject_Z (Derived.remainingDays derived) - d)%Q in
       [ Txt "At current rate, credits will finish ";
         Num shortfall;
         Txt " day(s) before month end. You'll need to reduce daily spending to ₹";
         Num (q ← Js.div (Derived.remainingCredits derived)
                         (inject_Z (Derived.remainingDays derived));
              Some (inject_Z (Js.Math_round q)));
         Txt " to last the full month." ];
     Rule.severity := Severity.high;
     Rule.category := "prediction";
     Rule.title := "🚨 Credit Exhaustion Alert" |}.

Definition frequent_chicken : Rule.t :=
  {| Rule.id := "frequent_chicken";
     Rule.when := fun _ profile derived expenses =>
       let chickenCount := length (ofItemType "chicken" expenses) in
       5 <=? Z.of_nat chickenCount;
     Rule.message := fun profile derived expenses =>
       let chickenCount := length (ofItemType "chicken" expenses) in
       let chickenCost := Js.sum Expense.cost (ofItemType "chicken" expenses) in
       [ Txt "You've had chicken ";
         int (Z.of_nat chickenCount);
         Txt " times (₹";
         num chickenCost;
         Txt " total). Swapping some for paneer or veg items could save ₹";
         int (Js.Math_round (chickenCost * 0.3)%Q);
         Txt "." ];
     Rule.severity := Severity.medium;
     Rule.category := "category_mix";
     Rule.title := "🍗 Chicken Frequency" |}.

Definition dessert_spending : Rule.t :=
  {| Rule.id := "dessert_spending";
     Rule.when := fun _ profile derived expenses =>
       let dessertTotal := Js.sum Expense.cost (ofItemType "dessert" expenses) in
       Js.lt (Profile.monthlyCredits profile * 0.1)%Q dessertTotal;
     Rule.message := fun profile derived expenses =>
       let dessertTotal := Js.sum Expense.cost (ofItemType "dessert" expenses) in
       [ Txt "Desserts account for ₹";
         num dessertTotal;
         Txt " (";
         Num (q ← Js.div dessertTotal (Profile.monthlyCredits profile);
              Some (inject_Z (Js.Math_round (q * 100)%Q)));
         Txt "% of budget). Consider limiting to weekends to save credits." ];
     Rule.severity := Severity.medium;
     Rule.category := "luxury";
     Rule.title := "🍰 Dessert Alert" |}.

Definition daily_limit_exceeded : Rule.t :=
  {| Rule.id := "daily_limit_exceeded";
     Rule.when := fun _ profile derived expenses =>
       Js.lt (inject_Z (Derived.dailySafeLimit derived)) (Derived.todaySpend derived)
       && (0 <? Derived.dailySafeLimit derived);
     Rule.message := fun profile derived _ =>
       [ Txt "Today's spending (₹";
         num (Derived.todaySpend derived);
         Txt ") exceeded your safe limit (₹";
         int (Derived.dailySafeLimit derived);
         Txt "). Consider a lighter dinner or skip snacks to balance." ];
     Rule.severity := Severity.high;
     Rule.category := "daily";
     Rule.title := "📊 Daily Limit Exceeded" |}.

Definition weekend_boost_suggestion : Rule.t :=
  {| Rule.id := "weekend_boost_suggestion";
     Rule.when := fun now profile derived expenses =>
       let today := now in
       let isWeekday := (1 <=? Date.getDay tz today) && (Date.getDay tz today <=? 5) in
       negb (Preferences.weekendBoost (Profile.preferences profile))
       && isWeekday
       && Js.lt (Derived.todaySpend derived)
                (inject_Z (Derived.dailySafeLimit derived) * 0.8)%Q;
     Rule.message := fun _ _ _ =>
       [ Txt "Tip: Enable "; Txt quote; Txt "Weekend Boost"; Txt quote;
         Txt " in preferences to save credits on weekdays and enjoy more on weekends." ];
     Rule.severity := Severity.low;
     Rule.category := "tip";
     Rule.title := "💡 Weekend Boost" |}.

Definition surplus_projection : Rule.t :=
  {| Rule.id := "surplus_projection";
     Rule.when := fun _ profile derived expenses =>
       Js.lt (Profile.monthlyCredits profile * 0.1)%Q (Derived.surplusOrDeficit derived)
       && (5 <=? Z.of_nat (length expenses));
     Rule.message := fun profile derived _ =>
       [ Txt "Great news! At current pace, you'll finish with ~₹";
         int (Js.Math_round (Derived.surplusOrDeficit derived));
         Txt " surplus. You can afford a bit more flexibility." ];
     Rule.severity := Severity.low;
     Rule.category := "positive";
     Rule.title := "🎉 Surplus Projected" |}.

Definition queue_risk : Rule.t :=
  {| Rule.id := "queue_risk";
     Rule.when := fun _ profile derived expenses =>
       Risk_eqb (Derived.riskLevel derived) Risk.danger
       && Js.lt (Derived.remainingCredits derived) 500;
     Rule.message := fun profile derived _ =>
       [ Txt "Credits are critically low (₹";
         num (Derived.remainingCredits derived);
         Txt "). You may need to use cash and face longer queues for the remaining ";
         int (Derived.remainingDays derived);
         Txt " days." ];
     Rule.severity := Severity.high;
     Rule.category := "warning";
     Rule.title := "🚶 Queue Risk" |}.

Definition adviceRules : list Rule.t :=
  [ on_track; overspending_early; exhaustion_warning; frequent_chicken;
    dessert_spending; daily_limit_exceeded; weekend_boost_suggestion;
    surplus_projection; queue_risk ].

(** The object that [map] builds from a triggered rule. *)
Definition toItem (profile : Profile.t) (derived : Derived.t)
    (expenses : list Expense.t) (rule : Rule.t) : AdviceItem.t :=
  {| AdviceItem.id := Rule.id rule;
     AdviceItem.title := Rule.title rule;
     AdviceItem.message := Rule.message rule profile derived expenses;
     AdviceItem.severity := Rule.severity rule;
     AdviceItem.category := Rule.category rule |}.

(** The comparator of the sort in generateAdvice. *)
Definition bySeverity (a b : AdviceItem.t) : Z :=
  severityOrder (AdviceItem.severity a) - severityOrder (AdviceItem.severity b).

Definition triggeredRules (now : Z) (profile : Profile.t) (derived : Derived.t)
    (expenses : list Expense.t) : list AdviceItem.t :=
  List.map (toItem profile derived expenses)
    (List.filter (fun rule => Rule.when rule now profile derived expenses) adviceRules).

Definition generateAdvice (now : Z) (profile : Profile.t) (derived : Derived.t)
    (expenses : list Expense.t) : list AdviceItem.t :=
  Js.slice0 5 (Js.sort bySeverity (triggeredRules now profile derived expenses)).

End Advice.

(** ** Definitions used to state the properties *)

(** The total cost of the records whose date, as an instant, lies in the
    closed interval from [lo] to [hi]. *)
Fixpoint costWithin (lo hi : Z) (records : list Expense.t) : Q :=
  match records with
  | [] => 0%Q
  | e :: rest =>
      let c := if decide (lo <= Date.parse (Expense.date e) <= hi)
               then Expense.cost e else 0%Q in
      (c + costWithin lo hi rest)%Q
  end.

(** The window burn rate as the specification words it (section 4.1), on
    calendar days: the window runs from max(today - windowDays + 1,
    periodStart) to today, both days included. *)
Fixpoint costOfDays (first last : Z) (records : list Expense.t) : Q :=
  match records with
  | [] => 0%Q
  | e :: rest =>
      let c := if decide (first <= Expense.date e <= last)
               then Expense.cost e else 0%Q in
      (c + costOfDays first last rest)%Q
  end.

Definition windowBurnRate_spec (records : list Expense.t)
    (windowDays periodStart today : Z) : Q :=
  let first := Z.max (today - windowDays + 1) periodStart in
  (costOfDays first today records / inject_Z (Z.max 1 (today - first + 1)))%Q.

(** The two ratios that the risk classifier compares: the share of the credits
    that is spent, and the share of the period that has elapsed; each is 0
    when its denominator is not positive. *)
Definition usedRatio (totalSpent monthlyCredits : Q) : Q :=
  if Qlt_le_dec 0 monthlyCredits then (totalSpent / monthlyCredits)%Q else 0%Q.

Definition elapsedRatio (daysElapsed monthDays : Z) : Q :=
  if Z_lt_le_dec 0 monthDays then (inject_Z daysElapsed / inject_Z monthDays)%Q else 0%Q.

(** The safe limit as the specification words it (section 4.3).  The risk
    tolerance is one of three names. *)
Module Tolerance.
Inductive t := low | medium | high.

Definition name (x : t) : string :=
  match x with low => "low" | medium => "medium" | high => "high" end.
End Tolerance.

(** Today is a Saturday or a Sunday. *)
Definition isWeekend (tz now : Z) : bool :=
  bool_decide (Date.getDay tz now = 0 \/ Date.getDay tz now = 6).

(** Steps 1 and 2: the plain quotient, divided by the square root of the
    overshoot when the average spend is above the target. *)
Definition dampedBase (sqrt : Q -> Q) (remainingCredits : Q) (remainingDays : Z)
    (averageDailySpend targetBurnRate : Q) : Q :=
  let base := (remainingCredits / inject_Z remainingDays)%Q in
  if Qlt_le_dec 0 averageDailySpend then
    if Qlt_le_dec 0 targetBurnRate then
      if Qlt_le_dec targetBurnRate averageDailySpend
      then (base / sqrt (averageDailySpend / targetBurnRate))%Q
      else base
    else base
  else base.

(** Steps 3 to 7, from the base of steps 1 and 2. *)
Definition boostedLimit (base factor : Q) (weekendBoost weekend examMode : bool)
    (cap : option Q) : Z :=
  let base := (base * factor)%Q in
  let base := if weekendBoost && weekend then (base * 1.15)%Q else base in
  let base := if examMode then (base * 1.05)%Q else base in
  let base := match cap with
              | Some c => if Qlt_le_dec 0 c then Qmin base c else base
              | None => base
              end in
  Js.Math_round (Qmax 0 base).

Definition safeLimit_spec (sqrt : Q -> Q) (remainingCredits : Q) (remainingDays : Z)
    (averageDailySpend targetBurnRate factor : Q)
    (weekendBoost weekend examMode : bool) (cap : option Q) : Z :=
  if Z_le_gt_dec remainingDays 0 then 0
  else boostedLimit
         (dampedBase sqrt remainingCredits remainingDays averageDailySpend targetBurnRate)
         factor weekendBoost weekend examMode cap.

(** What the engine needs of Math.pow: the power 0.5 of a number above 1 is
    positive. *)
Definition pow_positive (Math_pow : Q -> Q -> Q) : Prop :=
  forall x : Q, (1 < x)%Q -> (0 < Math_pow x 0.5)%Q.

(** A comparator that is the difference of two ranks, and the order in which
    it sorts. *)
Definition byRank {A : Type} (rank : A -> Z) (a b : A) : Z := rank a - rank b.

Definition ranked {A : Type} (rank : A -> Z) (a b : A) : Prop := rank a <= rank b.

(** The items of one severity. *)
Definition hasSeverity (s : Severity.t) (item : AdviceItem.t) : bool :=
  match AdviceItem.severity item, s with
  | Severity.high, Severity.high
  | Severity.medium, Severity.medium
  | Severity.low, Severity.low => true
  | _, _ => false
  end.

(** The rank by which generateAdvice sorts. *)
Definition severityRank (item : AdviceItem.t) : Z :=
  severityOrder (AdviceItem.severity item).

(** The ids of the nine rules, in the order of the table. *)
Definition ruleIds : list string :=
  [ "on_track"; "overspending_early"; "exhaustion_warning"; "frequent_chicken";
    "dessert_spending"; "daily_limit_exceeded"; "weekend_boost_suggestion";
    "surplus_projection"; "queue_risk" ]%string.

(** ** Concrete inputs *)

(** A stand-in for Math.pow(x, 0.5) on which the engine can be run: the
    square root of x to 26 binary digits (the exponent is not looked at). *)
Definition sqrtApprox (x y : Q) : Q :=
  (inject_Z (Z.sqrt (Qfloor (x * inject_Z (4 ^ 26)))) / inject_Z (2 ^ 26))%Q.

(** Twelve hours, in milliseconds. *)
Definition noon : Z := 12 * 60 * 60 * 1000.

(** A record of 90 credits. *)
Definition lunch (day : Z) : Expense.t :=
  {| Expense.id := "3f2b8c1e-5a7d-4e9f-8b6a-1c2d3e4f5a6b";
     Expense.date := day;
     Expense.mealType := "lunch";
     Expense.itemType := "veg";
     Expense.quantity := 1;
     Expense.cost := 90;
     Expense.notes := None |}.

(** Scenario B: scenario A with one record of 500 credits on the first day. *)
Definition dinner (day : Z) : Expense.t :=
  {| Expense.id := "9c4e7a12-0b3d-4f58-a6e1-7d8f9a0b1c2d";
     Expense.date := day;
     Expense.mealType := "dinner";
     Expense.itemType := "chicken";
     Expense.quantity := 2;
     Expense.cost := 500;
     Expense.notes := None |}.

(** The profile of scenario A: 6000 credits for 30 days, default
    preferences. *)
Definition scenarioA (userType : string) (startDate : Z) : Profile.t :=
  {| Profile.userType := userType;
     Profile.monthlyCredits := 6000;
     Profile.monthDays := 30;
     Profile.startDate := startDate;
     Profile.preferences := defaultPreferences |}.

(** ** The numbers of the host *)

Module F64.

(** A number of JavaScript is an IEEE 754 binary64 value.  [spec_float] of
    the standard library is its specification: 53 bits of precision,
    exponents below 1024, every operation rounded to the nearest number,
    ties to the even one. *)
Definition prec : Z := 53.
Definition emax : Z := 1024.
Definition number : Set := spec_float.

(** The values of [spec_float] that are binary64 numbers: a finite one has
    its mantissa in its place (53 digits, or fewer at the least exponent).
    The properties below hold of every value; where one needs this, it says
    so. *)
Definition valid (x : number) : bool := valid_binary prec emax x.

Definition NaN : number := S754_nan.
Definition Infinity : number := S754_infinity false.

(** An integer literal, and the number of a value that is integral in the
    code. *)
Definition ofZ (z : Z) : number := binary_normalize prec emax z 0 false.

(** [a + b], [a * b], [a / b] *)
Definition add : number -> number -> number := SFadd prec emax.
Definition mul : number -> number -> number := SFmul prec emax.
Definition div : number -> number -> number := SFdiv prec emax.

(** A decimal literal, written as the fraction [n / d] of its digits and a
    power of ten: the number nearest to it (0.15 is [decimal 15 100]). *)
Definition decimal (n d : Z) : number := div (ofZ n) (ofZ d).

(** [a < b], [a <= b], [a === b]: false when an operand is NaN; the two
    zeros are equal.  Two finite values of the same sign are compared by
    their exponents and then by their mantissas, which is the order of the
    numbers they denote when both are binary64 numbers. *)
Definition lt : number -> number -> bool := SFltb.
Definition le : number -> number -> bool := SFleb.
Definition eqb : number -> number -> bool := SFeqb.

(** The truth value of a number: every number but 0, -0 and NaN is truthy. *)
Definition truthy (x : number) : bool :=
  match x with
  | S754_zero _ | S754_nan => false
  | _ => true
  end.

(** Math.round: the integer nearest to a finite number, halves towards
    +Infinity; a number without fractional bits is integral already.  A
    result 0 keeps the sign of the argument. *)
Definition Math_round (x : number) : number :=
  match x with
  | S754_finite s m e =>
      if 0 <=? e then x
      else
        let r := Qfloor (inject_Z (cond_Zopp s (Z.pos m)) * 2 ^ e + (1 # 2)) in
        if r =? 0 then S754_zero s else ofZ r
  | _ => x
  end.

(** Math.ceil *)
Definition Math_ceil (x : number) : number :=
  match x with
  | S754_finite s m e =>
      if 0 <=? e then x
      else
        let r := Qceiling (inject_Z (cond_Zopp s (Z.pos m)) * 2 ^ e) in
        if r =? 0 then S754_zero s else ofZ r
  | _ => x
  end.

(** Math.max and Math.min of two numbers: NaN when one of them is NaN; of
    the two zeros, +0 is the larger one. *)
Definition Math_max (a b : number) : number :=
  match a, b with
  | S754_nan, _ | _, S754_nan => NaN
  | _, _ =>
      if lt a b then b
      else if lt b a then a
      else match a with S754_zero true => b | _ => a end
  end.

Definition Math_min (a b : number) : number :=
  match a, b with
  | S754_nan, _ | _, S754_nan => NaN
  | _, _ =>
      if lt a b then a
      else if lt b a then b
      else match a with S754_zero false => b | _ => a end
  end.

(** The integer that a finite number denotes, its fraction cut off
    (ToIntegerOrInfinity). *)
Definition toZ (x : number) : option Z :=
  match x with
  | S754_zero _ => Some 0
  | S754_finite s m e =>
      Some (cond_Zopp s (if 0 <=? e then Z.pos m * 2 ^ e else Z.pos m / 2 ^ (- e)))
  | _ => None
  end.

End F64.

(** ** Objects and their prototype *)

Module JsObject.

(** An object literal inherits from Object.prototype.  Its own properties
    are a finite map; these are the names of the properties it inherits, each
    one a function but for __proto__, which reads the prototype itself. *)
Definition protoNames : list string :=
  [ "constructor"; "hasOwnProperty"; "isPrototypeOf"; "propertyIsEnumerable";
    "toLocaleString"; "toString"; "valueOf"; "__defineGetter__";
    "__defineSetter__"; "__lookupGetter__"; "__lookupSetter__"; "__proto__" ]%string.

Definition isProtoName (key : string) : bool :=
  existsb (String.eqb key) protoNames.

(** What reading a property finds. *)
Inductive property (A : Type) : Type :=
| own (v : A)
| inherited
| absent.

Arguments own {A} v.
Arguments inherited {A}.
Arguments absent {A}.

(** [o[key]] *)
Definition get {A : Type} (o : gmap string A) (key : string) : property A :=
  match o !! key with
  | Some v => own v
  | None => if isProtoName key then inherited else absent
  end.

(** [o[key] = v] for a value [v] that is not an object: the new own property
    hides an inherited one, but for __proto__, whose setter ignores such a
    value. *)
Definition set {A : Type} (o : gmap string A) (key : string) (v : A) : gmap string A :=
  if String.eqb key "__proto__" then o else <[key := v]> o.

End JsObject.

(** ** The calculation functions on the numbers of the host *)

(** The three functions whose result is a rounded integer, the outcome of a
    comparison or a date are written here a second time, with binary64
    numbers where the definitions above have exact rationals, with the
    inherited properties of the table of tolerance factors, and with the
    range of Date.  The numbers of days and the time values are integers far
    below 2^53, on which the arithmetic of the host is exact: they are [Z]
    as before, and [F64.ofZ] where they meet another number. *)
Module Double.

Module Thresholds.
Record t := mk { warning : F64.number; danger : F64.number }.
End Thresholds.

Module Preferences.
Record t := mk {
  riskTolerance : option string;
  weekendBoost : bool;
  examMode : bool;
  maxSpendPerDay : option F64.number;
  vegetarian : bool;
  notificationThresholds : Thresholds.t
}.
End Preferences.

Module Profile.
Record t := mk {
  userType : string;
  monthlyCredits : F64.number;
  monthDays : Z;
  startDate : Z;
  preferences : Preferences.t
}.
End Profile.

Module Expense.
Record t := mk {
  id : string;
  date : Z;
  mealType : string;
  itemType : string;
  quantity : Z;
  cost : F64.number;
  notes : option string
}.
End Expense.

Module DerivedBase.
Record t := mk {
  remainingCredits : F64.number;
  remainingDays : Z;
  averageDailySpend : F64.number;
  targetBurnRate : F64.number
}.
End DerivedBase.

Module DateText.
(** What formatDate returns: the text of a day, or 'NaN-NaN-NaN' for an
    invalid Date. *)
Inductive t := day (d : Z) | invalid.
End DateText.

Module Prediction.
Record t := mk {
  predictedExhaustionDate : option DateText.t;
  daysUntilExhaustion : F64.number
}.
End Prediction.

(** The time value of a Date object is a whole number of milliseconds of at
    most 8.64e15 in absolute value, or NaN ([None]) for an invalid Date. *)
Definition MAX_TIME : Z := 8640000000000000.

Definition TimeClip (t : Z) : option Z :=
  if Z.abs t <=? MAX_TIME then Some t else None.

(** [new Date(value)] for a Date [value]: a new object with the time value
    of [value], clipped to the range. *)
Definition newDate (value : option Z) : option Z :=
  t ← value; TimeClip t.

(** The time value of [d] after [d.setDate(d.getDate() + k)], for a number
    [k] without a fraction (the code passes the result of Math.ceil): [k]
    days later at the same local time, or invalid when [d] is invalid, when
    [k] is not finite or when the new time is out of range. *)
Definition setDate_plus (d : option Z) (k : F64.number) : option Z :=
  t ← d; n ← F64.toZ k; TimeClip (Date.addDays t n).

(** [formatDate(date)]: the local year, month and day of [new Date(date)];
    each is NaN for an invalid Date. *)
Definition formatDate (tz : Z) (date : option Z) : DateText.t :=
  match newDate date with
  | Some t => DateText.day (Date.formatDate tz t)
  | None => DateText.invalid
  end.

(** The object literal of calculateDailySafeLimit. *)
Definition toleranceFactors : gmap string F64.number :=
  {[ "low"%string := F64.decimal 85 100;
     "medium"%string := F64.ofZ 1;
     "high"%string := F64.decimal 11 10 ]}.

(** [toleranceFactors[key]]; an absent key reads the property 'undefined',
    which the object neither has nor inherits. *)
Definition toleranceFactor (key : option string) : JsObject.property F64.number :=
  match key with
  | Some k => JsObject.get toleranceFactors k
  | None => JsObject.absent
  end.

Section Engine.

(** Math.pow of the host and the offset of the local time zone (ms). *)
Variable Math_pow : F64.number -> F64.number -> F64.number.
Variable tz : Z.

(** A property that the table inherits is a function or an object; its
    product with a number is NaN. *)
Definition calculateDailySafeLimit (now : Z) (profile : Profile.t)
    (expenses : list Expense.t) (derivedBase : DerivedBase.t) : F64.number :=
  let remainingCredits := DerivedBase.remainingCredits derivedBase in
  let remainingDays := DerivedBase.remainingDays derivedBase in
  let averageDailySpend := DerivedBase.averageDailySpend derivedBase in
  let targetBurnRate := DerivedBase.targetBurnRate derivedBase in
  let prefs := Profile.preferences profile in
  if remainingDays <=? 0 then F64.ofZ 0 else
  let base := F64.div remainingCredits (F64.ofZ remainingDays) in
  let base := if F64.lt (F64.ofZ 0) averageDailySpend
                 && F64.lt (F64.ofZ 0) targetBurnRate
                 && F64.lt targetBurnRate averageDailySpend
              then
                let overshootRatio := F64.div averageDailySpend targetBurnRate in
                F64.div base (Math_pow overshootRatio (F64.decimal 5 10))
              else base in
  let base := match toleranceFactor (Preferences.riskTolerance prefs) with
              | JsObject.own factor =>
                  F64.mul base (if F64.truthy factor then factor else F64.ofZ 1)
              | JsObject.inherited => F64.NaN
              | JsObject.absent => F64.mul base (F64.ofZ 1)
              end in
  let today := now in
  let isWeekend := (Date.getDay tz today =? 0) || (Date.getDay tz today =? 6) in
  let base := if Preferences.weekendBoost prefs && isWeekend
              then F64.mul base (F64.decimal 115 100) else base in
  let base := if Preferences.examMode prefs
              then F64.mul base (F64.decimal 105 100) else base in
  let base := match Preferences.maxSpendPerDay prefs with
              | Some cap =>
                  if F64.truthy cap && F64.lt (F64.ofZ 0) cap
                  then F64.Math_min base cap else base
              | None => base
              end in
  F64.Math_max (F64.ofZ 0) (F64.Math_round base).

Definition predictExhaustionDate (remainingCredits burnRate : F64.number)
    (today endDate : option Z) : Prediction.t :=
  if F64.le remainingCredits (F64.ofZ 0) then
    {| Prediction.predictedExhaustionDate := Some (formatDate tz today);
       Prediction.daysUntilExhaustion := F64.ofZ 0 |}
  else if F64.le burnRate (F64.ofZ 0) then
    {| Prediction.predictedExhaustionDate := None;
       Prediction.daysUntilExhaustion := F64.Infinity |}
  else
    let daysUntilExhaustion := F64.Math_ceil (F64.div remainingCredits burnRate) in
    let exhaustionDate := newDate today in
    let exhaustionDate := setDate_plus exhaustionDate daysUntilExhaustion in
    {| Prediction.predictedExhaustionDate := Some (formatDate tz exhaustionDate);
       Prediction.daysUntilExhaustion := daysUntilExhaustion |}.

Definition determineRiskLevel (totalSpent monthlyCredits : F64.number)
    (daysElapsed monthDays : Z) (daysUntilExhaustion : F64.number)
    (remainingDays : Z) (thresholds : Thresholds.t) : Risk.t :=
  let creditsUsedRatio :=
    if F64.lt (F64.ofZ 0) monthlyCredits
    then F64.div totalSpent monthlyCredits else F64.ofZ 0 in
  let timeElapsedRatio :=
    if 0 <? monthDays
    then F64.div (F64.ofZ daysElapsed) (F64.ofZ monthDays) else F64.ofZ 0 in
  if negb (F64.eqb daysUntilExhaustion F64.Infinity)
     && F64.lt daysUntilExhaustion (F64.ofZ (remainingDays - 3)) then Risk.danger
  else if F64.le (Thresholds.danger thresholds) creditsUsedRatio then Risk.danger
  else if F64.le (Thresholds.warning thresholds) creditsUsedRatio then Risk.watch
  else if F64.lt (F64.add timeElapsedRatio (F64.decimal 15 100)) creditsUsedRatio
  then Risk.danger
  else if F64.lt (F64.add timeElapsedRatio (F64.decimal 5 100)) creditsUsedRatio
  then Risk.watch
  else Risk.safe.

End Engine.

Module Store.

(** Date objects are mutable.  A store holds the time value of every Date
    object at its address; [new Date(v)] takes the next free address. *)
Definition getTime (s : list (option Z)) (a : nat) : option Z :=
  default None (s !! a).

(** [new Date(value)] for the Date at address [value] *)
Definition newDate (value : nat) (s : list (option Z)) : nat * list (option Z) :=
  (length s, s ++ [Double.newDate (getTime s value)]).

(** [d.setDate(d.getDate() + k)], in place. *)
Definition setDate_plus (d : nat) (k : F64.number) (s : list (option Z))
    : list (option Z) :=
  <[d := Double.setDate_plus (getTime s d) k]> s.

(** [formatDate(date)]: [const d = new Date(date)], then the local year,
    month and day of [d]. *)
Definition formatDate (tz : Z) (date : nat) (s : list (option Z))
    : DateText.t * list (option Z) :=
  let '(d, s) := newDate date s in
  (match getTime s d with
   | Some t => DateText.day (Date.formatDate tz t)
   | None => DateText.invalid
   end, s).

End Store.

(** predictExhaustionDate once more, with its two Date arguments as objects
    in a store: the function copies [today] ([new Date(today)]) before it
    moves the copy with [setDate]. *)
Definition predictExhaustionDate_store (tz : Z) (remainingCredits burnRate : F64.number)
    (today endDate : nat) (s : list (option Z)) : Prediction.t * list (option Z) :=
  if F64.le remainingCredits (F64.ofZ 0) then
    let '(str, s) := Store.formatDate tz today s in
    ({| Prediction.predictedExhaustionDate := Some str;
        Prediction.daysUntilExhaustion := F64.ofZ 0 |}, s)
  else if F64.le burnRate (F64.ofZ 0) then
    ({| Prediction.predictedExhaustionDate := None;
        Prediction.daysUntilExhaustion := F64.Infinity |}, s)
  else
    let daysUntilExhaustion := F64.Math_ceil (F64.div remainingCredits burnRate) in
    let '(exhaustionDate, s) := Store.newDate today s in
    let s := Store.setDate_plus exhaustionDate daysUntilExhaustion s in
    let '(str, s) := Store.formatDate tz exhaustionDate s in
    ({| Prediction.predictedExhaustionDate := Some str;
        Prediction.daysUntilExhaustion := daysUntilExhaustion |}, s).

(** *** Definitions used to state the properties *)

(** The factor of each of the three names of the table. *)
Definition factor (x : Tolerance.t) : F64.number :=
  match x with
  | Tolerance.low => F64.decimal 85 100
  | Tolerance.medium => F64.ofZ 1
  | Tolerance.high => F64.decimal 11 10
  end.

(** Steps 1 and 2 of the safe limit as the specification words them: the
    quotient, divided by the square root of the overshoot when the average
    spend is above the target. *)
Definition dampedBase (sqrt : F64.number -> F64.number)
    (remainingCredits : F64.number) (remainingDays : Z)
    (averageDailySpend targetBurnRate : F64.number) : F64.number :=
  let base := F64.div remainingCredits (F64.ofZ remainingDays) in
  if F64.lt (F64.ofZ 0) averageDailySpend then
    if F64.lt (F64.ofZ 0) targetBurnRate then
      if F64.lt targetBurnRate averageDailySpend
      then F64.div base (sqrt (F64.div averageDailySpend targetBurnRate))
      else base
    else base
  else base.

(** Steps 3 to 7 as the specification words them (section 4.3), from the
    base of steps 1 and 2: the three factors in sequence, the cap, the floor
    at 0 and then the rounding. *)
Definition boostedLimit (base factor : F64.number)
    (weekendBoost weekend examMode : bool) (cap : option F64.number) : F64.number :=
  let base := F64.mul base factor in
  let base := if weekendBoost && weekend then F64.mul base (F64.decimal 115 100) else base in
  let base := if examMode then F64.mul base (F64.decimal 105 100) else base in
  let base := match cap with
              | Some c => if F64.lt (F64.ofZ 0) c then F64.Math_min base c else base
              | None => base
              end in
  F64.Math_round (F64.Math_max (F64.ofZ 0) base).

(** The two ratios that the risk classifier compares. *)
Definition usedRatio (totalSpent monthlyCredits : F64.number) : F64.number :=
  if F64.lt (F64.ofZ 0) monthlyCredits
  then F64.div totalSpent monthlyCredits else F64.ofZ 0.

Definition elapsedRatio (daysElapsed monthDays : Z) : F64.number :=
  if 0 <? monthDays
  then F64.div (F64.ofZ daysElapsed) (F64.ofZ monthDays) else F64.ofZ 0.


(** *** Concrete inputs *)

(** Math.pow(x, 0.5) as the square root, correctly rounded. *)
Definition sqrt64 (x y : F64.number) : F64.number := SFsqrt F64.prec F64.emax x.

(** 2^-1040, a number so small that 6000 divided by it is not finite. *)
Definition tiny : F64.number := S754_finite false (2 ^ 34)%positive (-1074).

(** The thresholds of createDefaultProfile. *)
Definition defaultThresholds : Thresholds.t :=
  {| Thresholds.warning := F64.decimal 7 10; Thresholds.danger := F64.decimal 9 10 |}.

(** The profile of scenario A with a risk tolerance and the two switches. *)
Definition scenario (riskTolerance : option string) (boost : bool) : Profile.t :=
  {| Profile.userType := "hostel_student";
     Profile.monthlyCredits := F64.ofZ 6000;
     Profile.monthDays := 30;
     Profile.startDate := 0;
     Profile.preferences :=
       {| Preferences.riskTolerance := riskTolerance;
          Preferences.weekendBoost := boost;
          Preferences.examMode := boost;
          Preferences.maxSpendPerDay := None;
          Preferences.vegetarian := false;
          Preferences.notificationThresholds := defaultThresholds |} |}.

(** [credits] for [days] days, after an average spend below the target. *)
Definition onTarget (credits days : Z) : DerivedBase.t :=
  {| DerivedBase.remainingCredits := F64.ofZ credits;
     DerivedBase.remainingDays := days;
     DerivedBase.averageDailySpend := F64.ofZ 100;
     DerivedBase.targetBurnRate := F64.ofZ 200 |}.

End Double.

(** ** Forms and application state *)

(** The forms reach the code as FormData; parseInt, parseFloat and
    [new Date(string)] are functions of the host.  A form is written here
    with its fields as the host reads them: [None] is NaN for a number, and
    null or the empty string for a text; a date is the value of a date
    input, empty ([None]) or a date.  Of the application object the handlers
    below read and write the profile and the expenses; saving to
    localStorage, rendering and the toasts are left out. *)

Module JsText.

(** The truth value of a text: every text but the empty one is truthy. *)
Definition truthy (s : string) : bool :=
  match s with EmptyString => false | String _ _ => true end.

(** [o || d] where [o] is a text, null or undefined. *)
Definition or_else (o : option string) (d : string) : string :=
  match o with
  | Some s => if truthy s then s else d
  | None => d
  end.

(** [o || null] *)
Definition or_null (o : option string) : option string :=
  match o with
  | Some s => if truthy s then Some s else None
  | None => None
  end.

End JsText.

Module JsInt.

(** [o || d] where [o] is the result of parseInt. *)
Definition or_else (o : option Z) (d : Z) : Z :=
  match o with
  | Some v => if v =? 0 then d else v
  | None => d
  end.

End JsInt.

(** [d.setHours(23, 59, 59, 999)]: the last millisecond of the local day of
    [d]. *)
Definition endOfDay (tz d : Z) : Z :=
  (Date.localDay tz d + 1) * Date.MS_PER_DAY - tz - 1.

Module ExpenseData.
(** The argument of createExpenseEntry. *)
Record t := mk {
  date : Z;
  mealType : option string;
  itemType : option string;
  quantity : option Z;
  cost : option Q;
  notes : option string
}.
End ExpenseData.

Module ExpenseForm.
(** The fields of the expense form. *)
Record t := mk {
  date : option Z;
  mealType : option string;
  itemType : option string;
  quantity : option Z;
  cost : option Q;
  notes : option string
}.
End ExpenseForm.

Module SetupForm.
(** The fields of the setup form. *)
Record t := mk {
  userType : string;
  monthlyCredits : option Q;
  monthDays : option Z;
  startDate : option Z;
  vegetarian : option string
}.
End SetupForm.

Module App.
(** The state of UnmessifyApp that the handlers read and write. *)
Record t := mk {
  profile : option Profile.t;
  expenses : list Expense.t
}.
End App.

(** [uuid] is the value that generateUUID returns. *)
Definition createExpenseEntry (uuid : string) (data : ExpenseData.t) : Expense.t :=
  {| Expense.id := uuid;
     Expense.date := ExpenseData.date data;
     Expense.mealType := JsText.or_else (ExpenseData.mealType data) "lunch";
     Expense.itemType := JsText.or_else (ExpenseData.itemType data) "veg";
     Expense.quantity := JsInt.or_else (ExpenseData.quantity data) 1;
     Expense.cost := Js.or_else (ExpenseData.cost data) 0;
     Expense.notes := JsText.or_null (ExpenseData.notes data) |}.

(** validateSetupForm: the object [errors], from field name to message. *)
Definition validateSetupForm (form : SetupForm.t) : gmap string string :=
  let errors : gmap string string := ∅ in
  let errors :=
    match SetupForm.monthlyCredits form with
    | None => <["monthlyCredits"%string := "Credits must be between ₹3,000 and ₹10,000"%string]> errors
    | Some credits =>
        if Js.lt credits 3000 || Js.lt 10000 credits
        then <["monthlyCredits"%string := "Credits must be between ₹3,000 and ₹10,000"%string]> errors
        else errors
    end in
  let errors :=
    match SetupForm.monthDays form with
    | None => <["monthDays"%string := "Days must be between 28 and 31"%string]> errors
    | Some days =>
        if (days <? 28) || (31 <? days)
        then <["monthDays"%string := "Days must be between 28 and 31"%string]> errors
        else errors
    end in
  let errors :=
    match SetupForm.startDate form with
    | None => <["startDate"%string := "Start date is required"%string]> errors
    | Some _ => errors
    end in
  errors.

(** validateExpenseForm, with the profile of the application ([this.profile])
    and the reading of the clock. *)
Definition validateExpenseForm (tz now : Z) (profile : option Profile.t)
    (form : ExpenseForm.t) : gmap string string :=
  let errors : gmap string string := ∅ in
  let errors :=
    match ExpenseForm.date form with
    | None => <["expenseDate"%string := "Date is required"%string]> errors
    | Some date =>
        let expDate := Date.parse date in
        let today := endOfDay tz now in
        let errors :=
          if today <? expDate
          then <["expenseDate"%string := "Date cannot be in the future"%string]> errors
          else errors in
        match profile with
        | Some p =>
            let startDate := Date.parse (Profile.startDate p) in
            let endDate := Date.addDays startDate (Profile.monthDays p - 1) in
            if (expDate <? startDate) || (endDate <? expDate)
            then <["expenseDate"%string := "Date must be within your billing month"%string]> errors
            else errors
        | None => errors
        end
    end in
  let errors :=
    match ExpenseForm.cost form with
    | None => <["cost"%string := "Cost must be greater than 0"%string]> errors
    | Some cost =>
        if Js.le cost 0
        then <["cost"%string := "Cost must be greater than 0"%string]> errors
        else if Js.lt 2000 cost
        then <["cost"%string := "Cost seems too high. Please verify."%string]> errors
        else errors
    end in
  let errors :=
    match ExpenseForm.quantity form with
    | None => <["quantity"%string := "Quantity must be at least 1"%string]> errors
    | Some quantity =>
        if quantity <? 1
        then <["quantity"%string := "Quantity must be at least 1"%string]> errors
        else errors
    end in
  errors.

(** [Object.keys(errors).length > 0] *)
Definition hasErrors (errors : gmap string string) : bool :=
  bool_decide (errors ≠ ∅).

(** The comparator of the sort in handleExpenseSubmit: latest date first. *)
Definition byDateDescending (a b : Expense.t) : Z :=
  Date.parse (Expense.date b) - Date.parse (Expense.date a).

(** handleSetupSubmit on the state.  The last case is never reached: a form
    that lacks one of the three fields has an error. *)
Definition handleSetupSubmit (form : SetupForm.t) (app : App.t) : App.t :=
  let errors := validateSetupForm form in
  if hasErrors errors then app
  else
    match SetupForm.monthlyCredits form, SetupForm.monthDays form,
          SetupForm.startDate form with
    | Some credits, Some days, Some start =>
        let prefs := match App.profile app with
                     | Some p => Profile.preferences p
                     | None => defaultPreferences
                     end in
        let profile :=
          {| Profile.userType := SetupForm.userType form;
             Profile.monthlyCredits := credits;
             Profile.monthDays := days;
             Profile.startDate := start;
             Profile.preferences :=
               {| Preferences.riskTolerance := Preferences.riskTolerance prefs;
                  Preferences.weekendBoost := Preferences.weekendBoost prefs;
                  Preferences.examMode := Preferences.examMode prefs;
                  Preferences.maxSpendPerDay := Preferences.maxSpendPerDay prefs;
                  Preferences.vegetarian :=
                    bool_decide (SetupForm.vegetarian form = Some "true"%string);
                  Preferences.notificationThresholds :=
                    Preferences.notificationThresholds prefs |} |} in
        {| App.profile := Some profile; App.expenses := App.expenses app |}
    | _, _, _ => app
    end.

(** handleExpenseSubmit on the state; [uuid] is the value that generateUUID
    returns.  The case of a form without date is never reached after the
    validation. *)
Definition handleExpenseSubmit (tz now : Z) (uuid : string) (form : ExpenseForm.t)
    (app : App.t) : App.t :=
  match App.profile app with
  | None => app
  | Some _ =>
      let errors := validateExpenseForm tz now (App.profile app) form in
      if hasErrors errors then app
      else
        match ExpenseForm.date form with
        | None => app
        | Some date =>
            let expense :=
              createExpenseEntry uuid
                {| ExpenseData.date := date;
                   ExpenseData.mealType := ExpenseForm.mealType form;
                   ExpenseData.itemType := ExpenseForm.itemType form;
                   ExpenseData.quantity := ExpenseForm.quantity form;
                   ExpenseData.cost := ExpenseForm.cost form;
                   ExpenseData.notes := ExpenseForm.notes form |} in
            {| App.profile := App.profile app;
               App.expenses := Js.sort byDateDescending (App.expenses app ++ [expense]) |}
        end
  end.

(** deleteExpense, once the user has confirmed. *)
Definition deleteExpense (id : string) (app : App.t) : App.t :=
  {| App.profile := App.profile app;
     App.expenses :=
       List.filter (fun exp => negb (String.eqb (Expense.id exp) id)) (App.expenses app) |}.

(** renderHistory shows [this.expenses.slice(0, 10)]. *)
Definition recentExpenses (app : App.t) : list Expense.t :=
  Js.slice0 10 (App.expenses app).

(** renderMetrics: the width of today's progress bar, in per cent, and its
    class. *)
Definition todayProgress (derived : Derived.t) : option (Q * string) :=
  todayPercent ← (if 0 <? Derived.dailySafeLimit derived
                  then q ← Js.div (Derived.todaySpend derived)
                                  (inject_Z (Derived.dailySafeLimit derived));
                       Some (Qmin 100 (q * 100))
                  else Some 0%Q);
  Some (todayPercent,
        if Js.lt 100 todayPercent then "danger"%string
        else if Js.lt 80 todayPercent then "risk"%string
        else "safe"%string).

(** ** Charts *)

(** What a property of categoryTotals or of categoryCounts holds: a number,
    or the text that [+] makes when its left operand is not a number (the
    function or the object that was inherited, or such a text). *)
Module Cell.
Inductive t (A : Type) : Type :=
| num (v : A)
| text.

Arguments num {A} v.
Arguments text {A}.
End Cell.

(** updateCategoryChart: one round of the loop over the expenses.
    [(o[cat] || 0) + x] adds to the number that [o] has for [cat], or to 0
    when it has none or has 0; a value that [o] inherits, or a text, is
    truthy and makes a text.  The assignment [o[cat] = ...] is
    [JsObject.set]. *)
Definition categoryStep (acc : gmap string (Cell.t Q) * gmap string (Cell.t Z))
    (exp : Expense.t) : gmap string (Cell.t Q) * gmap string (Cell.t Z) :=
  let cat := Expense.itemType exp in
  let total :=
    match JsObject.get (fst acc) cat with
    | JsObject.own (Cell.num v) =>
        Cell.num ((if Js.truthy v then v else 0) + Expense.cost exp)%Q
    | JsObject.own Cell.text | JsObject.inherited => Cell.text
    | JsObject.absent => Cell.num (0 + Expense.cost exp)%Q
    end in
  let count :=
    match JsObject.get (snd acc) cat with
    | JsObject.own (Cell.num v) => Cell.num ((if v =? 0 then 0 else v) + 1)
    | JsObject.own Cell.text | JsObject.inherited => Cell.text
    | JsObject.absent => Cell.num (0 + 1)
    end in
  (JsObject.set (fst acc) cat total, JsObject.set (snd acc) cat count).

(** The objects categoryTotals and categoryCounts after the loop. *)
Definition categoryAggregates (expenses : list Expense.t)
    : gmap string (Cell.t Q) * gmap string (Cell.t Z) :=
  fold_left categoryStep expenses (∅, ∅).

(** updateDailySpendChart: the array daysData, one entry for each day of the
    period, null ([None]) for the days after today. *)
Definition daysData (tz now : Z) (profile : Profile.t) (expenses : list Expense.t)
    : list (option Q) :=
  let startDate := Date.parse (Profile.startDate profile) in
  List.map (fun i =>
    let currentDate := Date.addDays startDate i in
    let dayExpenses :=
      List.filter (fun exp => Expense.date exp =? Date.formatDate tz currentDate) expenses in
    let dayTotal := Js.sum Expense.cost dayExpenses in
    let today := endOfDay tz now in
    if currentDate <=? today then Some dayTotal else None)
    (seqZ 0 (Profile.monthDays profile)).

(** updateDepletionChart: the array actualRemaining; the loop carries
    cumulativeSpend from one day to the next. *)
Definition actualStep (tz now : Z) (profile : Profile.t) (expenses : list Expense.t)
    (acc : Q * list (option Q)) (i : Z) : Q * list (option Q) :=
  let startDate := Date.parse (Profile.startDate profile) in
  let currentDate := Date.addDays startDate i in
  let today := endOfDay tz now in
  if currentDate <=? today then
    let dayExpenses :=
      List.filter (fun exp => Expense.date exp =? Date.formatDate tz currentDate) expenses in
    let dayTotal := Js.sum Expense.cost dayExpenses in
    let cumulativeSpend := (fst acc + dayTotal)%Q in
    (cumulativeSpend,
     snd acc ++ [Some (Profile.monthlyCredits profile - cumulativeSpend)%Q])
  else (fst acc, snd acc ++ [None]).

Definition actualRemaining (tz now : Z) (profile : Profile.t)
    (expenses : list Expense.t) : list (option Q) :=
  snd (fold_left (actualStep tz now profile expenses)
         (seqZ 0 (Profile.monthDays profile)) (0%Q, [])).

(** ** More definitions used to state properties *)

(** The order of the confidence levels. *)
Definition confidenceRank (c : Confidence.t) : Z :=
  match c with
  | Confidence.low => 0
  | Confidence.medium => 1
  | Confidence.high => 2
  end.

(** The total cost of the records of one day. *)
Definition costOn (day : Z) (expenses : list Expense.t) : Q :=
  Js.sum Expense.cost (List.filter (fun exp => Expense.date exp =? day) expenses).


(** The order of the expense list: the later date first. *)
Definition latestFirst (a b : Expense.t) : Prop :=
  Expense.date b <= Expense.date a.

(** The total cost of the records dated from [first] to [last]. *)
Definition costBetween (first last : Z) (expenses : list Expense.t) : Q :=
  Js.sum Expense.cost
    (List.filter (fun exp => (first <=? Expense.date exp) && (Expense.date exp <=? last))
       expenses).

(** ** More concrete inputs *)

(** The expense form filled in for a vegetarian lunch of 90 credits, the
    notes left empty. *)
Definition lunchForm (day : Z) : ExpenseForm.t :=
  {| ExpenseForm.date := Some day;
     ExpenseForm.mealType := Some "lunch"%string;
     ExpenseForm.itemType := Some "veg"%string;
     ExpenseForm.quantity := Some 1;
     ExpenseForm.cost := Some 90%Q;
     ExpenseForm.notes := Some EmptyString |}.

(** The state of scenario B: the profile of scenario A and one record of 500
    credits on the first day. *)
Definition studentApp : App.t :=
  {| App.profile := Some (scenarioA "hostel_student" 100);
     App.expenses := [dinner 100] |}.

(** The setup form of scenario A, for a vegetarian, with the credits left
    open. *)
Definition setupForm (credits : Q) : SetupForm.t :=
  {| SetupForm.userType := "hostel_student";
     SetupForm.monthlyCredits := Some credits;
     SetupForm.monthDays := Some 30;
     SetupForm.startDate := Some 100;
     SetupForm.vegetarian := Some "true"%string |}.

(** The metrics of scenario B at noon of the first day. *)
Definition derivedB : Derived.t :=
  {| Derived.today := 100;
     Derived.daysElapsed := 1;
     Derived.remainingDays := 29;
     Derived.totalSpent := 500;
     Derived.remainingCredits := 5500;
     Derived.todaySpend := 500;
     Derived.dailySafeLimit := 120;
     Derived.averageDailySpend := 500;
     Derived.burnRate7d := 500;
     Derived.burnRate3d := 500;
     Derived.burnRateOverall := 500;
     Derived.targetBurnRate := 6000 # 30;
     Derived.predictedExhaustionDate := Some 111;
     Derived.daysUntilExhaustion := Days.Finite 11;
     Derived.riskLevel := Risk.danger;
     Derived.surplusOrDeficit := -9000;
     Derived.creditsUsedRatio := 500 # 6000;
     Derived.timeElapsedRatio := 1 # 30;
     Derived.confidenceLevel := Confidence.low;
     Derived.endDate := 129 |}.

(** ** Facts about the host primitives *)

Lemma Js_lt_spec (a b : Q) : Js.lt a b = true <-> (a < b)%Q.
Proof.
  unfold Js.lt. rewrite negb_true_iff, <- not_true_iff_false, Qle_bool_iff.
  split; [apply Qnot_le_lt | apply Qlt_not_le].
Qed.

Lemma Js_lt_false (a b : Q) : Js.lt a b = false <-> (b <= a)%Q.
Proof.
  unfold Js.lt. rewrite negb_false_iff. apply Qle_bool_iff.
Qed.

Lemma Js_le_spec (a b : Q) : Js.le a b = true <-> (a <= b)%Q.
Proof. apply Qle_bool_iff. Qed.

Lemma Js_le_false (a b : Q) : Js.le a b = false <-> (b < a)%Q.
Proof.
  unfold Js.le. rewrite <- not_true_iff_false, Qle_bool_iff.
  split; [apply Qnot_le_lt | apply Qlt_not_le].
Qed.

Lemma Js_div_Some (a b : Q) : ~ (b == 0)%Q -> Js.div a b = Some (a / b)%Q.
Proof.
  intros Hb. unfold Js.div.
  destruct (Qeq_bool b 0) eqn:E; [| reflexivity].
  apply Qeq_bool_iff in E. contradiction.
Qed.

Lemma Qpos_nonzero (q : Q) : (0 < q)%Q -> ~ (q == 0)%Q.
Proof. intros Hq E. rewrite E in Hq. now apply Qlt_irrefl in Hq. Qed.

Lemma inject_Z_nonzero (z : Z) : z <> 0 -> ~ (inject_Z z == 0)%Q.
Proof.
  intros Hz E. apply Hz. unfold Qeq in E. simpl in E. lia.
Qed.

Lemma inject_Z_pos (z : Z) : 0 < z -> (0 < inject_Z z)%Q.
Proof. intros Hz. unfold Qlt. simpl. lia. Qed.

Lemma Js_sum_acc {A : Type} (f : A -> Q) (xs : list A) (a : Q) :
  (fold_left (fun acc x => acc + f x) xs a == a + Js.sum f xs)%Q.
Proof.
  unfold Js.sum. revert a.
  induction xs as [| x xs IH]; intros a; simpl.
  - ring.
  - rewrite (IH (a + f x)%Q), (IH (0 + f x)%Q). ring.
Qed.

Lemma Js_sum_cons {A : Type} (f : A -> Q) (x : A) (xs : list A) :
  (Js.sum f (x :: xs) == f x + Js.sum f xs)%Q.
Proof.
  unfold Js.sum at 1. simpl. rewrite Js_sum_acc. ring.
Qed.

Lemma Js_sum_nonneg {A : Type} (f : A -> Q) (xs : list A) :
  Forall (fun x => (0 <= f x)%Q) xs -> (0 <= Js.sum f xs)%Q.
Proof.
  induction 1 as [| x xs Hx _ IH].
  - unfold Js.sum. simpl. apply Qle_refl.
  - rewrite Js_sum_cons.
    lra.
Qed.

Lemma Math_round_nonneg (q : Q) : (0 <= q)%Q -> 0 <= Js.Math_round q.
Proof.
  intros Hq. unfold Js.Math_round.
  change 0 with (Qfloor 0). apply Qfloor_resp_le. lra.
Qed.

Lemma Math_round_neg (q : Q) : (q < 0)%Q -> Js.Math_round q <= 0.
Proof.
  intros Hq. unfold Js.Math_round.
  change 0 with (Qfloor (1 # 2)). apply Qfloor_resp_le. lra.
Qed.

(** Flooring at 0 and rounding commute. *)
Lemma Math_round_max (q : Q) :
  Z.max 0 (Js.Math_round q) = Js.Math_round (Qmax 0 q).
Proof.
  destruct (Qlt_le_dec q 0) as [Hneg | Hpos].
  - rewrite Z.max_l by now apply Math_round_neg.
    unfold Js.Math_round. transitivity (Qfloor (0 + (1 # 2))); [reflexivity |].
    apply Qfloor_comp.
    rewrite Q.max_l by now apply Qlt_le_weak. reflexivity.
  - rewrite Z.max_r by now apply Math_round_nonneg.
    unfold Js.Math_round. apply Qfloor_comp.
    rewrite Q.max_r by assumption. reflexivity.
Qed.

Lemma MS_PER_DAY_pos : 0 < Date.MS_PER_DAY.
Proof. reflexivity. Qed.

Lemma formatDate_addDays (tz d k : Z) :
  Date.formatDate tz (Date.addDays d k) = Date.formatDate tz d + k.
Proof.
  unfold Date.formatDate, Date.localDay, Date.addDays.
  replace (d + k * Date.MS_PER_DAY + tz) with (d + tz + k * Date.MS_PER_DAY) by ring.
  apply Z.div_add. pose proof MS_PER_DAY_pos. lia.
Qed.


(** ** The window aggregator *)

Lemma windowExpenses_total (lo hi : Z) (expenses : list Expense.t) :
  (Js.sum Expense.cost
     (List.filter (fun exp =>
        let expDate := Date.parse (Expense.date exp) in
        (lo <=? expDate) && (expDate <=? hi)) expenses)
   == costWithin lo hi expenses)%Q.
Proof.
  induction expenses as [| e rest IH]; simpl.
  - reflexivity.
  - destruct (decide (lo <= Date.parse (Expense.date e) <= hi)) as [Hin | Hout].
    + replace (lo <=? Date.parse (Expense.date e)) with true by (symmetry; apply Z.leb_le; lia).
      replace (Date.parse (Expense.date e) <=? hi) with true by (symmetry; apply Z.leb_le; lia).
      simpl. rewrite Js_sum_cons, IH. reflexivity.
    + replace ((lo <=? Date.parse (Expense.date e)) && (Date.parse (Expense.date e) <=? hi))
        with false.
      * rewrite IH. ring.
      * symmetry. apply andb_false_iff.
        destruct (Z.leb_spec lo (Date.parse (Expense.date e))); [right | now left].
        apply Z.leb_gt. lia.
Qed.

Lemma costWithin_nonneg (lo hi : Z) (expenses : list Expense.t) :
  Forall (fun e => (0 <= Expense.cost e)%Q) expenses ->
  (0 <= costWithin lo hi expenses)%Q.
Proof.
  induction 1 as [| e rest He _ IH]; simpl.
  - apply Qle_refl.
  - destruct (decide _); lra.
Qed.

(** The rate that calculateBurnRateWindow returns: its division has a divisor
    of at least 1. *)
Lemma calculateBurnRateWindow_rate
    (now windowDays startDate : Z) (expenses : list Expense.t) :
  let lo := Z.max (now - (windowDays - 1) * Date.MS_PER_DAY) startDate in
  let days := Z.max 1 ((now - lo) / Date.MS_PER_DAY + 1) in
  exists rate : Q,
    calculateBurnRateWindow now expenses windowDays startDate = Some rate
    /\ (rate == costWithin lo now expenses / inject_Z days)%Q.
Proof.
  intros lo days.
  unfold calculateBurnRateWindow.
  set (ws := Date.addDays now (- windowDays + 1)).
  assert (Heff : (if startDate <? ws then ws else startDate) = lo).
  { subst ws lo. unfold Date.addDays.
    destruct (Z.ltb_spec startDate (now + (- windowDays + 1) * Date.MS_PER_DAY)); lia. }
  rewrite Heff. fold days.
  rewrite Js_div_Some by (apply inject_Z_nonzero; lia).
  eexists. split; [reflexivity |].
  now rewrite windowExpenses_total.
Qed.

(** calculateBurnRateWindow on instants: it adds the costs of the records
    whose date, midnight UTC of its day, lies between
    max(now - (windowDays - 1) days, startDate) and now, and divides by
    max(1, whole days between the two ends + 1).  The divisor is at least 1,
    and the rate is not negative when no cost is. *)
Lemma calculateBurnRateWindow_instants
    (now windowDays startDate : Z) (expenses : list Expense.t) :
  Forall (fun e => (0 <= Expense.cost e)%Q) expenses ->
  let lo := Z.max (now - (windowDays - 1) * Date.MS_PER_DAY) startDate in
  let days := Z.max 1 ((now - lo) / Date.MS_PER_DAY + 1) in
  exists rate : Q,
    calculateBurnRateWindow now expenses windowDays startDate = Some rate
    /\ (rate == costWithin lo now expenses / inject_Z days)%Q
    /\ 1 <= days
    /\ (0 <= rate)%Q.
Proof.
  intros Hcost lo days.
  destruct (calculateBurnRateWindow_rate now windowDays startDate expenses)
    as (rate & Hrate & Heq).
  fold lo days in Heq.
  exists rate. split; [exact Hrate |]. split; [exact Heq |].
  split; [subst days; lia |].
  rewrite Heq. apply Qle_shift_div_l.
  - apply inject_Z_pos. subst days. lia.
  - rewrite Qmult_0_l. now apply costWithin_nonneg.
Qed.

Lemma costWithin_days (lo hi first last : Z) (expenses : list Expense.t) :
  (forall day : Z, lo <= Date.parse day <= hi <-> first <= day <= last) ->
  (costWithin lo hi expenses == costOfDays first last expenses)%Q.
Proof.
  intros Hdays. induction expenses as [| e rest IH]; simpl.
  - reflexivity.
  - rewrite IH.
    destruct (decide (lo <= Date.parse (Expense.date e) <= hi)) as [Hin | Hout],
             (decide (first <= Expense.date e <= last)) as [Hin' | Hout'];
      try reflexivity; exfalso.
    + now apply Hout', Hdays.
    + now apply Hout, Hdays.
Qed.

(** Where the code agrees with the specification: when the clock reads
    midnight UTC, or when the window is cut at the start of the period. *)
Lemma calculateBurnRateWindow_on_days
    (today timeOfDay windowDays periodStart : Z) (expenses : list Expense.t) :
  0 <= timeOfDay < Date.MS_PER_DAY ->
  timeOfDay = 0 \/ today - windowDays + 1 < periodStart ->
  exists rate : Q,
    calculateBurnRateWindow (Date.parse today + timeOfDay) expenses windowDays
      (Date.parse periodStart) = Some rate
    /\ (rate == windowBurnRate_spec expenses windowDays periodStart today)%Q.
Proof.
  intros Htime Hcase.
  destruct (calculateBurnRateWindow_rate (Date.parse today + timeOfDay) windowDays
              (Date.parse periodStart) expenses) as (rate & Hrate & Heq).
  exists rate. split; [exact Hrate |]. rewrite Heq. clear Hrate Heq.
  unfold windowBurnRate_spec.
  set (first := Z.max (today - windowDays + 1) periodStart).
  set (lo := Z.max _ (Date.parse periodStart)).
  assert (Hlo : lo = Date.parse first).
  { subst lo first. unfold Date.parse, Date.MS_PER_DAY in *. lia. }
  rewrite Hlo.
  assert (Hdays : (Date.parse today + timeOfDay - Date.parse first) / Date.MS_PER_DAY
                  = today - first).
  { replace (Date.parse today + timeOfDay - Date.parse first)
      with ((today - first) * Date.MS_PER_DAY + timeOfDay)
      by (unfold Date.parse; ring).
    rewrite Z.div_add_l by (unfold Date.MS_PER_DAY; lia).
    rewrite (Z.div_small timeOfDay) by assumption. ring. }
  rewrite Hdays.
  rewrite (costWithin_days _ _ first today); [reflexivity |].
  intros day. unfold Date.parse, Date.MS_PER_DAY in *. lia.
Qed.

(** Where it does not: past midnight UTC, with a window that is not cut, the
    records of the first day of the window are left out, and the divisor
    still counts that day. *)
Lemma calculateBurnRateWindow_first_day_dropped
    (today timeOfDay windowDays periodStart : Z) (expenses : list Expense.t) :
  0 < timeOfDay < Date.MS_PER_DAY ->
  periodStart <= today - windowDays + 1 ->
  exists rate : Q,
    calculateBurnRateWindow (Date.parse today + timeOfDay) expenses windowDays
      (Date.parse periodStart) = Some rate
    /\ (rate == costOfDays (today - windowDays + 2) today expenses
                / inject_Z (Z.max 1 windowDays))%Q.
Proof.
  intros Htime Hcase.
  destruct (calculateBurnRateWindow_rate (Date.parse today + timeOfDay) windowDays
              (Date.parse periodStart) expenses) as (rate & Hrate & Heq).
  exists rate. split; [exact Hrate |]. rewrite Heq. clear Hrate Heq.
  set (lo := Z.max _ (Date.parse periodStart)).
  assert (Hlo : lo = Date.parse (today - windowDays + 1) + timeOfDay).
  { subst lo. unfold Date.parse, Date.MS_PER_DAY in *. lia. }
  rewrite Hlo.
  replace (Date.parse today + timeOfDay - (Date.parse (today - windowDays + 1) + timeOfDay))
    with ((windowDays - 1) * Date.MS_PER_DAY) by (unfold Date.parse; ring).
  rewrite Z.div_mul by (unfold Date.MS_PER_DAY; lia).
  replace (windowDays - 1 + 1) with windowDays by ring.
  rewrite (costWithin_days _ _ (today - windowDays + 2) today); [reflexivity |].
  intros day. unfold Date.parse, Date.MS_PER_DAY in *. lia.
Qed.

(** C8, at an input where the code departs from it.  At noon UTC of day 10,
    with a window of 3 days, a period that started on day 0 and one record
    of 90 credits on day 8: the window of the claim is days 8 to 10 and its
    rate is 90 / 3 = 30, whereas calculateBurnRateWindow leaves the record
    out (its date, midnight of day 8, is before noon of day 8) and returns
    0 / 3 = 0.  The division itself is by 3, not by zero. *)
Theorem calculateBurnRateWindow_midday :
  (windowBurnRate_spec [lunch 8] 3 0 10 == 30)%Q
  /\ exists rate : Q,
       calculateBurnRateWindow (Date.parse 10 + noon) [lunch 8] 3 (Date.parse 0)
       = Some rate
       /\ (rate == 0)%Q
       /\ ~ (rate == windowBurnRate_spec [lunch 8] 3 0 10)%Q.
Proof.
  split; [reflexivity |].
  eexists. split; [reflexivity |]. split; [reflexivity |].
  intros E. discriminate E.
Qed.

(** ** The exhaustion predictor *)

(** The three cases of predictExhaustionDate; its division has a positive
    divisor. *)
Lemma predictExhaustionDate_cases
    (tz : Z) (remainingCredits burnRate : Q) (today endDate : Z) :
  predictExhaustionDate tz remainingCredits burnRate today endDate
  = Some
      (if Qlt_le_dec 0 remainingCredits then
         if Qlt_le_dec 0 burnRate then
           let daysUntil := Qceiling (remainingCredits / burnRate) in
           {| Prediction.predictedExhaustionDate :=
                Some (Date.formatDate tz today + daysUntil);
              Prediction.daysUntilExhaustion := Days.Finite daysUntil |}
         else
           {| Prediction.predictedExhaustionDate := None;
              Prediction.daysUntilExhaustion := Days.Infinity |}
       else
         {| Prediction.predictedExhaustionDate := Some (Date.formatDate tz today);
            Prediction.daysUntilExhaustion := Days.Finite 0 |}).
Proof.
  unfold predictExhaustionDate.
  destruct (Qlt_le_dec 0 remainingCredits) as [Hrc | Hrc].
  - rewrite (proj2 (Js_le_false _ _) Hrc).
    destruct (Qlt_le_dec 0 burnRate) as [Hbr | Hbr].
    + rewrite (proj2 (Js_le_false _ _) Hbr).
      rewrite Js_div_Some by now apply Qpos_nonzero.
      simpl. unfold Js.Math_ceil. now rewrite formatDate_addDays.
    + now rewrite (proj2 (Js_le_spec _ _) Hbr).
  - now rewrite (proj2 (Js_le_spec _ _) Hrc).
Qed.


(** ** The risk classifier *)

Lemma usedRatio_guarded (totalSpent monthlyCredits : Q) :
  (if Js.lt 0 monthlyCredits then Js.div totalSpent monthlyCredits else Some 0%Q)
  = Some (usedRatio totalSpent monthlyCredits).
Proof.
  unfold usedRatio. destruct (Qlt_le_dec 0 monthlyCredits) as [Hpos | Hneg].
  - rewrite (proj2 (Js_lt_spec _ _) Hpos). now apply Js_div_Some, Qpos_nonzero.
  - now rewrite (proj2 (Js_lt_false _ _) Hneg).
Qed.

Lemma elapsedRatio_guarded (daysElapsed monthDays : Z) :
  (if 0 <? monthDays
   then Js.div (inject_Z daysElapsed) (inject_Z monthDays) else Some 0%Q)
  = Some (elapsedRatio daysElapsed monthDays).
Proof.
  unfold elapsedRatio. destruct (Z_lt_le_dec 0 monthDays) as [Hpos | Hneg].
  - rewrite (proj2 (Z.ltb_lt _ _) Hpos). apply Js_div_Some, inject_Z_nonzero. lia.
  - now rewrite (proj2 (Z.ltb_ge _ _) Hneg).
Qed.


(** determineRiskLevel never fails, and its result is the one of the ordered
    list of rules. *)
Lemma determineRiskLevel_rules (totalSpent monthlyCredits : Q)
    (daysElapsed monthDays : Z) (daysUntilExhaustion : Days.t)
    (remainingDays : Z) (thresholds : Thresholds.t) :
  determineRiskLevel totalSpent monthlyCredits daysElapsed monthDays
    daysUntilExhaustion remainingDays thresholds
  = Some
      (let used := usedRatio totalSpent monthlyCredits in
       let elapsed := elapsedRatio daysElapsed monthDays in
       if Days.isFinite daysUntilExhaustion
          && Days.ltb daysUntilExhaustion (remainingDays - 3) then Risk.danger
       else if Js.le (Thresholds.danger thresholds) used then Risk.danger
       else if Js.le (Thresholds.warning thresholds) used then Risk.watch
       else if Js.lt (elapsed + 0.15)%Q used then Risk.danger
       else if Js.lt (elapsed + 0.05)%Q used then Risk.watch
       else Risk.safe).
Proof.
  unfold determineRiskLevel.
  rewrite usedRatio_guarded, elapsedRatio_guarded. simpl.
  repeat match goal with
         | |- context [if ?b then _ else _] => destruct b
         end; reflexivity.
Qed.

(** ** The safe-limit calculator *)

Section SafeLimit.

Variable Math_pow : Q -> Q -> Q.
Variable tz : Z.

Lemma weekend_test (now : Z) :
  (Date.getDay tz now =? 0) || (Date.getDay tz now =? 6) = isWeekend tz now.
Proof.
  unfold isWeekend.
  destruct (Z.eqb_spec (Date.getDay tz now) 0) as [E0 | N0]; simpl.
  - symmetry. apply bool_decide_eq_true. now left.
  - destruct (Z.eqb_spec (Date.getDay tz now) 6) as [E6 | N6].
    + symmetry. apply bool_decide_eq_true. now right.
    + symmetry. apply bool_decide_eq_false. tauto.
Qed.

Lemma cap_test (cap : Q) :
  Js.truthy cap && Js.lt 0 cap = if Qlt_le_dec 0 cap then true else false.
Proof.
  destruct (Qlt_le_dec 0 cap) as [Hpos | Hneg].
  - rewrite (proj2 (Js_lt_spec _ _) Hpos), andb_true_r.
    unfold Js.truthy. apply negb_true_iff, not_true_iff_false.
    rewrite Qeq_bool_iff. now apply Qpos_nonzero.
  - rewrite (proj2 (Js_lt_false _ _) Hneg). apply andb_false_r.
Qed.

(** Steps 1 and 2 of the code: both divisions have a divisor that is not
    zero, and the result is the damped base. *)
Lemma damping_guarded {B : Type} (k : Q -> option B) (remainingCredits : Q)
    (remainingDays : Z) (averageDailySpend targetBurnRate : Q) :
  pow_positive Math_pow -> 0 < remainingDays ->
  (base ← Js.div remainingCredits (inject_Z remainingDays);
   base ← (if Js.lt 0 averageDailySpend && Js.lt 0 targetBurnRate
              && Js.lt targetBurnRate averageDailySpend
           then overshootRatio ← Js.div averageDailySpend targetBurnRate;
                Js.div base (Math_pow overshootRatio 0.5)
           else Some base);
   k base)
  = k (dampedBase (fun x => Math_pow x 0.5) remainingCredits remainingDays
         averageDailySpend targetBurnRate).
Proof.
  intros Hpow Hdays. unfold dampedBase.
  rewrite (Js_div_Some remainingCredits (inject_Z remainingDays))
    by (apply inject_Z_nonzero; lia).
  simpl.
  destruct (Qlt_le_dec 0 averageDailySpend) as [Havg | Havg];
    [rewrite (proj2 (Js_lt_spec _ _) Havg)
    | now rewrite (proj2 (Js_lt_false _ _) Havg)].
  destruct (Qlt_le_dec 0 targetBurnRate) as [Htgt | Htgt];
    [rewrite (proj2 (Js_lt_spec _ _) Htgt)
    | now rewrite (proj2 (Js_lt_false _ _) Htgt)].
  destruct (Qlt_le_dec targetBurnRate averageDailySpend) as [Hover | Hover];
    [rewrite (proj2 (Js_lt_spec _ _) Hover)
    | now rewrite (proj2 (Js_lt_false _ _) Hover)].
  simpl. rewrite Js_div_Some by now apply Qpos_nonzero. simpl.
  rewrite Js_div_Some; [reflexivity |].
  apply Qpos_nonzero, Hpow.
  apply Qlt_shift_div_l; [assumption | now rewrite Qmult_1_l].
Qed.

(** The code, for any value of riskTolerance, against the wording of the
    specification with the factor that the lookup yields. *)
Lemma calculateDailySafeLimit_spec (now : Z) (profile : Profile.t)
    (expenses : list Expense.t) (derivedBase : DerivedBase.t) :
  pow_positive Math_pow ->
  let prefs := Profile.preferences profile in
  calculateDailySafeLimit Math_pow tz now profile expenses derivedBase
  = Some (safeLimit_spec (fun x => Math_pow x 0.5)
            (DerivedBase.remainingCredits derivedBase)
            (DerivedBase.remainingDays derivedBase)
            (DerivedBase.averageDailySpend derivedBase)
            (DerivedBase.targetBurnRate derivedBase)
            (Js.or_else (toleranceFactor (Preferences.riskTolerance prefs)) 1.0)
            (Preferences.weekendBoost prefs) (isWeekend tz now)
            (Preferences.examMode prefs) (Preferences.maxSpendPerDay prefs)).
Proof.
  intros Hpow prefs. unfold calculateDailySafeLimit, safeLimit_spec.
  destruct (Z_le_gt_dec (DerivedBase.remainingDays derivedBase) 0) as [Hle | Hgt].
  - now rewrite (proj2 (Z.leb_le _ _) Hle).
  - rewrite (proj2 (Z.leb_gt _ _)) by lia.
    rewrite damping_guarded by (assumption || lia). simpl.
    fold prefs. rewrite weekend_test. unfold boostedLimit.
    rewrite Math_round_max. do 2 f_equal.
    destruct (Preferences.maxSpendPerDay prefs) as [cap |]; [| reflexivity].
    rewrite cap_test. now destruct (Qlt_le_dec 0 cap).
Qed.

Lemma safeLimit_spec_nonneg (sqrt : Q -> Q) (remainingCredits : Q)
    (remainingDays : Z) (averageDailySpend targetBurnRate factor : Q)
    (weekendBoost weekend examMode : bool) (cap : option Q) :
  0 <= safeLimit_spec sqrt remainingCredits remainingDays averageDailySpend
         targetBurnRate factor weekendBoost weekend examMode cap.
Proof.
  unfold safeLimit_spec, boostedLimit.
  destruct (Z_le_gt_dec remainingDays 0); [lia |].
  apply Math_round_nonneg, Q.le_max_l.
Qed.

Lemma calculateDailySafeLimit_nonneg (now : Z) (profile : Profile.t)
    (expenses : list Expense.t) (derivedBase : DerivedBase.t) :
  pow_positive Math_pow ->
  exists limit : Z,
    calculateDailySafeLimit Math_pow tz now profile expenses derivedBase = Some limit
    /\ 0 <= limit.
Proof.
  intros Hpow. eexists. split.
  - now apply calculateDailySafeLimit_spec.
  - apply safeLimit_spec_nonneg.
Qed.

End SafeLimit.

(** ** The metrics engine *)

Lemma averageSpend_guarded (totalSpent : Q) (daysElapsed : Z) :
  exists rate : Q,
    (if 0 <? daysElapsed then Js.div totalSpent (inject_Z daysElapsed) else Some 0%Q)
    = Some rate.
Proof.
  destruct (Z.ltb_spec 0 daysElapsed) as [Hpos | Hneg].
  - eexists. apply Js_div_Some, inject_Z_nonzero. lia.
  - now eexists.
Qed.

(** C1. For every profile with a positive number of period days whose
    riskTolerance is not the name of a property that every object inherits
    (so for low, medium and high, whatever the credits and the other
    preferences are) and every list of expense records (whatever their
    costs, so however large the total spent), computeDerivedData returns a
    result, no division in it has a zero divisor, and in the result
    remainingCredits >= 0 and dailySafeLimit >= 0.  For an inherited name the
    lookup of the tolerance factor finds a value that is not a number, and
    the limit is NaN. *)
Theorem computeDerivedData_total_nonneg (Math_pow : Q -> Q -> Q) (tz now : Z)
    (profile : Profile.t) (expenses : list Expense.t) :
  pow_positive Math_pow ->
  (forall name : string,
     Preferences.riskTolerance (Profile.preferences profile) = Some name ->
     JsObject.isProtoName name = false) ->
  0 < Profile.monthDays profile ->
  exists d : Derived.t,
    computeDerivedData Math_pow tz now profile expenses = Some d
    /\ (0 <= Derived.remainingCredits d)%Q
    /\ 0 <= Derived.dailySafeLimit d.
Proof.
  intros Hpow Hown Hdays. unfold computeDerivedData.
  set (startDate := Date.parse (Profile.startDate profile)).
  set (daysElapsed := Z.max 0 ((now - startDate) / Date.MS_PER_DAY + 1)).
  set (totalSpent := Js.sum Expense.cost expenses).
  set (remainingCredits := Qmax 0 (Profile.monthlyCredits profile - totalSpent)).
  destruct (averageSpend_guarded totalSpent daysElapsed) as (overall & ->).
  destruct (calculateBurnRateWindow_rate now 7 startDate expenses) as (rate7 & -> & _).
  destruct (calculateBurnRateWindow_rate now 3 startDate expenses) as (rate3 & -> & _).
  rewrite (Js_div_Some (Profile.monthlyCredits profile))
    by (apply inject_Z_nonzero; lia).
  cbn [mbind option_bind].
  match goal with
  | |- context [calculateDailySafeLimit Math_pow tz now profile expenses ?base] =>
      destruct (calculateDailySafeLimit_nonneg Math_pow tz now profile expenses base Hpow)
        as (limit & -> & Hlimit)
  end.
  cbn [mbind option_bind].
  rewrite predictExhaustionDate_cases. cbn [mbind option_bind].
  rewrite determineRiskLevel_rules. cbn [mbind option_bind].
  rewrite usedRatio_guarded, elapsedRatio_guarded. cbn [mbind option_bind].
  eexists. split; [reflexivity |]. simpl.
  split; [apply Q.le_max_l | exact Hlimit].
Qed.

Lemma calculateBurnRateWindow_nil (now windowDays startDate : Z) :
  exists rate : Q,
    calculateBurnRateWindow now [] windowDays startDate = Some rate
    /\ (rate == 0)%Q.
Proof.
  destruct (calculateBurnRateWindow_rate now windowDays startDate [])
    as (rate & Hrate & Heq).
  exists rate. split; [exact Hrate |]. rewrite Heq. simpl.
  unfold Qdiv. apply Qmult_0_l.
Qed.

Lemma first_day_elapsed (now startDay : Z) :
  Date.parse startDay <= now < Date.parse startDay + Date.MS_PER_DAY ->
  Z.max 0 ((now - Date.parse startDay) / Date.MS_PER_DAY + 1) = 1.
Proof.
  intros Hnow. rewrite Z.div_small by lia. reflexivity.
Qed.

(** C2, as amended. In scenario A (6000 credits, 30 days, medium tolerance and
    default preferences, no expense record), at any instant of the first day
    of the period, computeDerivedData returns daysElapsed = 1, totalSpent = 0,
    remainingCredits = 6000, dailySafeLimit = round(6000 / 29 * 1.0) = 207,
    riskLevel safe and confidenceLevel low. *)
Theorem scenario_A_first_day (Math_pow : Q -> Q -> Q) (tz now startDay : Z)
    (userType : string) :
  Date.parse startDay <= now < Date.parse startDay + Date.MS_PER_DAY ->
  exists d : Derived.t,
    computeDerivedData Math_pow tz now (scenarioA userType startDay) [] = Some d
    /\ Derived.daysElapsed d = 1
    /\ (Derived.totalSpent d == 0)%Q
    /\ (Derived.remainingCredits d == 6000)%Q
    /\ Derived.remainingDays d = 29
    /\ Derived.dailySafeLimit d = Js.Math_round (6000 / 29 * 1.0)
    /\ Derived.dailySafeLimit d = 207
    /\ Derived.riskLevel d = Risk.safe
    /\ Derived.confidenceLevel d = Confidence.low.
Proof.
  intros Hnow. unfold computeDerivedData.
  cbn [scenarioA Profile.startDate Profile.monthDays Profile.monthlyCredits
       Profile.preferences].
  rewrite (first_day_elapsed now startDay Hnow).
  destruct (calculateBurnRateWindow_nil now 7 (Date.parse startDay)) as (rate7 & -> & H7).
  destruct (calculateBurnRateWindow_nil now 3 (Date.parse startDay)) as (rate3 & -> & H3).
  assert (Hlt : Js.lt 0 rate7 = false) by (apply Js_lt_false; rewrite H7; apply Qle_refl).
  cbn [mbind option_bind]. rewrite Hlt.
  unfold calculateDailySafeLimit, predictExhaustionDate.
  generalize (Date.getDay tz now) as weekday.
  generalize (Date.formatDate tz now) as todayStr.
  generalize (Date.formatDate tz (Date.addDays (Date.parse startDay) (30 - 1))) as endStr.
  intros endStr todayStr weekday.
  eexists. split; [vm_compute; reflexivity |].
  vm_compute. repeat split.
Qed.

(** C2 as stated fails: at the first instant of the first day the safe limit
    of scenario A is 207, not 200. *)
Lemma scenario_A_first_day_counterexample :
  ~ exists d : Derived.t,
      computeDerivedData (fun _ _ => 1%Q) 0 0 (scenarioA "hostel_student" 0) [] = Some d
      /\ Derived.daysElapsed d = 1
      /\ (Derived.totalSpent d == 0)%Q
      /\ (Derived.remainingCredits d == 6000)%Q
      /\ Derived.dailySafeLimit d = Js.Math_round (6000 / 30 * 1.0)
      /\ Derived.dailySafeLimit d = 200
      /\ Derived.riskLevel d = Risk.safe
      /\ Derived.confidenceLevel d = Confidence.low.
Proof.
  intros (d & Hd & _ & _ & _ & _ & Hlimit & _).
  vm_compute in Hd. inversion Hd; subst d. discriminate Hlimit.
Qed.

(** ** Sorting by a rank *)

Lemma sort_insert_perm {A : Type} (rank : A -> Z) (x : A) (l : list A) :
  Permutation (Js.sort_insert (byRank rank) x l) (x :: l).
Proof.
  induction l as [| y l IH]; simpl.
  - reflexivity.
  - destruct (0 <? byRank rank x y).
    + rewrite IH. apply perm_swap.
    + reflexivity.
Qed.

Lemma sort_perm {A : Type} (rank : A -> Z) (l : list A) :
  Permutation (Js.sort (byRank rank) l) l.
Proof.
  induction l as [| x l IH]; simpl.
  - reflexivity.
  - rewrite sort_insert_perm. now apply perm_skip.
Qed.

Lemma sort_insert_sorted {A : Type} (rank : A -> Z) (x : A) (l : list A) :
  StronglySorted (ranked rank) l ->
  StronglySorted (ranked rank) (Js.sort_insert (byRank rank) x l).
Proof.
  induction 1 as [| y l Hsorted IH Hall]; simpl.
  - repeat constructor.
  - destruct (Z.ltb_spec 0 (byRank rank x y)) as [Hgt | Hle]; unfold byRank in *.
    + constructor; [exact IH |].
      eapply Permutation_Forall; [symmetry; apply sort_insert_perm |].
      constructor; [unfold ranked; lia | exact Hall].
    + constructor; [now constructor |].
      constructor; [unfold ranked; lia |].
      eapply Forall_impl; [exact Hall |].
      intros z Hz. unfold ranked in *. lia.
Qed.

Lemma sort_sorted {A : Type} (rank : A -> Z) (l : list A) :
  StronglySorted (ranked rank) (Js.sort (byRank rank) l).
Proof.
  induction l as [| x l IH]; simpl.
  - constructor.
  - now apply sort_insert_sorted.
Qed.

(** Stability: a test that holds only for elements of one rank sees them in
    the order they had before the sort. *)
Lemma sort_insert_filter {A : Type} (rank : A -> Z) (p : A -> bool) (x : A) (l : list A) :
  (forall a b, p a = true -> p b = true -> rank a = rank b) ->
  List.filter p (Js.sort_insert (byRank rank) x l)
  = if p x then x :: List.filter p l else List.filter p l.
Proof.
  intros Hp. induction l as [| y l IH]; simpl.
  - reflexivity.
  - destruct (Z.ltb_spec 0 (byRank rank x y)) as [Hgt | Hle]; simpl.
    + rewrite IH. destruct (p y) eqn:Hy, (p x) eqn:Hx; try reflexivity.
      pose proof (Hp x y Hx Hy). unfold byRank in Hgt. lia.
    + reflexivity.
Qed.

Lemma sort_stable {A : Type} (rank : A -> Z) (p : A -> bool) (l : list A) :
  (forall a b, p a = true -> p b = true -> rank a = rank b) ->
  List.filter p (Js.sort (byRank rank) l) = List.filter p l.
Proof.
  intros Hp. induction l as [| x l IH]; simpl.
  - reflexivity.
  - rewrite sort_insert_filter, IH by assumption. reflexivity.
Qed.

Lemma StronglySorted_firstn {A : Type} (R : A -> A -> Prop) (n : nat) (l : list A) :
  StronglySorted R l -> StronglySorted R (firstn n l).
Proof.
  intros Hsorted. revert n.
  induction Hsorted as [| x l _ IH Hall]; intros [| n]; simpl; try constructor.
  - apply IH.
  - now apply Forall_take.
Qed.

Lemma filter_firstn_prefix {A : Type} (p : A -> bool) (n : nat) (l : list A) :
  List.filter p (firstn n l) `prefix_of` List.filter p l.
Proof.
  exists (List.filter p (skipn n l)).
  now rewrite <- List.filter_app, firstn_skipn.
Qed.

Lemma map_filter_sublist {A B : Type} (g : A -> B) (f : A -> bool) (l : list A) :
  List.map g (List.filter f l) `sublist_of` List.map g l.
Proof.
  induction l as [| x l IH]; simpl.
  - constructor.
  - destruct (f x); simpl; now constructor.
Qed.

Lemma prefix_is_sublist {A : Type} (l1 l2 : list A) :
  l1 `prefix_of` l2 -> l1 `sublist_of` l2.
Proof.
  intros [k ->]. apply sublist_inserts_r. reflexivity.
Qed.

Lemma map_sublist {A B : Type} (g : A -> B) (l1 l2 : list A) :
  l1 `sublist_of` l2 -> List.map g l1 `sublist_of` List.map g l2.
Proof.
  induction 1; simpl; now constructor.
Qed.

Lemma filter_is_sublist {A : Type} (f : A -> bool) (l : list A) :
  List.filter f l `sublist_of` l.
Proof.
  induction l as [| x l IH]; simpl.
  - constructor.
  - destruct (f x); now constructor.
Qed.

Lemma absent_none {A : Type} (g : A -> string) (k : string) (l : list A) :
  ~ In k (List.map g l) -> List.filter (fun x => String.eqb (g x) k) l = [].
Proof.
  induction l as [| x l IH]; simpl; intros Hk.
  - reflexivity.
  - destruct (String.eqb_spec (g x) k) as [E | N].
    + exfalso. apply Hk. now left.
    + apply IH. intros Hin. apply Hk. now right.
Qed.

Lemma distinct_at_most_one {A : Type} (g : A -> string) (k : string) (l : list A) :
  NoDup (List.map g l) ->
  (length (List.filter (fun x => String.eqb (g x) k) l) <= 1)%nat.
Proof.
  induction l as [| x l IH]; simpl; intros Hdistinct.
  - lia.
  - apply NoDup_cons in Hdistinct as [Hx Hl].
    destruct (String.eqb_spec (g x) k) as [E | N].
    + rewrite absent_none; [simpl; lia |].
      subst k. intros Hin. apply Hx. now apply list_elem_of_In.
    + now apply IH.
Qed.

(** ** The advice engine *)

Lemma hasSeverity_one_rank (s : Severity.t) (a b : AdviceItem.t) :
  hasSeverity s a = true -> hasSeverity s b = true -> severityRank a = severityRank b.
Proof.
  unfold hasSeverity, severityRank.
  destruct (AdviceItem.severity a), (AdviceItem.severity b), s;
    simpl; congruence.
Qed.

Lemma ruleIds_NoDup : NoDup ruleIds.
Proof.
  apply (bool_decide_unpack _). vm_compute. exact I.
Qed.

Lemma adviceRules_ids (tz : Z) : List.map Rule.id (adviceRules tz) = ruleIds.
Proof. reflexivity. Qed.

(** The triggered rules keep the order of the table. *)
Lemma triggeredRules_ids (tz now : Z) (profile : Profile.t) (derived : Derived.t)
    (expenses : list Expense.t) :
  List.map AdviceItem.id (triggeredRules tz now profile derived expenses)
  `sublist_of` ruleIds.
Proof.
  unfold triggeredRules. rewrite List.map_map, <- (adviceRules_ids tz).
  exact (map_filter_sublist Rule.id _ (adviceRules tz)).
Qed.

(** The sorted list before the cut. *)
Lemma generateAdvice_sorted (tz now : Z) (profile : Profile.t) (derived : Derived.t)
    (expenses : list Expense.t) :
  generateAdvice tz now profile derived expenses
  = firstn 5 (Js.sort (byRank severityRank)
                (triggeredRules tz now profile derived expenses)).
Proof. reflexivity. Qed.

(** C7. The list that generateAdvice returns has at most 5 items, is sorted
    by non-decreasing severity rank (high 0, medium 1, low 2), and the sort
    is stable: the items of one severity come in the order of the rule
    table. *)
Theorem generateAdvice_sorted_stable (tz now : Z) (profile : Profile.t)
    (derived : Derived.t) (expenses : list Expense.t) :
  let advice := generateAdvice tz now profile derived expenses in
  (length advice <= 5)%nat
  /\ StronglySorted
       (fun a b => severityOrder (AdviceItem.severity a)
                   <= severityOrder (AdviceItem.severity b)) advice
  /\ (severityOrder Severity.high = 0 /\ severityOrder Severity.medium = 1
      /\ severityOrder Severity.low = 2)
  /\ forall s : Severity.t,
       List.filter (hasSeverity s) advice
       `prefix_of` List.filter (hasSeverity s)
                     (triggeredRules tz now profile derived expenses)
       /\ List.map AdviceItem.id (List.filter (hasSeverity s) advice)
          `sublist_of` List.map Rule.id (adviceRules tz).
Proof.
  intros advice. subst advice. rewrite generateAdvice_sorted.
  split; [apply firstn_le_length |].
  split; [apply StronglySorted_firstn, (sort_sorted severityRank) |].
  split; [now repeat split |].
  intros s.
  assert (Hprefix :
    List.filter (hasSeverity s)
      (firstn 5 (Js.sort (byRank severityRank)
                   (triggeredRules tz now profile derived expenses)))
    `prefix_of` List.filter (hasSeverity s)
                  (triggeredRules tz now profile derived expenses)).
  { rewrite <- (sort_stable severityRank (hasSeverity s)
                  (triggeredRules tz now profile derived expenses))
      by apply hasSeverity_one_rank.
    apply filter_firstn_prefix. }
  split; [exact Hprefix |].
  rewrite adviceRules_ids.
  etransitivity; [| apply (triggeredRules_ids tz now profile derived expenses)].
  apply map_sublist. etransitivity; [apply prefix_is_sublist, Hprefix |].
  apply filter_is_sublist.
Qed.

(** C10. Each of the nine rules of the table gives at most one item in a call
    of generateAdvice: the ids of the returned items are pairwise distinct,
    and each of them is the id of one of the nine rules. *)
Theorem generateAdvice_ids_distinct (tz now : Z) (profile : Profile.t)
    (derived : Derived.t) (expenses : list Expense.t) :
  let ids := List.map AdviceItem.id (generateAdvice tz now profile derived expenses) in
  length (adviceRules tz) = 9%nat
  /\ NoDup ids
  /\ (forall name : string, In name ids -> In name (List.map Rule.id (adviceRules tz)))
  /\ (forall rule : Rule.t, In rule (adviceRules tz) ->
        (length (List.filter (fun item => String.eqb (AdviceItem.id item) (Rule.id rule))
                   (generateAdvice tz now profile derived expenses)) <= 1)%nat).
Proof.
  intros ids.
  set (triggered := triggeredRules tz now profile derived expenses).
  set (sorted := Js.sort (byRank severityRank) triggered).
  assert (Hcut : ids `sublist_of` List.map AdviceItem.id sorted).
  { subst ids. rewrite generateAdvice_sorted. apply map_sublist, sublist_take. }
  assert (Hperm : Permutation (List.map AdviceItem.id sorted)
                              (List.map AdviceItem.id triggered)).
  { apply Permutation_map, sort_perm. }
  assert (Htable : List.map AdviceItem.id triggered `sublist_of` ruleIds)
    by apply triggeredRules_ids.
  assert (Hdistinct : NoDup ids).
  { eapply sublist_NoDup; [| exact Hcut].
    rewrite Hperm. eapply sublist_NoDup; [apply ruleIds_NoDup | exact Htable]. }
  split; [reflexivity |]. split; [exact Hdistinct |]. split.
  - intros name Hin. rewrite adviceRules_ids.
    apply list_elem_of_In. eapply elem_of_sublist; [| exact Htable].
    rewrite <- Hperm. eapply elem_of_sublist; [| exact Hcut].
    now apply list_elem_of_In.
  - intros rule _. now apply distinct_at_most_one.
Qed.

(** ** Facts about the numbers of the host *)

Lemma shr_1_nonneg (mrs : shr_record) : 0 <= shr_m mrs -> 0 <= shr_m (shr_1 mrs).
Proof.
  destruct mrs as [m r s]. cbn [shr_m]. intros Hm.
  destruct m as [| [p | p |] | p]; cbn; lia.
Qed.

Lemma iter_shr_1_nonneg (p : positive) (mrs : shr_record) :
  0 <= shr_m mrs -> 0 <= shr_m (SpecFloat.iter_pos shr_1 p mrs).
Proof.
  revert mrs. induction p as [p IH | p IH |]; intros mrs Hm; cbn [SpecFloat.iter_pos].
  - apply IH, IH, shr_1_nonneg, Hm.
  - apply IH, IH, Hm.
  - apply shr_1_nonneg, Hm.
Qed.

Lemma shr_fexp_nonneg (m e : Z) (l : location) :
  0 <= m -> 0 <= shr_m (fst (shr_fexp F64.prec F64.emax m e l)).
Proof.
  intros Hm. unfold shr_fexp, shr.
  assert (Hrec : 0 <= shr_m (shr_record_of_loc m l))
    by (destruct l as [| []]; exact Hm).
  destruct (fexp F64.prec F64.emax (Zdigits2 m + e) - e) as [| p | p]; cbn [fst];
    [exact Hrec | now apply iter_shr_1_nonneg | exact Hrec].
Qed.

Lemma round_nearest_even_nonneg (m : Z) (l : location) :
  0 <= m -> 0 <= round_nearest_even m l.
Proof.
  intros Hm. destruct l as [| []]; cbn [round_nearest_even]; [lia | | lia | lia].
  destruct (Z.even m); lia.
Qed.

(** Rounding a mantissa that is not negative gives a number of the sign it
    was given, never NaN. *)
Lemma binary_round_aux_sign (sx : bool) (mx ex : Z) (lx : location) :
  0 <= mx ->
  match binary_round_aux F64.prec F64.emax sx mx ex lx with
  | S754_zero s | S754_infinity s | S754_finite s _ _ => s = sx
  | S754_nan => False
  end.
Proof.
  intros Hm. unfold binary_round_aux.
  pose proof (shr_fexp_nonneg mx ex lx Hm) as H1.
  destruct (shr_fexp F64.prec F64.emax mx ex lx) as [mrs' e']. cbn [fst] in H1.
  pose proof (shr_fexp_nonneg _ e' loc_Exact
                (round_nearest_even_nonneg _ (loc_of_shr_record mrs') H1)) as H2.
  destruct (shr_fexp F64.prec F64.emax _ e' loc_Exact) as [mrs'' e'']. cbn [fst] in H2.
  destruct (shr_m mrs'') as [| m | m]; [reflexivity | | lia].
  now destruct (e'' <=? F64.emax - F64.prec).
Qed.

Lemma ofZ_sign (z : Z) :
  match F64.ofZ z with
  | S754_zero s | S754_infinity s | S754_finite s _ _ => s = (z <? 0)
  | S754_nan => False
  end.
Proof.
  unfold F64.ofZ, binary_normalize. destruct z as [| p | p]; [reflexivity | |];
    unfold binary_round;
    destruct (shl_align _ _ _) as [mz ez];
    apply binary_round_aux_sign; lia.
Qed.

(** [0 <= x] holds of the zeros, of +Infinity and of the positive numbers. *)
Lemma le_zero_sign (x : F64.number) :
  F64.le (F64.ofZ 0) x = true <->
  match x with
  | S754_zero _ => True
  | S754_infinity s | S754_finite s _ _ => s = false
  | S754_nan => False
  end.
Proof. destruct x as [s | [] | | [] m e]; cbn; intuition congruence. Qed.

Lemma ofZ_nonneg (z : Z) : 0 <= z -> F64.le (F64.ofZ 0) (F64.ofZ z) = true.
Proof.
  intros Hz. apply le_zero_sign. pose proof (ofZ_sign z) as Hs.
  destruct (F64.ofZ z); try exact I; try exact Hs; rewrite Hs; apply Z.ltb_ge, Hz.
Qed.

Lemma round_of_positive (m : positive) (e : Z) :
  0 <= Qfloor (inject_Z (Z.pos m) * 2 ^ e + (1 # 2)).
Proof.
  change 0 with (Qfloor 0). apply Qfloor_resp_le.
  assert (Hpow : (0 <= 2 ^ e)%Q) by now apply Qpower_0_le.
  assert (Hm : (0 < inject_Z (Z.pos m))%Q) by reflexivity.
  generalize dependent (2 ^ e)%Q. intros k Hk.
  generalize dependent (inject_Z (Z.pos m)). intros M HM. nra.
Qed.

Lemma round_of_negative (m : positive) (e : Z) :
  Qfloor (inject_Z (- Z.pos m) * 2 ^ e + (1 # 2)) <= 0.
Proof.
  change 0 with (Qfloor (1 # 2)). apply Qfloor_resp_le.
  assert (Hpow : (0 <= 2 ^ e)%Q) by now apply Qpower_0_le.
  assert (Hm : (0 < inject_Z (Z.pos m))%Q) by reflexivity.
  rewrite inject_Z_opp.
  generalize dependent (2 ^ e)%Q. intros k Hk.
  generalize dependent (inject_Z (Z.pos m)). intros M HM. nra.
Qed.

Lemma Math_round_nonneg64 (x : F64.number) :
  F64.le (F64.ofZ 0) x = true -> F64.le (F64.ofZ 0) (F64.Math_round x) = true.
Proof.
  intros Hx. destruct x as [s | s | | s m e]; try exact Hx.
  apply le_zero_sign in Hx. subst s. cbn [F64.Math_round cond_Zopp].
  destruct (0 <=? e); [reflexivity |].
  destruct (Z.eqb_spec (Qfloor (inject_Z (Z.pos m) * 2 ^ e + (1 # 2))) 0) as [E | N];
    [reflexivity |].
  apply ofZ_nonneg, round_of_positive.
Qed.

(** [x === x] for every number but NaN. *)
Lemma number_eqb_refl (x : F64.number) : x <> F64.NaN -> F64.eqb x x = true.
Proof.
  intros Hx. destruct x as [s | [] | | [] m e]; try reflexivity; try contradiction;
    unfold F64.eqb, SFeqb, SFcompare; rewrite Z.compare_refl, Pos.compare_cont_refl;
    reflexivity.
Qed.

(** Math.max(0, x) is x for a positive number x. *)
Lemma Math_max_pos (x : F64.number) :
  F64.lt (F64.ofZ 0) x = true -> F64.Math_max (F64.ofZ 0) x = x.
Proof. destruct x as [s | [] | | [] m e]; try discriminate; reflexivity. Qed.

(** Math.round(Math.max(0, x)) is Math.round(x) for a number x that is not
    negative (the two zeros are equal). *)
Lemma Math_round_floored (x : F64.number) :
  F64.le (F64.ofZ 0) x = true ->
  F64.eqb (F64.Math_round (F64.Math_max (F64.ofZ 0) x)) (F64.Math_round x) = true.
Proof.
  intros Hx. pose proof (Math_round_nonneg64 x Hx) as Hround.
  pose proof (proj1 (le_zero_sign x) Hx) as Hs.
  destruct x as [s | s | | s m e]; try contradiction.
  - reflexivity.
  - subst s. reflexivity.
  - subst s. rewrite Math_max_pos by reflexivity. apply number_eqb_refl.
    intros Hnan. rewrite Hnan in Hround. discriminate Hround.
Qed.

(** Rounding and then flooring at 0, as the code does, is flooring at 0 and
    then rounding. *)
Lemma Math_round_max64 (x : F64.number) :
  F64.Math_max (F64.ofZ 0) (F64.Math_round x)
  = F64.Math_round (F64.Math_max (F64.ofZ 0) x).
Proof.
  destruct x as [[] | [] | | s m e]; try reflexivity.
  destruct s.
  - change (F64.Math_max (F64.ofZ 0) (S754_finite true m e)) with (F64.ofZ 0).
    cbn [F64.Math_round cond_Zopp]. destruct (0 <=? e); [reflexivity |].
    set (r := Qfloor (inject_Z (- Z.pos m) * 2 ^ e + (1 # 2))).
    destruct (Z.eqb_spec r 0) as [E | N]; [reflexivity |].
    assert (Hr : r < 0) by (pose proof (round_of_negative m e) as Hneg; fold r in Hneg; lia).
    pose proof (ofZ_sign r) as Hs. rewrite (proj2 (Z.ltb_lt _ _) Hr) in Hs.
    destruct (F64.ofZ r) as [s | s | | s m' e']; try contradiction; subst s; reflexivity.
  - rewrite (Math_max_pos (S754_finite false m e)) by reflexivity.
    cbn [F64.Math_round cond_Zopp]. destruct (0 <=? e); [reflexivity |].
    set (r := Qfloor (inject_Z (Z.pos m) * 2 ^ e + (1 # 2))).
    destruct (Z.eqb_spec r 0) as [E | N]; [reflexivity |].
    assert (Hr : 0 <= r) by apply round_of_positive.
    pose proof (ofZ_sign r) as Hs. rewrite (proj2 (Z.ltb_ge _ _) Hr) in Hs.
    destruct (F64.ofZ r) as [s | s | | s m' e']; try contradiction; subst s; reflexivity.
Qed.

(** The cap is used when it is positive: a positive number is truthy. *)
Lemma cap_test64 (cap : F64.number) :
  F64.truthy cap && F64.lt (F64.ofZ 0) cap = F64.lt (F64.ofZ 0) cap.
Proof. destruct cap as [s | [] | | [] m e]; reflexivity. Qed.

(** *** The numbers that are binary64 numbers *)

Lemma digits2_pos_mono (p q : positive) :
  (p <= q)%positive -> (digits2_pos p <= digits2_pos q)%positive.
Proof.
  revert q. induction p as [p IH | p IH |]; intros [q | q |] Hpq; cbn [digits2_pos];
    try lia; specialize (IH q); lia.
Qed.

Lemma digits2_pos_shift (m d : positive) :
  digits2_pos (Pos.iter xO m d) = (digits2_pos m + d)%positive.
Proof.
  induction d as [| d IH] using Pos.peano_ind.
  - cbn. lia.
  - rewrite Pos.iter_succ. cbn [digits2_pos]. rewrite IH. lia.
Qed.

(** A mantissa that is in its place is left as it is. *)
Lemma binary_round_aux_canonical (sx : bool) (m : positive) (e : Z) :
  fexp F64.prec F64.emax (Z.pos (digits2_pos m) + e) = e ->
  e <= F64.emax - F64.prec ->
  binary_round_aux F64.prec F64.emax sx (Z.pos m) e loc_Exact = S754_finite sx m e.
Proof.
  intros Hcanon Hmax. unfold binary_round_aux, shr_fexp.
  cbn [Zdigits2 shr_record_of_loc]. rewrite Hcanon, Z.sub_diag.
  cbn [shr shr_m loc_of_shr_record round_nearest_even Zdigits2 shr_record_of_loc].
  rewrite Hcanon, Z.sub_diag. cbn [shr shr_m].
  now rewrite (proj2 (Z.leb_le _ _) Hmax).
Qed.

(** An integer of at most 53 binary digits is a number. *)
Lemma binary_round_small (sx : bool) (p : positive) :
  (digits2_pos p <= 53)%positive ->
  exists (m : positive) (e : Z),
    binary_round F64.prec F64.emax sx p 0 = S754_finite sx m e.
Proof.
  intros Hp. unfold binary_round, shl_align.
  assert (Hfexp : fexp F64.prec F64.emax (Z.pos (digits2_pos p) + 0)
                  = Z.pos (digits2_pos p) - 53)
    by (unfold fexp, emin, F64.prec, F64.emax; lia).
  rewrite Hfexp, Z.sub_0_r.
  destruct (Z.pos (digits2_pos p) - 53) as [| d | d] eqn:Hd; [| lia |].
  - exists p, 0. apply binary_round_aux_canonical; [| unfold F64.prec, F64.emax; lia].
    exact Hfexp.
  - exists (Pos.iter xO p d), (Z.neg d).
    apply binary_round_aux_canonical; [| unfold F64.prec, F64.emax; lia].
    rewrite digits2_pos_shift. unfold fexp, emin, F64.prec, F64.emax. lia.
Qed.

Lemma ofZ_small (z : Z) (m : positive) :
  Z.abs z <= Z.pos m -> (digits2_pos m <= 53)%positive ->
  F64.ofZ z <> F64.Infinity.
Proof.
  intros Hz Hm. unfold F64.ofZ, binary_normalize.
  destruct z as [| p | p]; [discriminate | |].
  - destruct (binary_round_small false p) as (m' & e' & ->); [| discriminate].
    pose proof (digits2_pos_mono p m). lia.
  - destruct (binary_round_small true p) as (m' & e' & ->); [| discriminate].
    pose proof (digits2_pos_mono p m). lia.
Qed.

(** The digits of a number: at most 53 of them. *)
Lemma valid_digits (s : bool) (m : positive) (e : Z) :
  valid_binary F64.prec F64.emax (S754_finite s m e) = true ->
  (digits2_pos m <= 53)%positive.
Proof.
  unfold valid_binary, bounded, canonical_mantissa, fexp, emin, F64.prec, F64.emax.
  intros [Hcanon _]%andb_prop. apply Z.eqb_eq in Hcanon. lia.
Qed.

Lemma Qpower_2_le_1 (e : Z) : e < 0 -> (0 < 2 ^ e <= 1)%Q.
Proof.
  intros He. split; [now apply Qpower_0_lt |].
  change 1%Q with (2 ^ 0)%Q. apply Qpower_le_compat_l; [lia | discriminate].
Qed.

(** Math.ceil of a number is Infinity only for Infinity. *)
Lemma Math_ceil_Infinity (x : F64.number) :
  valid_binary F64.prec F64.emax x = true ->
  F64.Math_ceil x = F64.Infinity <-> x = F64.Infinity.
Proof.
  intros Hvalid. split; [| now intros ->].
  destruct x as [s | s | | s m e]; try (intros H; exact H).
  cbn [F64.Math_ceil]. destruct (Z.leb_spec 0 e) as [He | He]; [discriminate |].
  set (v := (inject_Z (cond_Zopp s (Z.pos m)) * 2 ^ e)%Q).
  destruct (Qceiling v =? 0); [discriminate |].
  intros Hinf. exfalso. revert Hinf.
  apply (ofZ_small _ m); [| exact (valid_digits s m e Hvalid)].
  assert (Hbounds : (inject_Z (- Z.pos m) <= v <= inject_Z (Z.pos m))%Q).
  { unfold v. destruct (Qpower_2_le_1 e He) as [Hpos Hone].
    assert (Hm : (0 < inject_Z (Z.pos m))%Q) by reflexivity.
    generalize dependent (2 ^ e)%Q. intros k _ Hpos Hone.
    destruct s; cbn [cond_Zopp]; rewrite !inject_Z_opp;
      generalize dependent (inject_Z (Z.pos m)); intros M HM; split; nra. }
  destruct Hbounds as [Hlo Hhi].
  apply Qceiling_resp_le in Hlo, Hhi. rewrite Qceiling_Z in Hlo, Hhi. lia.
Qed.

(** ** The exhaustion predictor on the numbers of the host *)

(** Facts about the store. *)
Lemma getTime_old (s extra : list (option Z)) (a : nat) :
  (a < length s)%nat -> Double.Store.getTime (s ++ extra) a = Double.Store.getTime s a.
Proof.
  intros Ha. unfold Double.Store.getTime. now rewrite lookup_app_l.
Qed.

Lemma getTime_new (s : list (option Z)) (v : option Z) :
  Double.Store.getTime (s ++ [v]) (length s) = v.
Proof.
  unfold Double.Store.getTime. now rewrite list_lookup_middle.
Qed.

Lemma setDate_new (s : list (option Z)) (v : option Z) (k : F64.number) :
  Double.Store.setDate_plus (length s) k (s ++ [v]) = s ++ [Double.setDate_plus v k].
Proof.
  unfold Double.Store.setDate_plus. rewrite getTime_new.
  rewrite insert_app_r_alt by reflexivity. now rewrite Nat.sub_diag.
Qed.

Lemma formatDate_store (tz : Z) (date : nat) (s : list (option Z)) :
  Double.Store.formatDate tz date s
  = (Double.formatDate tz (Double.Store.getTime s date),
     s ++ [Double.newDate (Double.Store.getTime s date)]).
Proof.
  unfold Double.Store.formatDate, Double.Store.newDate, Double.formatDate.
  now rewrite getTime_new.
Qed.

(** On a store, predictExhaustionDate returns what the function does on the
    time values of its arguments, and every Date object that existed before
    the call is as it was: the store only grows. *)
Lemma predictExhaustionDate_store_pure (tz : Z) (remainingCredits burnRate : F64.number)
    (today endDate : nat) (s : list (option Z)) :
  exists extra : list (option Z),
    Double.predictExhaustionDate_store tz remainingCredits burnRate today endDate s
    = (Double.predictExhaustionDate tz remainingCredits burnRate
         (Double.Store.getTime s today) (Double.Store.getTime s endDate),
       s ++ extra).
Proof.
  unfold Double.predictExhaustionDate_store, Double.predictExhaustionDate.
  destruct (F64.le remainingCredits (F64.ofZ 0)).
  - rewrite formatDate_store. now eexists [_].
  - destruct (F64.le burnRate (F64.ofZ 0)).
    + exists []. now rewrite app_nil_r.
    + unfold Double.Store.newDate.
      rewrite setDate_new, formatDate_store, getTime_new, <- app_assoc.
      now eexists [_; _].
Qed.

(** The number of days of the three cases. *)
Lemma predictExhaustionDate_days (tz : Z) (remainingCredits burnRate : F64.number)
    (today endDate : option Z) :
  Double.Prediction.daysUntilExhaustion
    (Double.predictExhaustionDate tz remainingCredits burnRate today endDate)
  = if F64.le remainingCredits (F64.ofZ 0) then F64.ofZ 0
    else if F64.le burnRate (F64.ofZ 0) then F64.Infinity
    else F64.Math_ceil (F64.div remainingCredits burnRate).
Proof.
  unfold Double.predictExhaustionDate.
  destruct (F64.le remainingCredits (F64.ofZ 0)); [reflexivity |].
  now destruct (F64.le burnRate (F64.ofZ 0)).
Qed.

(** C3, as amended. predictExhaustionDate returns the same result when it is
    called again with the same remainingCredits, burnRate and today: it
    copies the Date object today before it moves the date, so the second
    call finds today as the first one did.  It returns Infinity if and only
    if remainingCredits <= 0 is false and either burnRate <= 0 or the
    ceiling of the binary64 quotient remainingCredits / burnRate is itself
    Infinity; for a quotient that is a binary64 number that ceiling is
    Infinity exactly when the quotient is, which happens with a positive
    burnRate when the division overflows. *)
Theorem predictExhaustionDate_sentinel (tz : Z) (remainingCredits burnRate : F64.number)
    (today endDate : nat) (s : list (option Z)) :
  (today < length s)%nat ->
  exists (p : Double.Prediction.t) (s1 s2 : list (option Z)),
    Double.predictExhaustionDate_store tz remainingCredits burnRate today endDate s
    = (p, s1)
    /\ Double.predictExhaustionDate_store tz remainingCredits burnRate today endDate s1
       = (p, s2)
    /\ Double.Store.getTime s1 today = Double.Store.getTime s today
    /\ Double.predictExhaustionDate tz remainingCredits burnRate
         (Double.Store.getTime s today) (Double.Store.getTime s endDate) = p
    /\ (Double.Prediction.daysUntilExhaustion p = F64.Infinity
        <-> F64.le remainingCredits (F64.ofZ 0) = false
            /\ (F64.le burnRate (F64.ofZ 0) = true
                \/ F64.Math_ceil (F64.div remainingCredits burnRate) = F64.Infinity))
    /\ (F64.valid (F64.div remainingCredits burnRate) = true ->
        (Double.Prediction.daysUntilExhaustion p = F64.Infinity
         <-> F64.le remainingCredits (F64.ofZ 0) = false
             /\ (F64.le burnRate (F64.ofZ 0) = true
                 \/ F64.div remainingCredits burnRate = F64.Infinity))).
Proof.
  intros Htoday.
  destruct (predictExhaustionDate_store_pure tz remainingCredits burnRate today endDate s)
    as (extra & Hfirst).
  destruct (predictExhaustionDate_store_pure tz remainingCredits burnRate today endDate
              (s ++ extra)) as (extra' & Hsecond).
  rewrite (getTime_old s extra today Htoday) in Hsecond.
  assert (Hsame : Double.predictExhaustionDate tz remainingCredits burnRate
                    (Double.Store.getTime s today) (Double.Store.getTime (s ++ extra) endDate)
                  = Double.predictExhaustionDate tz remainingCredits burnRate
                      (Double.Store.getTime s today) (Double.Store.getTime s endDate))
    by reflexivity.
  rewrite Hsame in Hsecond.
  eexists _, (s ++ extra), ((s ++ extra) ++ extra').
  split; [exact Hfirst |]. split; [exact Hsecond |].
  split; [now apply getTime_old |]. split; [reflexivity |].
  rewrite predictExhaustionDate_days.
  assert (Hzero : F64.ofZ 0 <> F64.Infinity) by discriminate.
  split; [| intros Hvalid; rewrite <- (Math_ceil_Infinity _ Hvalid)];
    (destruct (F64.le remainingCredits (F64.ofZ 0));
     [split; [intros H; now destruct Hzero | intros [[=] _]] |];
     destruct (F64.le burnRate (F64.ofZ 0));
     [split; [intros _; split; [reflexivity | now left] | reflexivity] |];
     split; [intros H; split; [reflexivity | now right] | intros [_ [[=] | H]]; exact H]).
Qed.

(** C3 as stated fails in both directions: with no credits left and a burn
    rate of zero the result is 0 days, not Infinity; and 6000 credits at a
    burn rate of 2^-1040, which is a positive number, give Infinity, because
    the quotient is too large for a number. *)
Lemma predictExhaustionDate_sentinel_counterexample :
  (F64.le (F64.ofZ 0) (F64.ofZ 0) = true
   /\ Double.Prediction.daysUntilExhaustion
        (Double.predictExhaustionDate 0 (F64.ofZ 0) (F64.ofZ 0)
           (Some (Date.parse 20)) (Some (Date.parse 29)))
      = F64.ofZ 0
   /\ F64.ofZ 0 <> F64.Infinity)
  /\ (F64.valid Double.tiny = true
      /\ F64.le Double.tiny (F64.ofZ 0) = false
      /\ F64.lt (F64.ofZ 0) Double.tiny = true
      /\ F64.div (F64.ofZ 6000) Double.tiny = F64.Infinity
      /\ Double.predictExhaustionDate 0 (F64.ofZ 6000) Double.tiny
           (Some (Date.parse 20)) (Some (Date.parse 29))
         = {| Double.Prediction.predictedExhaustionDate := Some Double.DateText.invalid;
              Double.Prediction.daysUntilExhaustion := F64.Infinity |}).
Proof.
  split; [split; [| split]; [reflexivity | reflexivity | discriminate] |].
  repeat split; vm_compute; reflexivity.
Qed.

(** The text of a Date that is within the range. *)
Lemma formatDate_in_range (tz t : Z) :
  Z.abs t <= Double.MAX_TIME ->
  Double.formatDate tz (Some t) = Double.DateText.day (Date.localDay tz t).
Proof.
  intros Hrange. unfold Double.formatDate, Double.newDate, Double.TimeClip.
  cbn [mbind option_bind]. now rewrite (proj2 (Z.leb_le _ _) Hrange).
Qed.

(** C4, as amended. predictExhaustionDate follows its three cases in order:
    no credits left gives the text of today and 0 days; otherwise a burn rate
    that is not positive gives no date and Infinity; otherwise the days are
    Math.ceil of the binary64 quotient remainingCredits / burnRate, and the
    date is that many days after today when today is a valid Date, the
    number of days is finite and the new time is within the range of Date
    (8.64e15 ms either side of the epoch); it is the text of an invalid Date
    otherwise. *)
Theorem predictExhaustionDate_contract
    (tz : Z) (remainingCredits burnRate : F64.number) (today endDate : option Z) :
  let p := Double.predictExhaustionDate tz remainingCredits burnRate today endDate in
  let daysUntil := F64.Math_ceil (F64.div remainingCredits burnRate) in
  (F64.le remainingCredits (F64.ofZ 0) = true ->
     p = {| Double.Prediction.predictedExhaustionDate := Some (Double.formatDate tz today);
            Double.Prediction.daysUntilExhaustion := F64.ofZ 0 |})
  /\ (F64.le remainingCredits (F64.ofZ 0) = false ->
      F64.le burnRate (F64.ofZ 0) = true ->
        p = {| Double.Prediction.predictedExhaustionDate := None;
               Double.Prediction.daysUntilExhaustion := F64.Infinity |})
  /\ (F64.le remainingCredits (F64.ofZ 0) = false ->
      F64.le burnRate (F64.ofZ 0) = false ->
        Double.Prediction.daysUntilExhaustion p = daysUntil
        /\ (forall t n : Z,
              today = Some t -> Z.abs t <= Double.MAX_TIME ->
              F64.toZ daysUntil = Some n ->
              Z.abs (t + n * Date.MS_PER_DAY) <= Double.MAX_TIME ->
              Double.Prediction.predictedExhaustionDate p
              = Some (Double.DateText.day (Date.localDay tz t + n)))
        /\ (forall t n : Z,
              today = Some t -> F64.toZ daysUntil = Some n ->
              Double.MAX_TIME < Z.abs (t + n * Date.MS_PER_DAY) ->
              Double.Prediction.predictedExhaustionDate p
              = Some Double.DateText.invalid)
        /\ (F64.toZ daysUntil = None ->
              Double.Prediction.predictedExhaustionDate p
              = Some Double.DateText.invalid)
        /\ (Double.newDate today = None ->
              Double.Prediction.predictedExhaustionDate p
              = Some Double.DateText.invalid))
  /\ (forall t : Z,
        today = Some t -> Z.abs t <= Double.MAX_TIME ->
        Double.formatDate tz today = Double.DateText.day (Date.localDay tz t)).
Proof.
  cbv zeta. unfold Double.predictExhaustionDate.
  split; [intros -> ; reflexivity |].
  split; [intros -> ->; reflexivity |].
  split; [| intros t -> Hrange; now apply formatDate_in_range].
  intros -> ->. cbn [Double.Prediction.daysUntilExhaustion
                       Double.Prediction.predictedExhaustionDate].
  split; [reflexivity |].
  set (daysUntil := F64.Math_ceil (F64.div remainingCredits burnRate)).
  split; [| split; [| split]].
  - intros t n -> Ht Hn Hrange. f_equal.
    unfold Double.newDate, Double.setDate_plus, Double.TimeClip.
    cbn [mbind option_bind]. rewrite (proj2 (Z.leb_le _ _) Ht).
    cbn [mbind option_bind]. rewrite Hn. cbn [mbind option_bind].
    unfold Date.addDays. rewrite (proj2 (Z.leb_le _ _) Hrange).
    rewrite formatDate_in_range by exact Hrange.
    f_equal. apply (formatDate_addDays tz t n).
  - intros t n -> Hn Hrange. f_equal.
    unfold Double.newDate, Double.setDate_plus, Double.TimeClip.
    cbn [mbind option_bind].
    destruct (Z.abs t <=? Double.MAX_TIME); [| reflexivity].
    cbn [mbind option_bind]. rewrite Hn. cbn [mbind option_bind].
    unfold Date.addDays. now rewrite (proj2 (Z.leb_gt _ _) Hrange).
  - intros Hn. f_equal. unfold Double.setDate_plus.
    destruct (Double.newDate today); [| reflexivity].
    cbn [mbind option_bind]. now rewrite Hn.
  - intros Htoday. now rewrite Htoday.
Qed.

(** C4 as stated fails where the date leaves the range of Date.  With 6000
    credits and a burn rate of 2^-17, which is positive, the days are
    786432000 and the date is not today plus these days but the text of an
    invalid Date; with a burn rate of 2^-1040 the days are Infinity, and the
    date is the text of an invalid Date as well. *)
Lemma predictExhaustionDate_contract_counterexample :
  (F64.le (F64.ofZ 6000) (F64.ofZ 0) = false
   /\ F64.le (F64.decimal 1 131072) (F64.ofZ 0) = false
   /\ Double.predictExhaustionDate 0 (F64.ofZ 6000) (F64.decimal 1 131072)
        (Some (Date.parse 20)) (Some (Date.parse 29))
      = {| Double.Prediction.predictedExhaustionDate := Some Double.DateText.invalid;
           Double.Prediction.daysUntilExhaustion := F64.ofZ 786432000 |}
   /\ Double.MAX_TIME < Date.parse 20 + 786432000 * Date.MS_PER_DAY)
  /\ (F64.le Double.tiny (F64.ofZ 0) = false
      /\ Double.predictExhaustionDate 0 (F64.ofZ 6000) Double.tiny
           (Some (Date.parse 20)) (Some (Date.parse 29))
         = {| Double.Prediction.predictedExhaustionDate := Some Double.DateText.invalid;
              Double.Prediction.daysUntilExhaustion := F64.Infinity |}).
Proof.
  split; [split; [| split; [| split]] | split]; vm_compute; reflexivity.
Qed.

(** ** The risk classifier on the numbers of the host *)

(** C5. determineRiskLevel is an ordered decision list, the first
    rule that matches wins: (1) daysUntilExhaustion is not Infinity and is
    below remainingDays - 3: danger; (2) creditsUsedRatio >= danger
    threshold: danger; (3) creditsUsedRatio >= warning threshold: watch;
    (4) creditsUsedRatio > timeElapsedRatio + 0.15: danger;
    (5) creditsUsedRatio > timeElapsedRatio + 0.05: watch; (6) safe.  The
    ratios, the two sums and the comparisons are those of the host.  With
    100 credits left and a burn rate of 50 the prediction is 2 days, and
    with 10 days remaining the result is danger whatever the other arguments
    are. *)
Theorem determineRiskLevel_decision_list (totalSpent monthlyCredits : F64.number)
    (daysElapsed monthDays : Z) (daysUntilExhaustion : F64.number)
    (remainingDays : Z) (thresholds : Double.Thresholds.t) :
  let used := Double.usedRatio totalSpent monthlyCredits in
  let elapsed := Double.elapsedRatio daysElapsed monthDays in
  let exhaustion :=
    negb (F64.eqb daysUntilExhaustion F64.Infinity)
    && F64.lt daysUntilExhaustion (F64.ofZ (remainingDays - 3)) in
  let overDanger := F64.le (Double.Thresholds.danger thresholds) used in
  let overWarning := F64.le (Double.Thresholds.warning thresholds) used in
  let ahead15 := F64.lt (F64.add elapsed (F64.decimal 15 100)) used in
  let ahead5 := F64.lt (F64.add elapsed (F64.decimal 5 100)) used in
  let risk :=
    Double.determineRiskLevel totalSpent monthlyCredits daysElapsed monthDays
      daysUntilExhaustion remainingDays thresholds in
  (exhaustion = true -> risk = Risk.danger)
  /\ (exhaustion = false -> overDanger = true -> risk = Risk.danger)
  /\ (exhaustion = false -> overDanger = false -> overWarning = true ->
      risk = Risk.watch)
  /\ (exhaustion = false -> overDanger = false -> overWarning = false ->
      ahead15 = true -> risk = Risk.danger)
  /\ (exhaustion = false -> overDanger = false -> overWarning = false ->
      ahead15 = false -> ahead5 = true -> risk = Risk.watch)
  /\ (exhaustion = false -> overDanger = false -> overWarning = false ->
      ahead15 = false -> ahead5 = false -> risk = Risk.safe)
  /\ (forall (tz : Z) (today endDate : option Z),
        let prediction :=
          Double.predictExhaustionDate tz (F64.ofZ 100) (F64.ofZ 50) today endDate in
        Double.Prediction.daysUntilExhaustion prediction = F64.ofZ 2
        /\ F64.lt (F64.ofZ 2) (F64.ofZ (10 - 3)) = true
        /\ Double.determineRiskLevel totalSpent monthlyCredits daysElapsed monthDays
             (Double.Prediction.daysUntilExhaustion prediction) 10 thresholds
           = Risk.danger).
Proof.
  cbv zeta. unfold Double.determineRiskLevel.
  fold (Double.usedRatio totalSpent monthlyCredits).
  fold (Double.elapsedRatio daysElapsed monthDays).
  split; [now intros -> |].
  split; [now intros -> -> |].
  split; [now intros -> -> -> |].
  split; [now intros -> -> -> -> |].
  split; [now intros -> -> -> -> -> |].
  split; [now intros -> -> -> -> -> |].
  intros tz today endDate. rewrite predictExhaustionDate_days.
  split; [reflexivity |]. split; reflexivity.
Qed.

(** ** The safe-limit calculator on the numbers of the host *)

Lemma toleranceFactor_named64 (tol : Tolerance.t) :
  Double.toleranceFactor (Some (Tolerance.name tol)) = JsObject.own (Double.factor tol).
Proof. destruct tol; vm_compute; reflexivity. Qed.

Lemma factor_truthy (tol : Tolerance.t) : F64.truthy (Double.factor tol) = true.
Proof. destruct tol; vm_compute; reflexivity. Qed.


(** The steps of the code after the damping, for a factor that was found
    among the own properties of the table. *)
Lemma calculateDailySafeLimit_own (Math_pow : F64.number -> F64.number -> F64.number)
    (tz now : Z) (profile : Double.Profile.t) (expenses : list Double.Expense.t)
    (derivedBase : Double.DerivedBase.t) (factor : F64.number) :
  let prefs := Double.Profile.preferences profile in
  Double.toleranceFactor (Double.Preferences.riskTolerance prefs) = JsObject.own factor ->
  F64.truthy factor = true ->
  0 < Double.DerivedBase.remainingDays derivedBase ->
  Double.calculateDailySafeLimit Math_pow tz now profile expenses derivedBase
  = Double.boostedLimit
      (Double.dampedBase (fun x => Math_pow x (F64.decimal 5 10))
         (Double.DerivedBase.remainingCredits derivedBase)
         (Double.DerivedBase.remainingDays derivedBase)
         (Double.DerivedBase.averageDailySpend derivedBase)
         (Double.DerivedBase.targetBurnRate derivedBase))
      factor (Double.Preferences.weekendBoost prefs) (isWeekend tz now)
      (Double.Preferences.examMode prefs) (Double.Preferences.maxSpendPerDay prefs).
Proof.
  intros prefs Hfactor Htruthy Hdays.
  unfold Double.calculateDailySafeLimit, Double.boostedLimit, Double.dampedBase.
  fold prefs. rewrite (proj2 (Z.leb_gt _ _)) by lia.
  rewrite Hfactor, Htruthy, weekend_test, Math_round_max64.
  assert (Hcap : forall base : F64.number,
             match Double.Preferences.maxSpendPerDay prefs with
             | Some cap =>
                 if F64.truthy cap && F64.lt (F64.ofZ 0) cap
                 then F64.Math_min base cap else base
             | None => base
             end
             = match Double.Preferences.maxSpendPerDay prefs with
               | Some cap =>
                   if F64.lt (F64.ofZ 0) cap then F64.Math_min base cap else base
               | None => base
               end).
  { intros base. destruct (Double.Preferences.maxSpendPerDay prefs) as [cap |];
      [now rewrite cap_test64 | reflexivity]. }
  rewrite Hcap.
  destruct (F64.lt (F64.ofZ 0) (Double.DerivedBase.averageDailySpend derivedBase));
    [| reflexivity].
  destruct (F64.lt (F64.ofZ 0) (Double.DerivedBase.targetBurnRate derivedBase));
    reflexivity.
Qed.

(** C6. For a riskTolerance that is one of low, medium and high,
    calculateDailySafeLimit returns 0 when remainingDays <= 0; otherwise it
    starts from remainingCredits / remainingDays, divides by
    Math.pow(averageDailySpend / targetBurnRate, 0.5) only when
    averageDailySpend > 0, targetBurnRate > 0 and averageDailySpend >
    targetBurnRate, then multiplies by the tolerance factor (0.85, 1, 1.1),
    by 1.15 on a weekend with weekendBoost, by 1.05 with examMode, takes the
    minimum with a positive cap, floors at 0 and rounds; every step is the
    operation of the host, on the rounded result of the step before.  With
    high tolerance, weekend boost on a weekend, exam mode and no cap the
    result is Math.round(Math.max(0, ((base * 1.1) * 1.15) * 1.05)), which is
    the rounded product itself when the product is not negative. *)
Theorem calculateDailySafeLimit_steps
    (Math_pow : F64.number -> F64.number -> F64.number) (tz now : Z)
    (profile : Double.Profile.t) (expenses : list Double.Expense.t)
    (derivedBase : Double.DerivedBase.t) (tol : Tolerance.t) :
  Double.Preferences.riskTolerance (Double.Profile.preferences profile)
  = Some (Tolerance.name tol) ->
  let prefs := Double.Profile.preferences profile in
  let remainingDays := Double.DerivedBase.remainingDays derivedBase in
  let limit :=
    Double.calculateDailySafeLimit Math_pow tz now profile expenses derivedBase in
  let base :=
    Double.dampedBase (fun x => Math_pow x (F64.decimal 5 10))
      (Double.DerivedBase.remainingCredits derivedBase) remainingDays
      (Double.DerivedBase.averageDailySpend derivedBase)
      (Double.DerivedBase.targetBurnRate derivedBase) in
  (remainingDays <= 0 -> limit = F64.ofZ 0)
  /\ (0 < remainingDays ->
      limit = Double.boostedLimit base (Double.factor tol)
                (Double.Preferences.weekendBoost prefs) (isWeekend tz now)
                (Double.Preferences.examMode prefs)
                (Double.Preferences.maxSpendPerDay prefs))
  /\ (0 < remainingDays ->
      tol = Tolerance.high ->
      Double.Preferences.weekendBoost prefs = true -> isWeekend tz now = true ->
      Double.Preferences.examMode prefs = true ->
      Double.Preferences.maxSpendPerDay prefs = None ->
      let product :=
        F64.mul (F64.mul (F64.mul base (F64.decimal 11 10)) (F64.decimal 115 100))
          (F64.decimal 105 100) in
      limit = F64.Math_round (F64.Math_max (F64.ofZ 0) product)
      /\ (F64.lt (F64.ofZ 0) product = true -> limit = F64.Math_round product)
      /\ (F64.le (F64.ofZ 0) product = true ->
          F64.eqb limit (F64.Math_round product) = true)).
Proof.
  intros Htol prefs remainingDays limit base.
  assert (Hsteps : 0 < remainingDays ->
            limit = Double.boostedLimit base (Double.factor tol)
                      (Double.Preferences.weekendBoost prefs) (isWeekend tz now)
                      (Double.Preferences.examMode prefs)
                      (Double.Preferences.maxSpendPerDay prefs)).
  { intros Hdays. apply calculateDailySafeLimit_own;
      [rewrite Htol; apply toleranceFactor_named64
      | apply factor_truthy | exact Hdays]. }
  split; [| split; [exact Hsteps |]].
  - intros Hdays. unfold limit, Double.calculateDailySafeLimit.
    fold remainingDays. now rewrite (proj2 (Z.leb_le _ _) Hdays).
  - intros Hdays -> Hboost Hweekend Hexam Hcap product.
    assert (Hlimit : limit = F64.Math_round (F64.Math_max (F64.ofZ 0) product)).
    { rewrite (Hsteps Hdays). unfold Double.boostedLimit.
      now rewrite Hboost, Hweekend, Hexam, Hcap. }
    split; [exact Hlimit |]. split.
    + intros Hproduct. now rewrite Hlimit, Math_max_pos.
    + intros Hproduct. rewrite Hlimit. now apply Math_round_floored.
Qed.



(** ** The properties at concrete inputs *)

Lemma sqrtApprox_positive : pow_positive sqrtApprox.
Proof.
  intros x Hx. unfold sqrtApprox.
  apply Qlt_shift_div_l; [reflexivity |]. rewrite Qmult_0_l.
  apply inject_Z_pos.
  assert (Hfloor : 4 ^ 26 <= Qfloor (x * inject_Z (4 ^ 26))).
  { rewrite <- (Qfloor_Z (4 ^ 26)) at 1. apply Qfloor_resp_le.
    rewrite <- (Qmult_1_l (inject_Z (4 ^ 26))) at 1.
    apply Qmult_le_compat_r; [now apply Qlt_le_weak | discriminate]. }
  apply Z.sqrt_le_mono in Hfloor.
  change (Z.sqrt (4 ^ 26)) with (2 ^ 26) in Hfloor. lia.
Qed.

Lemma computeDerivedData_total_nonneg_witness :
  pow_positive sqrtApprox
  /\ (forall name : string,
        Preferences.riskTolerance
          (Profile.preferences (scenarioA "hostel_student" 100)) = Some name ->
        JsObject.isProtoName name = false)
  /\ 0 < Profile.monthDays (scenarioA "hostel_student" 100)
  /\ exists d : Derived.t,
       computeDerivedData sqrtApprox 0 (Date.parse 100 + noon)
         (scenarioA "hostel_student" 100) [dinner 100] = Some d
       /\ (0 <= Derived.remainingCredits d)%Q
       /\ 0 <= Derived.dailySafeLimit d.
Proof.
  assert (Hown : forall name : string,
             Preferences.riskTolerance
               (Profile.preferences (scenarioA "hostel_student" 100)) = Some name ->
             JsObject.isProtoName name = false)
    by (intros name [= <-]; reflexivity).
  split; [exact sqrtApprox_positive |]. split; [exact Hown |]. split; [reflexivity |].
  apply computeDerivedData_total_nonneg;
    [exact sqrtApprox_positive | exact Hown | reflexivity].
Defined.

Lemma scenario_A_first_day_witness :
  Date.parse 100 <= Date.parse 100 + noon < Date.parse 100 + Date.MS_PER_DAY
  /\ exists d : Derived.t,
       computeDerivedData sqrtApprox 0 (Date.parse 100 + noon)
         (scenarioA "hostel_student" 100) [] = Some d
       /\ Derived.daysElapsed d = 1
       /\ (Derived.totalSpent d == 0)%Q
       /\ (Derived.remainingCredits d == 6000)%Q
       /\ Derived.remainingDays d = 29
       /\ Derived.dailySafeLimit d = Js.Math_round (6000 / 29 * 1.0)
       /\ Derived.dailySafeLimit d = 207
       /\ Derived.riskLevel d = Risk.safe
       /\ Derived.confidenceLevel d = Confidence.low.
Proof.
  assert (Hnow : Date.parse 100 <= Date.parse 100 + noon
                 < Date.parse 100 + Date.MS_PER_DAY)
    by (unfold Date.parse, Date.MS_PER_DAY, noon; lia).
  split; [exact Hnow |].
  exact (scenario_A_first_day sqrtApprox 0 (Date.parse 100 + noon) 100
           "hostel_student" Hnow).
Defined.

Lemma predictExhaustionDate_sentinel_witness :
  (0 < length [Some (Date.parse 20); Some (Date.parse 29)])%nat
  /\ exists (p : Double.Prediction.t) (s1 s2 : list (option Z)),
       Double.predictExhaustionDate_store 0 (F64.ofZ 6000) Double.tiny 0 1
         [Some (Date.parse 20); Some (Date.parse 29)]
       = (p, s1)
       /\ Double.predictExhaustionDate_store 0 (F64.ofZ 6000) Double.tiny 0 1 s1
          = (p, s2)
       /\ Double.Store.getTime s1 0
          = Double.Store.getTime [Some (Date.parse 20); Some (Date.parse 29)] 0
       /\ Double.predictExhaustionDate 0 (F64.ofZ 6000) Double.tiny
            (Double.Store.getTime [Some (Date.parse 20); Some (Date.parse 29)] 0)
            (Double.Store.getTime [Some (Date.parse 20); Some (Date.parse 29)] 1)
          = p
       /\ (Double.Prediction.daysUntilExhaustion p = F64.Infinity
           <-> F64.le (F64.ofZ 6000) (F64.ofZ 0) = false
               /\ (F64.le Double.tiny (F64.ofZ 0) = true
                   \/ F64.Math_ceil (F64.div (F64.ofZ 6000) Double.tiny)
                      = F64.Infinity))
       /\ (F64.valid (F64.div (F64.ofZ 6000) Double.tiny) = true ->
           (Double.Prediction.daysUntilExhaustion p = F64.Infinity
            <-> F64.le (F64.ofZ 6000) (F64.ofZ 0) = false
                /\ (F64.le Double.tiny (F64.ofZ 0) = true
                    \/ F64.div (F64.ofZ 6000) Double.tiny = F64.Infinity))).
Proof.
  assert (Hlive : (0 < length [Some (Date.parse 20); Some (Date.parse 29)])%nat)
    by (simpl; lia).
  split; [exact Hlive |].
  exact (predictExhaustionDate_sentinel 0 (F64.ofZ 6000) Double.tiny 0 1
           [Some (Date.parse 20); Some (Date.parse 29)] Hlive).
Defined.

Lemma predictExhaustionDate_contract_witness :
  Double.predictExhaustionDate 0 (F64.ofZ 0) (F64.ofZ 50)
    (Some (Date.parse 20)) (Some (Date.parse 29))
  = {| Double.Prediction.predictedExhaustionDate := Some (Double.DateText.day 20);
       Double.Prediction.daysUntilExhaustion := F64.ofZ 0 |}
  /\ Double.predictExhaustionDate 0 (F64.ofZ 100) (F64.ofZ 0)
       (Some (Date.parse 20)) (Some (Date.parse 29))
     = {| Double.Prediction.predictedExhaustionDate := None;
          Double.Prediction.daysUntilExhaustion := F64.Infinity |}
  /\ Double.Prediction.daysUntilExhaustion
       (Double.predictExhaustionDate 0 (F64.ofZ 100) (F64.ofZ 50)
          (Some (Date.parse 20)) (Some (Date.parse 29)))
     = F64.ofZ 2
  /\ Double.Prediction.predictedExhaustionDate
       (Double.predictExhaustionDate 0 (F64.ofZ 100) (F64.ofZ 50)
          (Some (Date.parse 20)) (Some (Date.parse 29)))
     = Some (Double.DateText.day 22)
  /\ Double.Prediction.daysUntilExhaustion
       (Double.predictExhaustionDate 0 (F64.ofZ 4000)
          (F64.div (F64.ofZ 2000) (F64.ofZ 3))
          (Some (Date.parse 20)) (Some (Date.parse 29)))
     = F64.ofZ 6.
Proof.
  split; [| split; [| split; [| split]]].
  - exact (proj1 (predictExhaustionDate_contract 0 (F64.ofZ 0) (F64.ofZ 50)
                    (Some (Date.parse 20)) (Some (Date.parse 29))) eq_refl).
  - exact (proj1 (proj2 (predictExhaustionDate_contract 0 (F64.ofZ 100) (F64.ofZ 0)
                           (Some (Date.parse 20)) (Some (Date.parse 29))))
             eq_refl eq_refl).
  - exact (proj1 (proj1 (proj2 (proj2 (predictExhaustionDate_contract 0 (F64.ofZ 100)
                                         (F64.ofZ 50) (Some (Date.parse 20))
                                         (Some (Date.parse 29)))))
                    eq_refl eq_refl)).
  - assert (Hrange : Z.abs (Date.parse 20) <= Double.MAX_TIME)
      by (unfold Date.parse, Date.MS_PER_DAY, Double.MAX_TIME; lia).
    assert (Hnew : Z.abs (Date.parse 20 + 2 * Date.MS_PER_DAY) <= Double.MAX_TIME)
      by (unfold Date.parse, Date.MS_PER_DAY, Double.MAX_TIME; lia).
    exact (proj1 (proj2 (proj1 (proj2 (proj2 (predictExhaustionDate_contract 0
                                                (F64.ofZ 100) (F64.ofZ 50)
                                                (Some (Date.parse 20))
                                                (Some (Date.parse 29)))))
                           eq_refl eq_refl))
             (Date.parse 20) 2 eq_refl Hrange eq_refl Hnew).
  - exact (proj1 (proj1 (proj2 (proj2 (predictExhaustionDate_contract 0 (F64.ofZ 4000)
                                         (F64.div (F64.ofZ 2000) (F64.ofZ 3))
                                         (Some (Date.parse 20))
                                         (Some (Date.parse 29)))))
                    eq_refl eq_refl)).
Defined.

Lemma determineRiskLevel_decision_list_witness :
  Double.determineRiskLevel (F64.ofZ 500) (F64.ofZ 6000) 1 30 (F64.ofZ 11) 29
    Double.defaultThresholds
  = Risk.danger
  /\ Double.determineRiskLevel (F64.ofZ 600) (F64.ofZ 6000) 1 30 F64.Infinity 29
       Double.defaultThresholds
     = Risk.watch
  /\ Double.determineRiskLevel (F64.ofZ 2700) (F64.ofZ 6000) 9 30 F64.Infinity 21
       Double.defaultThresholds
     = Risk.danger.
Proof.
  split; [| split].
  - exact (proj1 (determineRiskLevel_decision_list (F64.ofZ 500) (F64.ofZ 6000) 1 30
                    (F64.ofZ 11) 29 Double.defaultThresholds) eq_refl).
  - exact (proj1 (proj2 (proj2 (proj2 (proj2
             (determineRiskLevel_decision_list (F64.ofZ 600) (F64.ofZ 6000) 1 30
                F64.Infinity 29 Double.defaultThresholds)))))
             eq_refl eq_refl eq_refl eq_refl eq_refl).
  - exact (proj1 (proj2 (proj2 (proj2
             (determineRiskLevel_decision_list (F64.ofZ 2700) (F64.ofZ 6000) 9 30
                F64.Infinity 21 Double.defaultThresholds))))
             eq_refl eq_refl eq_refl eq_refl).
Defined.

Lemma calculateDailySafeLimit_steps_witness :
  Double.Preferences.riskTolerance
    (Double.Profile.preferences (Double.scenario (Some "high"%string) true))
  = Some (Tolerance.name Tolerance.high)
  /\ isWeekend 0 (Date.parse 2) = true
  /\ Double.calculateDailySafeLimit Double.sqrt64 0 (Date.parse 2)
       (Double.scenario (Some "high"%string) true) [] (Double.onTarget 2000 11)
     = F64.Math_round
         (F64.mul
            (F64.mul (F64.mul (F64.div (F64.ofZ 2000) (F64.ofZ 11)) (F64.decimal 11 10))
               (F64.decimal 115 100))
            (F64.decimal 105 100))
  /\ Double.calculateDailySafeLimit Double.sqrt64 0 (Date.parse 2)
       (Double.scenario (Some "high"%string) true) [] (Double.onTarget 2000 11)
     = F64.ofZ 241
  /\ Double.calculateDailySafeLimit Double.sqrt64 0 (Date.parse 2)
       (Double.scenario (Some "low"%string) false) [] (Double.onTarget 5110 17)
     = F64.ofZ 255
  /\ Double.calculateDailySafeLimit Double.sqrt64 0 (Date.parse 2)
       (Double.scenario (Some "high"%string) true) [] (Double.onTarget 2000 0)
     = F64.ofZ 0.
Proof.
  split; [reflexivity |]. split; [reflexivity |].
  assert (Hdays : 0 < Double.DerivedBase.remainingDays (Double.onTarget 2000 11))
    by reflexivity.
  assert (Hdays' : 0 < Double.DerivedBase.remainingDays (Double.onTarget 5110 17))
    by reflexivity.
  assert (Hnone : Double.DerivedBase.remainingDays (Double.onTarget 2000 0) <= 0)
    by (cbn; lia).
  split; [| split; [| split]].
  - exact (proj1 (proj2 (proj2 (proj2 (calculateDailySafeLimit_steps Double.sqrt64 0
                                         (Date.parse 2)
                                         (Double.scenario (Some "high"%string) true) []
                                         (Double.onTarget 2000 11) Tolerance.high
                                         eq_refl))
                           Hdays eq_refl eq_refl eq_refl eq_refl eq_refl))
             eq_refl).
  - rewrite (proj1 (proj2 (calculateDailySafeLimit_steps Double.sqrt64 0 (Date.parse 2)
                             (Double.scenario (Some "high"%string) true) []
                             (Double.onTarget 2000 11) Tolerance.high eq_refl)) Hdays).
    vm_compute. reflexivity.
  - rewrite (proj1 (proj2 (calculateDailySafeLimit_steps Double.sqrt64 0 (Date.parse 2)
                             (Double.scenario (Some "low"%string) false) []
                             (Double.onTarget 5110 17) Tolerance.low eq_refl)) Hdays').
    vm_compute. reflexivity.
  - exact (proj1 (calculateDailySafeLimit_steps Double.sqrt64 0 (Date.parse 2)
                    (Double.scenario (Some "high"%string) true) []
                    (Double.onTarget 2000 0) Tolerance.high eq_refl) Hnone).
Defined.


(** * Further properties of the code *)

(** ** The metrics engine, field by field *)

Lemma averageSpend_value (totalSpent : Q) (daysElapsed : Z) :
  (if 0 <? daysElapsed then Js.div totalSpent (inject_Z daysElapsed) else Some 0%Q)
  = Some (if Z_lt_le_dec 0 daysElapsed
          then (totalSpent / inject_Z daysElapsed)%Q else 0%Q).
Proof.
  destruct (Z_lt_le_dec 0 daysElapsed) as [Hpos | Hneg].
  - rewrite (proj2 (Z.ltb_lt _ _) Hpos). apply Js_div_Some, inject_Z_nonzero. lia.
  - now rewrite (proj2 (Z.ltb_ge _ _) Hneg).
Qed.

(** The fields of the result of computeDerivedData that the properties below
    speak of. *)
Lemma computeDerivedData_fields (Math_pow : Q -> Q -> Q) (tz now : Z)
    (profile : Profile.t) (expenses : list Expense.t) :
  pow_positive Math_pow ->
  Profile.monthDays profile <> 0 ->
  let prefs := Profile.preferences profile in
  let credits := Profile.monthlyCredits profile in
  let days := Profile.monthDays profile in
  let start := Date.parse (Profile.startDate profile) in
  exists d : Derived.t,
    computeDerivedData Math_pow tz now profile expenses = Some d
    /\ Derived.today d = Date.formatDate tz now
    /\ Derived.daysElapsed d = Z.max 0 ((now - start) / Date.MS_PER_DAY + 1)
    /\ Derived.remainingDays d = Z.max 0 (days - Derived.daysElapsed d)
    /\ Derived.totalSpent d = Js.sum Expense.cost expenses
    /\ Derived.remainingCredits d = Qmax 0 (credits - Derived.totalSpent d)
    /\ Derived.todaySpend d = costOn (Derived.today d) expenses
    /\ Derived.burnRateOverall d
       = (if Z_lt_le_dec 0 (Derived.daysElapsed d)
          then (Derived.totalSpent d / inject_Z (Derived.daysElapsed d))%Q else 0%Q)
    /\ Derived.averageDailySpend d = Derived.burnRateOverall d
    /\ Derived.targetBurnRate d = (credits / inject_Z days)%Q
    /\ Derived.dailySafeLimit d
       = safeLimit_spec (fun x => Math_pow x 0.5%Q)
           (Derived.remainingCredits d) (Derived.remainingDays d)
           (Derived.burnRateOverall d) (Derived.targetBurnRate d)
           (Js.or_else (toleranceFactor (Preferences.riskTolerance prefs)) 1.0)
           (Preferences.weekendBoost prefs) (isWeekend tz now)
           (Preferences.examMode prefs) (Preferences.maxSpendPerDay prefs)
    /\ Derived.surplusOrDeficit d
       = (credits - Derived.burnRateOverall d * inject_Z days)%Q
    /\ Derived.endDate d = Date.formatDate tz (Date.addDays start (days - 1)).
Proof.
  intros Hpow Hdays prefs credits days start. unfold computeDerivedData.
  fold start days credits.
  set (daysElapsed := Z.max 0 ((now - start) / Date.MS_PER_DAY + 1)).
  set (totalSpent := Js.sum Expense.cost expenses).
  rewrite (averageSpend_value totalSpent daysElapsed).
  destruct (calculateBurnRateWindow_rate now 7 start expenses) as (rate7 & -> & _).
  destruct (calculateBurnRateWindow_rate now 3 start expenses) as (rate3 & -> & _).
  rewrite (Js_div_Some credits) by now apply inject_Z_nonzero.
  cbn [mbind option_bind].
  rewrite calculateDailySafeLimit_spec by assumption.
  cbn [mbind option_bind].
  rewrite predictExhaustionDate_cases. cbn [mbind option_bind].
  rewrite determineRiskLevel_rules. cbn [mbind option_bind].
  rewrite usedRatio_guarded, elapsedRatio_guarded. cbn [mbind option_bind].
  eexists. split; [reflexivity |].
  cbn [Derived.today Derived.daysElapsed Derived.remainingDays Derived.totalSpent
       Derived.remainingCredits Derived.todaySpend Derived.burnRateOverall
       Derived.averageDailySpend Derived.targetBurnRate Derived.dailySafeLimit
       Derived.surplusOrDeficit Derived.endDate
       DerivedBase.remainingCredits DerivedBase.remainingDays
       DerivedBase.averageDailySpend DerivedBase.targetBurnRate].
  repeat split.
Qed.

(** X1. The days of the period.  Before the start date no day has elapsed
    and all the days remain; during the period the elapsed days are the
    number of the current day (UTC), counted from 1, and elapsed and
    remaining days add up to monthDays; after the period no day remains. *)
Theorem computeDerivedData_days (Math_pow : Q -> Q -> Q) (tz now : Z)
    (profile : Profile.t) (expenses : list Expense.t) :
  pow_positive Math_pow ->
  0 < Profile.monthDays profile ->
  exists d : Derived.t,
    computeDerivedData Math_pow tz now profile expenses = Some d
    /\ let days := Profile.monthDays profile in
       let start := Date.parse (Profile.startDate profile) in
       (now < start ->
          Derived.daysElapsed d = 0 /\ Derived.remainingDays d = days)
       /\ (start <= now < start + days * Date.MS_PER_DAY ->
             Derived.daysElapsed d = now / Date.MS_PER_DAY - Profile.startDate profile + 1
             /\ 1 <= Derived.daysElapsed d <= days
             /\ Derived.daysElapsed d + Derived.remainingDays d = days)
       /\ (start + days * Date.MS_PER_DAY <= now ->
             days < Derived.daysElapsed d /\ Derived.remainingDays d = 0).
Proof.
  intros Hpow Hdays.
  destruct (computeDerivedData_fields Math_pow tz now profile expenses Hpow)
    as (d & Hd & _ & Helapsed & Hremaining & _); [lia |].
  exists d. split; [exact Hd |].
  intros days start. rewrite Hremaining, Helapsed. fold start days.
  assert (Hquot : (now - start) / Date.MS_PER_DAY
                  = now / Date.MS_PER_DAY - Profile.startDate profile).
  { subst start. unfold Date.parse.
    replace (now - Profile.startDate profile * Date.MS_PER_DAY)
      with (now + (- Profile.startDate profile) * Date.MS_PER_DAY) by ring.
    rewrite Z.div_add by (unfold Date.MS_PER_DAY; lia). ring. }
  pose proof MS_PER_DAY_pos as Hms.
  pose proof (Z.div_le_mono) as Hmono.
  split; [| split].
  - intros Hbefore.
    assert ((now - start) / Date.MS_PER_DAY < 0)
      by (apply Z.div_lt_upper_bound; lia).
    lia.
  - intros [Hlo Hhi].
    assert (0 <= (now - start) / Date.MS_PER_DAY) by (apply Z.div_pos; lia).
    assert ((now - start) / Date.MS_PER_DAY < days)
      by (apply Z.div_lt_upper_bound; lia).
    lia.
  - intros Hafter.
    assert (days <= (now - start) / Date.MS_PER_DAY)
      by (apply Z.div_le_lower_bound; lia).
    lia.
Qed.

Lemma In_triggered (tz now : Z) (profile : Profile.t) (derived : Derived.t)
    (expenses : list Expense.t) (item : AdviceItem.t) :
  In item (triggeredRules tz now profile derived expenses)
  <-> exists rule : Rule.t,
        In rule (adviceRules tz)
        /\ Rule.when rule now profile derived expenses = true
        /\ item = toItem profile derived expenses rule.
Proof.
  unfold triggeredRules. rewrite in_map_iff. split.
  - intros (rule & <- & Hin). apply filter_In in Hin as [Hin Hwhen]. now exists rule.
  - intros (rule & Hin & Hwhen & ->). exists rule. split; [reflexivity |].
    now apply filter_In.
Qed.

Lemma In_generateAdvice (tz now : Z) (profile : Profile.t) (derived : Derived.t)
    (expenses : list Expense.t) (item : AdviceItem.t) :
  In item (generateAdvice tz now profile derived expenses) ->
  In item (triggeredRules tz now profile derived expenses).
Proof.
  rewrite generateAdvice_sorted. intros Hin.
  apply (Permutation_in _ (sort_perm severityRank _)).
  rewrite <- (firstn_skipn 5 (Js.sort _ _)). apply in_or_app. now left.
Qed.

(** A rule whose id is among the returned ids has fired. *)
Lemma advised_fired (tz now : Z) (profile : Profile.t) (derived : Derived.t)
    (expenses : list Expense.t) (rule : Rule.t) :
  In rule (adviceRules tz) ->
  In (Rule.id rule)
     (List.map AdviceItem.id (generateAdvice tz now profile derived expenses)) ->
  Rule.when rule now profile derived expenses = true.
Proof.
  intros Hrule Hid. apply in_map_iff in Hid as (item & Hitem & Hin).
  apply In_generateAdvice, In_triggered in Hin as (rule' & Hrule' & Hwhen & ->).
  cbn [toItem AdviceItem.id] in Hitem.
  assert (rule' = rule); [| now subst].
  unfold adviceRules in Hrule, Hrule'. simpl in Hrule, Hrule'.
  repeat (destruct Hrule as [<- | Hrule]); try contradiction;
    repeat (destruct Hrule' as [<- | Hrule']); try contradiction;
    solve [reflexivity | discriminate Hitem].
Qed.

(** X2. From the last day of the period on, no day remains and the daily
    safe limit is 0, whatever credits are left; the advice then never holds
    the item daily_limit_exceeded. *)
Theorem last_day_limit_zero (Math_pow : Q -> Q -> Q) (tz now : Z)
    (profile : Profile.t) (expenses : list Expense.t) :
  pow_positive Math_pow ->
  0 < Profile.monthDays profile ->
  Date.parse (Profile.startDate profile)
    + (Profile.monthDays profile - 1) * Date.MS_PER_DAY <= now ->
  exists d : Derived.t,
    computeDerivedData Math_pow tz now profile expenses = Some d
    /\ Derived.remainingDays d = 0
    /\ Derived.dailySafeLimit d = 0
    /\ ~ In "daily_limit_exceeded"%string
           (List.map AdviceItem.id (generateAdvice tz now profile d expenses)).
Proof.
  intros Hpow Hdays Hlast.
  destruct (computeDerivedData_fields Math_pow tz now profile expenses Hpow)
    as (d & Hd & _ & Helapsed & Hremaining & _ & _ & _ & _ & _ & _ & Hlimit & _);
    [lia |].
  exists d. split; [exact Hd |].
  assert (Hzero : Derived.remainingDays d = 0).
  { rewrite Hremaining, Helapsed.
    pose proof MS_PER_DAY_pos.
    assert (Profile.monthDays profile - 1
            <= (now - Date.parse (Profile.startDate profile)) / Date.MS_PER_DAY)
      by (apply Z.div_le_lower_bound; lia).
    lia. }
  assert (Hnone : Derived.dailySafeLimit d = 0).
  { rewrite Hlimit, Hzero. reflexivity. }
  split; [exact Hzero |]. split; [exact Hnone |].
  intros Hin.
  apply (advised_fired tz now profile d expenses daily_limit_exceeded) in Hin.
  - cbn [Rule.when daily_limit_exceeded] in Hin. rewrite Hnone in Hin.
    now rewrite andb_false_r in Hin.
  - unfold adviceRules. simpl. tauto.
Qed.

Lemma Js_sum_filter_le {A : Type} (f : A -> Q) (p : A -> bool) (xs : list A) :
  Forall (fun x => (0 <= f x)%Q) xs ->
  (0 <= Js.sum f (List.filter p xs) <= Js.sum f xs)%Q.
Proof.
  induction 1 as [| x xs Hx _ IH]; simpl.
  - unfold Js.sum. simpl. split; apply Qle_refl.
  - pose proof (Js_sum_cons f x xs).
    pose proof (Js_sum_cons f x (List.filter p xs)).
    destruct (p x); lra.
Qed.

(** X3. The credits.  With no negative cost, totalSpent is the sum of all
    the costs and is not negative, todaySpend is between 0 and totalSpent,
    and remainingCredits is what is left of monthlyCredits: the two add up
    to monthlyCredits as long as the credits are not overspent, and past
    that point remainingCredits is 0 and the overspending shows nowhere. *)
Theorem computeDerivedData_credits (Math_pow : Q -> Q -> Q) (tz now : Z)
    (profile : Profile.t) (expenses : list Expense.t) :
  pow_positive Math_pow ->
  0 < Profile.monthDays profile ->
  Forall (fun e => (0 <= Expense.cost e)%Q) expenses ->
  exists d : Derived.t,
    computeDerivedData Math_pow tz now profile expenses = Some d
    /\ (0 <= Derived.todaySpend d <= Derived.totalSpent d)%Q
    /\ ((Derived.totalSpent d <= Profile.monthlyCredits profile)%Q ->
          (Derived.totalSpent d + Derived.remainingCredits d
           == Profile.monthlyCredits profile)%Q)
    /\ ((Profile.monthlyCredits profile <= Derived.totalSpent d)%Q ->
          (Derived.remainingCredits d == 0)%Q).
Proof.
  intros Hpow Hdays Hcosts.
  destruct (computeDerivedData_fields Math_pow tz now profile expenses Hpow)
    as (d & Hd & _ & _ & _ & Htotal & Hleft & Htoday & _); [lia |].
  exists d. split; [exact Hd |].
  rewrite Htoday, Hleft, Htotal. unfold costOn.
  split; [now apply Js_sum_filter_le |]. split.
  - intros Hle. rewrite Q.max_r by lra. ring.
  - intros Hle. rewrite Q.max_l by lra. reflexivity.
Qed.

(** ** The forecast and the two classifiers *)


(** X7. determineConfidenceLevel grows with its two arguments: more expense
    records and more elapsed days never lower the confidence.  It is high
    exactly from 10 records and 5 days on, and low exactly below 3 records
    or 2 days. *)
Theorem determineConfidenceLevel_monotone (count count' : nat) (days days' : Z) :
  (count <= count')%nat -> days <= days' ->
  confidenceRank (determineConfidenceLevel count days)
  <= confidenceRank (determineConfidenceLevel count' days')
  /\ (determineConfidenceLevel count days = Confidence.high
      <-> (10 <= count)%nat /\ 5 <= days)
  /\ (determineConfidenceLevel count days = Confidence.low
      <-> (count < 3)%nat \/ days < 2).
Proof.
  intros Hcount Hdays. unfold determineConfidenceLevel.
  destruct (Z.ltb_spec (Z.of_nat count) 3), (Z.ltb_spec days 2),
           (Z.ltb_spec (Z.of_nat count) 10), (Z.ltb_spec days 5),
           (Z.ltb_spec (Z.of_nat count') 3), (Z.ltb_spec days' 2),
           (Z.ltb_spec (Z.of_nat count') 10), (Z.ltb_spec days' 5);
    simpl; (split; [lia |]); split; split;
    solve [ discriminate | lia | reflexivity | intros [? ?]; lia | intros [? | ?]; lia ].
Qed.

(** ** The advice engine: what the cut to five keeps *)

Lemma filter_map_commute {A B : Type} (g : A -> B) (p : B -> bool) (l : list A) :
  List.filter p (List.map g l) = List.map g (List.filter (fun x => p (g x)) l).
Proof.
  induction l as [| x l IH]; simpl.
  - reflexivity.
  - destruct (p (g x)); simpl; now rewrite IH.
Qed.

Lemma filter_filter_commute {A : Type} (p q : A -> bool) (l : list A) :
  List.filter p (List.filter q l) = List.filter q (List.filter p l).
Proof.
  induction l as [| x l IH]; simpl.
  - reflexivity.
  - destruct (p x) eqn:Hp, (q x) eqn:Hq; simpl; rewrite ?Hp, ?Hq, IH; reflexivity.
Qed.

Lemma filter_length_le {A : Type} (p : A -> bool) (l : list A) :
  (length (List.filter p l) <= length l)%nat.
Proof.
  induction l as [| x l IH]; simpl; [lia |]. destruct (p x); simpl; lia.
Qed.

Lemma filter_none {A : Type} (p : A -> bool) (l : list A) :
  Forall (fun x => p x = false) l -> List.filter p l = [].
Proof.
  induction 1 as [| x l Hx _ IH]; simpl; [reflexivity |]. now rewrite Hx.
Qed.

Lemma hasSeverity_rank (s : Severity.t) (item : AdviceItem.t) :
  hasSeverity s item = (severityRank item =? severityOrder s).
Proof.
  unfold hasSeverity, severityRank. now destruct (AdviceItem.severity item), s.
Qed.

Lemma filter_lower_none (s : Severity.t) (x : AdviceItem.t) (l : list AdviceItem.t) :
  Forall (ranked severityRank x) l ->
  severityOrder s < severityRank x ->
  List.filter (hasSeverity s) l = [].
Proof.
  intros Hall Hlower. apply filter_none.
  eapply Forall_impl; [exact Hall |]. intros y Hy. unfold ranked in Hy.
  rewrite hasSeverity_rank. apply Z.eqb_neq. lia.
Qed.

(** A list that is sorted by severity is its items of high severity, then
    those of medium severity, then those of low severity. *)
Lemma sorted_by_severity (l : list AdviceItem.t) :
  StronglySorted (ranked severityRank) l ->
  l = List.filter (hasSeverity Severity.high) l
      ++ List.filter (hasSeverity Severity.medium) l
      ++ List.filter (hasSeverity Severity.low) l.
Proof.
  induction 1 as [| x l _ IH Hall]; [reflexivity |].
  cbn [List.filter]. rewrite !(hasSeverity_rank _ x).
  pose proof (filter_lower_none Severity.high x l Hall) as Hhigh.
  pose proof (filter_lower_none Severity.medium x l Hall) as Hmedium.
  unfold severityRank in *.
  destruct (AdviceItem.severity x); cbn [severityOrder] in *;
    repeat match goal with
           | |- context [?a =? ?b] =>
               let v := eval vm_compute in (a =? b) in change (a =? b) with v
           end.
  - cbn [app]. now rewrite <- IH.
  - rewrite Hhigh in * by lia. cbn [app] in *. now rewrite <- IH.
  - rewrite Hhigh, Hmedium in * by lia. cbn [app] in *. now rewrite <- IH.
Qed.

Lemma sort_by_severity (l : list AdviceItem.t) :
  Js.sort (byRank severityRank) l
  = List.filter (hasSeverity Severity.high) l
    ++ List.filter (hasSeverity Severity.medium) l
    ++ List.filter (hasSeverity Severity.low) l.
Proof.
  rewrite (sorted_by_severity _ (sort_sorted severityRank l)).
  now rewrite !sort_stable by apply hasSeverity_one_rank.
Qed.

Lemma rule_of_table (tz : Z) (rule : Rule.t) :
  In rule (adviceRules tz) ->
  rule = on_track \/ rule = overspending_early \/ rule = exhaustion_warning
  \/ rule = frequent_chicken \/ rule = dessert_spending
  \/ rule = daily_limit_exceeded \/ rule = weekend_boost_suggestion tz
  \/ rule = surplus_projection \/ rule = queue_risk.
Proof.
  unfold adviceRules. simpl. intuition.
Qed.

(** At most four rules of high severity fire. *)
Lemma high_items_length (tz now : Z) (profile : Profile.t) (derived : Derived.t)
    (expenses : list Expense.t) :
  (length (List.filter (hasSeverity Severity.high)
             (triggeredRules tz now profile derived expenses)) <= 4)%nat.
Proof.
  unfold triggeredRules.
  rewrite filter_map_commute, length_map, filter_filter_commute.
  etransitivity; [apply filter_length_le |]. reflexivity.
Qed.

(** When frequent_chicken fires, its item is the first one of medium
    severity. *)
Lemma medium_items_head (tz now : Z) (profile : Profile.t) (derived : Derived.t)
    (expenses : list Expense.t) :
  Rule.when frequent_chicken now profile derived expenses = true ->
  exists rest,
    List.filter (hasSeverity Severity.medium)
      (triggeredRules tz now profile derived expenses)
    = toItem profile derived expenses frequent_chicken :: rest.
Proof.
  intros Hwhen. unfold triggeredRules.
  rewrite filter_map_commute, filter_filter_commute.
  change (List.filter (fun x => hasSeverity Severity.medium
                                  (toItem profile derived expenses x))
            (adviceRules tz))
    with [frequent_chicken; dessert_spending].
  cbn [List.filter]. rewrite Hwhen. cbn [List.map]. now eexists.
Qed.

(** X8. generateAdvice returns the first five of: the items of the rules
    that fired with high severity, then those with medium, then those with
    low severity, each group in the order of the table.  When at most five
    rules fire nothing is cut, and the result is empty exactly when no rule
    fires. *)
Theorem generateAdvice_by_severity (tz now : Z) (profile : Profile.t)
    (derived : Derived.t) (expenses : list Expense.t) :
  let triggered := triggeredRules tz now profile derived expenses in
  let ordered := List.filter (hasSeverity Severity.high) triggered
                 ++ List.filter (hasSeverity Severity.medium) triggered
                 ++ List.filter (hasSeverity Severity.low) triggered in
  let advice := generateAdvice tz now profile derived expenses in
  advice = firstn 5 ordered
  /\ ((length triggered <= 5)%nat -> advice = ordered /\ Permutation advice triggered)
  /\ (advice = []
      <-> forall rule : Rule.t,
            In rule (adviceRules tz) ->
            Rule.when rule now profile derived expenses = false).
Proof.
  intros triggered ordered advice.
  assert (Hsort : Js.sort (byRank severityRank) triggered = ordered)
    by apply sort_by_severity.
  assert (Hadvice : advice = firstn 5 ordered).
  { subst advice. rewrite generateAdvice_sorted. fold triggered. now rewrite Hsort. }
  assert (Hperm : Permutation ordered triggered).
  { rewrite <- Hsort. apply sort_perm. }
  split; [exact Hadvice |]. split.
  - intros Hlen.
    assert (Hall : advice = ordered).
    { rewrite Hadvice. apply firstn_all2.
      now rewrite (Permutation_length Hperm). }
    split; [exact Hall |]. rewrite Hall. exact Hperm.
  - split.
    + intros Hnil rule Hrule.
      destruct (Rule.when rule now profile derived expenses) eqn:Hwhen; [| reflexivity].
      exfalso.
      assert (Hin : In (toItem profile derived expenses rule) triggered)
        by (apply In_triggered; now exists rule).
      apply (Permutation_in _ (Permutation_sym Hperm)) in Hin.
      rewrite Hadvice in Hnil.
      destruct ordered as [| item rest]; [contradiction | discriminate Hnil].
    + intros Hnone. rewrite Hadvice.
      assert (Hempty : triggered = []).
      { destruct triggered as [| item rest] eqn:E; [reflexivity |].
        assert (Hin : In item (triggeredRules tz now profile derived expenses))
          by (fold triggered; rewrite E; now left).
        apply In_triggered in Hin as (rule & Hrule & Hwhen & _).
        rewrite (Hnone rule Hrule) in Hwhen. discriminate. }
      apply Permutation_sym in Hperm. rewrite Hempty in Hperm.
      apply Permutation_nil in Hperm. now rewrite Hperm.
Qed.

(** X9. The cut to five never drops an item of high severity, nor the item
    of frequent_chicken: each of these five rules, when it fires, has its
    item in the result. *)
Theorem generateAdvice_keeps_urgent (tz now : Z) (profile : Profile.t)
    (derived : Derived.t) (expenses : list Expense.t) (rule : Rule.t) :
  In rule (adviceRules tz) ->
  Rule.when rule now profile derived expenses = true ->
  Rule.severity rule = Severity.high \/ Rule.id rule = "frequent_chicken"%string ->
  In (toItem profile derived expenses rule)
     (generateAdvice tz now profile derived expenses).
Proof.
  intros Hrule Hwhen Hkind.
  rewrite generateAdvice_sorted, sort_by_severity.
  set (triggered := triggeredRules tz now profile derived expenses).
  pose proof (high_items_length tz now profile derived expenses) as Hhigh.
  fold triggered in Hhigh.
  rewrite firstn_app. apply in_or_app.
  destruct Hkind as [Hsev | Hid].
  - left. rewrite firstn_all2 by lia.
    apply filter_In. split.
    + apply In_triggered. now exists rule.
    + unfold hasSeverity. cbn [toItem AdviceItem.severity]. now rewrite Hsev.
  - right.
    assert (rule = frequent_chicken).
    { apply rule_of_table in Hrule.
      repeat (destruct Hrule as [-> | Hrule]); try reflexivity; try discriminate Hid.
      subst rule. discriminate Hid. }
    subst rule.
    destruct (medium_items_head tz now profile derived expenses Hwhen) as (rest & Hhead).
    fold triggered in Hhead. rewrite Hhead.
    destruct (5 - length (List.filter (hasSeverity Severity.high) triggered))%nat
      as [| n] eqn:E; [lia |].
    now left.
Qed.

(** ** The expense list: adding and deleting *)

Lemma sort_ext {A : Type} (cmp cmp' : A -> A -> Z) (l : list A) :
  (forall a b, cmp a b = cmp' a b) -> Js.sort cmp l = Js.sort cmp' l.
Proof.
  intros Hcmp. induction l as [| x l IH]; simpl; [reflexivity |].
  rewrite IH. generalize (Js.sort cmp' l) as sorted.
  induction sorted as [| y sorted IHs]; simpl; [reflexivity |].
  now rewrite Hcmp, IHs.
Qed.

(** The rank by which handleExpenseSubmit sorts: the later the date, the
    earlier in the list. *)
Lemma byDateDescending_rank (l : list Expense.t) :
  Js.sort byDateDescending l
  = Js.sort (byRank (fun e => - Date.parse (Expense.date e))) l.
Proof.
  apply sort_ext. intros a b. unfold byDateDescending, byRank. ring.
Qed.

Lemma sort_insert_head {A : Type} (rank : A -> Z) (x : A) (l : list A) :
  Forall (ranked rank x) l -> Js.sort_insert (byRank rank) x l = x :: l.
Proof.
  destruct 1 as [| y l Hy _]; simpl; [reflexivity |].
  unfold ranked in Hy. unfold byRank.
  now rewrite (proj2 (Z.ltb_ge _ _)) by lia.
Qed.

(** Sorting a sorted list changes nothing. *)
Lemma sort_sorted_id {A : Type} (rank : A -> Z) (l : list A) :
  StronglySorted (ranked rank) l -> Js.sort (byRank rank) l = l.
Proof.
  induction 1 as [| x l _ IH Hall]; simpl; [reflexivity |].
  rewrite IH. now apply sort_insert_head.
Qed.

Lemma Forall_filter_bool {A : Type} (P : A -> Prop) (p : A -> bool) (l : list A) :
  Forall P l -> Forall P (List.filter p l).
Proof.
  induction 1 as [| x l Hx _ IH]; simpl; [constructor |].
  destruct (p x); [constructor |]; assumption.
Qed.

Lemma sort_insert_filter_commute {A : Type} (rank : A -> Z) (p : A -> bool)
    (x : A) (l : list A) :
  StronglySorted (ranked rank) l ->
  List.filter p (Js.sort_insert (byRank rank) x l)
  = if p x then Js.sort_insert (byRank rank) x (List.filter p l) else List.filter p l.
Proof.
  induction 1 as [| y l Hsorted IH Hall]; simpl.
  - now destruct (p x).
  - destruct (Z.ltb_spec 0 (byRank rank x y)) as [Hgt | Hle]; simpl.
    + rewrite IH. destruct (p y), (p x); simpl; try reflexivity.
      now rewrite (proj2 (Z.ltb_lt _ _) Hgt).
    + destruct (p x) eqn:Hx; [| reflexivity].
      symmetry. apply sort_insert_head.
      assert (Hx_all : Forall (ranked rank x) (y :: l)).
      { constructor; [unfold ranked, byRank in *; lia |].
        eapply Forall_impl; [exact Hall |].
        intros z Hz. unfold ranked, byRank in *. lia. }
      now apply (Forall_filter_bool _ p) in Hx_all.
Qed.

(** A stable sort and a filter commute. *)
Lemma sort_filter_commute {A : Type} (rank : A -> Z) (p : A -> bool) (l : list A) :
  List.filter p (Js.sort (byRank rank) l) = Js.sort (byRank rank) (List.filter p l).
Proof.
  induction l as [| x l IH]; simpl; [reflexivity |].
  rewrite sort_insert_filter_commute by apply sort_sorted.
  rewrite IH. now destruct (p x).
Qed.

Lemma Js_sum_app {A : Type} (f : A -> Q) (l1 l2 : list A) :
  (Js.sum f (l1 ++ l2) == Js.sum f l1 + Js.sum f l2)%Q.
Proof.
  induction l1 as [| x l1 IH]; simpl.
  - unfold Js.sum at 2. simpl. ring.
  - rewrite !Js_sum_cons, IH. ring.
Qed.

Lemma Js_sum_perm {A : Type} (f : A -> Q) (l1 l2 : list A) :
  Permutation l1 l2 -> (Js.sum f l1 == Js.sum f l2)%Q.
Proof.
  induction 1 as [| x l1 l2 _ IH | x y l | l1 l2 l3 _ IH1 _ IH2].
  - reflexivity.
  - now rewrite !Js_sum_cons, IH.
  - rewrite !Js_sum_cons. ring.
  - now rewrite IH1.
Qed.

Lemma hasErrors_spec (errors : gmap string string) :
  hasErrors errors = false <-> errors = ∅.
Proof.
  unfold hasErrors. rewrite bool_decide_eq_false. split.
  - intros Hnot. destruct (decide (errors = ∅)); [assumption | contradiction].
  - intros -> Hne. now apply Hne.
Qed.


(** The end of today against a date, in days: a date passes the test of
    validateExpenseForm when it is at most today's local date, or, west of
    UTC, tomorrow's. *)
Lemma not_future_days (tz now date : Z) :
  Z.abs tz < Date.MS_PER_DAY ->
  (endOfDay tz now <? Date.parse date) = false
  <-> date <= Date.localDay tz now + (if tz <? 0 then 1 else 0).
Proof.
  intros Htz. rewrite Z.ltb_ge. unfold endOfDay, Date.parse.
  destruct (Z.ltb_spec tz 0); unfold Date.MS_PER_DAY in *; lia.
Qed.

Lemma in_period_days (p : Profile.t) (date : Z) :
  (Date.parse date <? Date.parse (Profile.startDate p))
  || (Date.addDays (Date.parse (Profile.startDate p)) (Profile.monthDays p - 1)
      <? Date.parse date) = false
  <-> Profile.startDate p <= date <= Profile.startDate p + Profile.monthDays p - 1.
Proof.
  rewrite orb_false_iff, !Z.ltb_ge. unfold Date.addDays, Date.parse, Date.MS_PER_DAY.
  lia.
Qed.

Ltac reflect_form :=
  repeat match goal with
         | H : Js.le _ _ = true |- _ => apply Js_le_spec in H
         | H : Js.le _ _ = false |- _ => apply Js_le_false in H
         | H : Js.lt _ _ = true |- _ => apply Js_lt_spec in H
         | H : Js.lt _ _ = false |- _ => apply Js_lt_false in H
         | H : (_ <? _) = true |- _ => apply Z.ltb_lt in H
         | H : (_ <? _) = false |- _ => apply Z.ltb_ge in H
         | H : _ || _ = false |- _ => apply orb_false_iff in H as [? ?]
         | H : _ || _ = true |- _ => apply orb_true_iff in H
         end.

(** When validateExpenseForm reports no error, in the terms of its tests. *)
Lemma validateExpenseForm_empty (tz now : Z) (profile : option Profile.t)
    (form : ExpenseForm.t) :
  validateExpenseForm tz now profile form = ∅
  <-> exists (date : Z) (cost : Q) (quantity : Z),
        ExpenseForm.date form = Some date
        /\ ExpenseForm.cost form = Some cost
        /\ ExpenseForm.quantity form = Some quantity
        /\ (endOfDay tz now <? Date.parse date) = false
        /\ (forall p, profile = Some p ->
              (Date.parse date <? Date.parse (Profile.startDate p))
              || (Date.addDays (Date.parse (Profile.startDate p)) (Profile.monthDays p - 1)
                  <? Date.parse date) = false)
        /\ (0 < cost <= 2000)%Q
        /\ 1 <= quantity.
Proof.
  unfold validateExpenseForm. cbv zeta.
  destruct (ExpenseForm.date form) as [date |],
           (ExpenseForm.cost form) as [cost |],
           (ExpenseForm.quantity form) as [quantity |];
    try (split; [intros H; exfalso; destruct profile;
                 repeat match type of H with
                        | context [if ?b then _ else _] => destruct b
                        end;
                 now apply insert_non_empty in H
                | intros (? & ? & ? & ? & ? & ? & _); discriminate]).
  destruct (endOfDay tz now <? Date.parse date) eqn:Hfuture.
  - (* a date in the future *)
    split.
    + intros H. exfalso.
      destruct profile as [p |];
        repeat match type of H with
               | context [if ?b then _ else _] => destruct b
               end;
        now apply insert_non_empty in H.
    + intros (? & ? & ? & [= <-] & _ & _ & Hnot & _). congruence.
  - destruct profile as [p |].
    + destruct ((Date.parse date <? Date.parse (Profile.startDate p))
                || (Date.addDays (Date.parse (Profile.startDate p))
                      (Profile.monthDays p - 1) <? Date.parse date)) eqn:Hperiod.
      * split.
        -- intros H. exfalso.
           repeat match type of H with
                  | context [if ?b then _ else _] => destruct b
                  end;
             now apply insert_non_empty in H.
        -- intros (? & ? & ? & [= <-] & _ & _ & _ & Hin & _). exfalso.
           specialize (Hin p eq_refl). congruence.
      * destruct (Js.le cost 0) eqn:Hcost, (Js.lt 2000 cost) eqn:Hhigh,
                 (quantity <? 1) eqn:Hquantity;
          revert Hfuture Hperiod; reflect_form; intros Hfuture Hperiod;
          (split;
           [ intros H; try (exfalso; now apply insert_non_empty in H);
             exists date, cost, quantity;
             (split; [reflexivity |]); (split; [reflexivity |]);
             (split; [reflexivity |]); (split; [exact Hfuture |]);
             (split; [intros ? [= <-]; exact Hperiod |]);
             (split; [split; assumption | lia])
           | intros (? & ? & ? & [= <-] & [= <-] & [= <-] & _ & _ & [? ?] & ?);
             try reflexivity; exfalso; (lra || lia) ]).
    + destruct (Js.le cost 0) eqn:Hcost, (Js.lt 2000 cost) eqn:Hhigh,
               (quantity <? 1) eqn:Hquantity;
        revert Hfuture; reflect_form; intros Hfuture;
        (split;
         [ intros H; try (exfalso; now apply insert_non_empty in H);
           exists date, cost, quantity;
           (split; [reflexivity |]); (split; [reflexivity |]);
           (split; [reflexivity |]); (split; [exact Hfuture |]);
           (split; [intros ? [=] |]);
           (split; [split; assumption | lia])
         | intros (? & ? & ? & [= <-] & [= <-] & [= <-] & _ & _ & [? ?] & ?);
           try reflexivity; exfalso; (lra || lia) ]).
Qed.

(** X10. validateExpenseForm reports no error exactly when the form has a
    date, a cost above 0 and at most 2000 and a quantity of at least 1,
    the date lies within the period when there is a profile, and the date is
    at most today's local date; west of UTC tomorrow's date passes too,
    since a date is read as midnight UTC. *)
Theorem validateExpenseForm_accepts (tz now : Z) (profile : option Profile.t)
    (form : ExpenseForm.t) :
  Z.abs tz < Date.MS_PER_DAY ->
  validateExpenseForm tz now profile form = ∅
  <-> exists (date : Z) (cost : Q) (quantity : Z),
        ExpenseForm.date form = Some date
        /\ ExpenseForm.cost form = Some cost
        /\ ExpenseForm.quantity form = Some quantity
        /\ date <= Date.localDay tz now + (if tz <? 0 then 1 else 0)
        /\ (forall p, profile = Some p ->
              Profile.startDate p <= date
              <= Profile.startDate p + Profile.monthDays p - 1)
        /\ (0 < cost <= 2000)%Q
        /\ 1 <= quantity.
Proof.
  intros Htz. rewrite validateExpenseForm_empty.
  split; intros (date & cost & quantity & Hdate & Hcost & Hquantity & Hfuture
                 & Hperiod & Hbounds);
    exists date, cost, quantity;
    (split; [exact Hdate |]); (split; [exact Hcost |]); (split; [exact Hquantity |]);
    (split; [now apply (not_future_days _ _ _ Htz) |]);
    (split; [| exact Hbounds]);
    intros p Hp; apply in_period_days; now apply Hperiod.
Qed.

(** ** The expense list: handleExpenseSubmit and deleteExpense *)

Lemma StronglySorted_weaken {A : Type} (R R' : A -> A -> Prop) (l : list A) :
  (forall a b, R a b -> R' a b) -> StronglySorted R l -> StronglySorted R' l.
Proof.
  intros HR. induction 1 as [| x l _ IH Hall]; constructor; [assumption |].
  eapply Forall_impl; [exact Hall | intros y; apply HR].
Qed.

Lemma latestFirst_ranked (a b : Expense.t) :
  latestFirst a b <-> ranked (fun e => - Date.parse (Expense.date e)) a b.
Proof.
  unfold latestFirst, ranked, Date.parse. pose proof MS_PER_DAY_pos. nia.
Qed.

Lemma latestFirst_sorted (l : list Expense.t) :
  StronglySorted latestFirst l
  <-> StronglySorted (ranked (fun e => - Date.parse (Expense.date e))) l.
Proof.
  split; apply StronglySorted_weaken; intros a b; apply latestFirst_ranked.
Qed.

(** The state after a submission that passes the validation. *)
Lemma handleExpenseSubmit_accepted (tz now : Z) (uuid : string)
    (form : ExpenseForm.t) (app : App.t) (p : Profile.t) :
  App.profile app = Some p ->
  validateExpenseForm tz now (Some p) form = ∅ ->
  exists (date : Z) (cost : Q) (quantity : Z),
    ExpenseForm.date form = Some date
    /\ ExpenseForm.cost form = Some cost
    /\ ExpenseForm.quantity form = Some quantity
    /\ handleExpenseSubmit tz now uuid form app
       = {| App.profile := Some p;
            App.expenses :=
              Js.sort byDateDescending
                (App.expenses app
                 ++ [ {| Expense.id := uuid;
                         Expense.date := date;
                         Expense.mealType := JsText.or_else (ExpenseForm.mealType form) "lunch";
                         Expense.itemType := JsText.or_else (ExpenseForm.itemType form) "veg";
                         Expense.quantity := quantity;
                         Expense.cost := cost;
                         Expense.notes := JsText.or_null (ExpenseForm.notes form) |} ]) |}.
Proof.
  intros Hprofile Hvalid.
  pose proof (proj1 (validateExpenseForm_empty _ _ _ _) Hvalid)
    as (date & cost & quantity & Hdate & Hcost & Hquantity & _ & _ & [Hpos _] & Hq).
  exists date, cost, quantity.
  split; [exact Hdate |]. split; [exact Hcost |]. split; [exact Hquantity |].
  unfold handleExpenseSubmit. rewrite Hprofile. cbv zeta.
  rewrite (proj2 (hasErrors_spec _) Hvalid), Hdate.
  unfold createExpenseEntry. cbn [ExpenseData.date ExpenseData.mealType
    ExpenseData.itemType ExpenseData.quantity ExpenseData.cost ExpenseData.notes].
  rewrite Hcost, Hquantity. cbn [JsInt.or_else Js.or_else].
  replace (quantity =? 0) with false by (symmetry; apply Z.eqb_neq; lia).
  replace (Js.truthy cost) with true; [reflexivity |].
  symmetry. unfold Js.truthy. destruct (Qeq_bool cost 0) eqn:Hzero; [| reflexivity].
  apply Qeq_bool_iff in Hzero. lra.
Qed.

Lemma filter_all {A : Type} (p : A -> bool) (l : list A) :
  Forall (fun x => p x = true) l -> List.filter p l = l.
Proof.
  induction 1 as [| x l Hx _ IH]; simpl; [reflexivity |]. now rewrite Hx, IH.
Qed.

(** Where the sort puts an element pushed at the end of a sorted array:
    behind the elements that rank as low or lower, in front of the rest. *)
Lemma sort_push_sorted {A : Type} (rank : A -> Z) (e : A) (old : list A) :
  StronglySorted (ranked rank) old ->
  Js.sort (byRank rank) (old ++ [e])
  = List.filter (fun x => rank x <=? rank e) old
    ++ e :: List.filter (fun x => rank e <? rank x) old.
Proof.
  induction 1 as [| x l Hsorted IH Hall]; [reflexivity |].
  change (Js.sort (byRank rank) ((x :: l) ++ [e]))
    with (Js.sort_insert (byRank rank) x (Js.sort (byRank rank) (l ++ [e]))).
  rewrite IH. cbn [List.filter].
  destruct (rank x <=? rank e) eqn:Hx.
  - apply Z.leb_le in Hx.
    replace (rank e <? rank x) with false by (symmetry; apply Z.ltb_ge; lia).
    apply sort_insert_head. apply Forall_app. split.
    + now apply Forall_filter_bool.
    + constructor; [exact Hx | now apply Forall_filter_bool].
  - apply Z.leb_gt in Hx.
    replace (rank e <? rank x) with true by (symmetry; apply Z.ltb_lt; lia).
    rewrite filter_none, filter_all.
    + cbn [app Js.sort_insert]. unfold byRank at 1.
      replace (0 <? rank x - rank e) with true by (symmetry; apply Z.ltb_lt; lia).
      f_equal. now apply sort_insert_head.
    + eapply Forall_impl; [exact Hall |]. intros y Hy. unfold ranked in Hy.
      apply Z.ltb_lt. lia.
    + eapply Forall_impl; [exact Hall |]. intros y Hy. unfold ranked in Hy.
      apply Z.leb_gt. lia.
Qed.

Lemma filter_ext_bool {A : Type} (p q : A -> bool) (l : list A) :
  (forall x, p x = q x) -> List.filter p l = List.filter q l.
Proof.
  intros Hpq. induction l as [| x l IH]; simpl; [reflexivity |].
  now rewrite Hpq, IH.
Qed.

(** X11. A submission that passes the validation adds exactly one record: it
    carries the date, the cost and the quantity of the form as parsed (no
    default takes their place) and the generated id; the profile is kept; the
    list is a permutation of the record and the old list, is ordered by date,
    latest first, and its total cost grows by the cost of the form.  When the
    old list was ordered, the record goes behind the records of its own or a
    later date and in front of the earlier ones, which keep their order. *)
Theorem handleExpenseSubmit_adds (tz now : Z) (uuid : string)
    (form : ExpenseForm.t) (app : App.t) (p : Profile.t) :
  App.profile app = Some p ->
  validateExpenseForm tz now (Some p) form = ∅ ->
  exists expense : Expense.t,
    Expense.id expense = uuid
    /\ ExpenseForm.date form = Some (Expense.date expense)
    /\ ExpenseForm.cost form = Some (Expense.cost expense)
    /\ ExpenseForm.quantity form = Some (Expense.quantity expense)
    /\ App.profile (handleExpenseSubmit tz now uuid form app) = Some p
    /\ Permutation (App.expenses (handleExpenseSubmit tz now uuid form app))
                   (expense :: App.expenses app)
    /\ StronglySorted latestFirst
         (App.expenses (handleExpenseSubmit tz now uuid form app))
    /\ (Js.sum Expense.cost (App.expenses (handleExpenseSubmit tz now uuid form app))
        == Js.sum Expense.cost (App.expenses app) + Expense.cost expense)%Q
    /\ (StronglySorted latestFirst (App.expenses app) ->
        App.expenses (handleExpenseSubmit tz now uuid form app)
        = List.filter (fun x => Expense.date expense <=? Expense.date x)
            (App.expenses app)
          ++ expense
             :: List.filter (fun x => Expense.date x <? Expense.date expense)
                  (App.expenses app)).
Proof.
  intros Hprofile Hvalid.
  destruct (handleExpenseSubmit_accepted tz now uuid form app p Hprofile Hvalid)
    as (date & cost & quantity & Hdate & Hcost & Hquantity & ->).
  exists {| Expense.id := uuid;
            Expense.date := date;
            Expense.mealType := JsText.or_else (ExpenseForm.mealType form) "lunch";
            Expense.itemType := JsText.or_else (ExpenseForm.itemType form) "veg";
            Expense.quantity := quantity;
            Expense.cost := cost;
            Expense.notes := JsText.or_null (ExpenseForm.notes form) |}.
  cbn [App.profile App.expenses Expense.id Expense.date Expense.cost Expense.quantity].
  split; [reflexivity |]. split; [exact Hdate |]. split; [exact Hcost |].
  split; [exact Hquantity |]. split; [reflexivity |].
  rewrite byDateDescending_rank.
  assert (Hperm : forall e : Expense.t,
             Permutation
               (Js.sort (byRank (fun e => - Date.parse (Expense.date e)))
                  (App.expenses app ++ [e]))
               (e :: App.expenses app)).
  { intros e. rewrite sort_perm. now rewrite Permutation_app_comm. }
  split; [apply Hperm |].
  split; [apply latestFirst_sorted, sort_sorted |].
  split.
  - rewrite (Js_sum_perm _ _ _ (Hperm _)), Js_sum_cons.
    cbn [Expense.cost]. ring.
  - intros Hsorted. apply latestFirst_sorted in Hsorted.
    rewrite (sort_push_sorted _ _ _ Hsorted). cbn [Expense.date].
    f_equal; [| f_equal]; apply filter_ext_bool; intros x;
      unfold Date.parse; pose proof MS_PER_DAY_pos;
      [ destruct (date <=? Expense.date x) eqn:Hx;
        [ apply Z.leb_le in Hx; apply Z.leb_le; nia
        | apply Z.leb_gt in Hx; apply Z.leb_gt; nia ]
      | destruct (Expense.date x <? date) eqn:Hx;
        [ apply Z.ltb_lt in Hx; apply Z.ltb_lt; nia
        | apply Z.ltb_ge in Hx; apply Z.ltb_ge; nia ] ].
Qed.

(** X12. handleExpenseSubmit leaves the state as it is exactly when there is
    no profile or the validation reports an error. *)
Theorem handleExpenseSubmit_unchanged (tz now : Z) (uuid : string)
    (form : ExpenseForm.t) (app : App.t) :
  handleExpenseSubmit tz now uuid form app = app
  <-> App.profile app = None
      \/ validateExpenseForm tz now (App.profile app) form <> ∅.
Proof.
  destruct (App.profile app) as [p |] eqn:Hprofile.
  - destruct (decide (validateExpenseForm tz now (Some p) form = ∅)) as [Hvalid | Hinvalid].
    + split; [| intros [[=] | Hne]; contradiction].
      intros Hsame. exfalso.
      destruct (handleExpenseSubmit_accepted tz now uuid form app p Hprofile Hvalid)
        as (date & cost & quantity & _ & _ & _ & Heq).
      rewrite Heq in Hsame. apply (f_equal (fun a => length (App.expenses a))) in Hsame.
      cbn [App.expenses] in Hsame.
      rewrite byDateDescending_rank in Hsame.
      rewrite (Permutation_length (sort_perm _ _)), length_app in Hsame.
      simpl in Hsame. lia.
    + split; [intros _; now right |]. intros _.
      unfold handleExpenseSubmit. rewrite Hprofile. cbv zeta.
      destruct (hasErrors _) eqn:Herrors; [reflexivity |].
      apply hasErrors_spec in Herrors. contradiction.
  - split; [intros _; now left |]. intros _.
    unfold handleExpenseSubmit. now rewrite Hprofile.
Qed.

Lemma StronglySorted_filter {A : Type} (R : A -> A -> Prop) (p : A -> bool)
    (l : list A) :
  StronglySorted R l -> StronglySorted R (List.filter p l).
Proof.
  induction 1 as [| x l _ IH Hall]; simpl; [constructor |].
  destruct (p x); [| exact IH].
  constructor; [exact IH | now apply Forall_filter_bool].
Qed.

Lemma otherId_spec (id : string) (exp : Expense.t) :
  negb (String.eqb (Expense.id exp) id) = true <-> Expense.id exp <> id.
Proof.
  rewrite negb_true_iff. destruct (String.eqb_spec (Expense.id exp) id); split; congruence.
Qed.

Lemma filter_fixpoint {A : Type} (p : A -> bool) (l : list A) :
  List.filter p l = l <-> Forall (fun x => p x = true) l.
Proof.
  split; [| apply filter_all].
  induction l as [| x l IH]; simpl; [constructor |].
  destruct (p x) eqn:Hx.
  - intros [= Heq]. constructor; auto.
  - intros Heq. exfalso.
    pose proof (filter_length_le p l) as Hle. rewrite Heq in Hle. simpl in Hle. lia.
Qed.

Lemma fresh_id_kept (id : string) (l : list Expense.t) :
  ~ In id (List.map Expense.id l)
  <-> Forall (fun exp => negb (String.eqb (Expense.id exp) id) = true) l.
Proof.
  induction l as [| x l IH]; simpl.
  - split; [constructor | tauto].
  - rewrite Forall_cons, <- IH, otherId_spec. tauto.
Qed.

(** Deleting the one record that has an id. *)
Lemma delete_unique (id : string) (e : Expense.t) (l : list Expense.t) :
  NoDup (List.map Expense.id l) -> In e l -> Expense.id e = id ->
  exists before after : list Expense.t,
    l = before ++ e :: after
    /\ List.filter (fun exp => negb (String.eqb (Expense.id exp) id)) l
       = before ++ after.
Proof.
  intros Hnodup Hin Hid.
  apply in_split in Hin as (before & after & ->).
  exists before, after. split; [reflexivity |].
  rewrite List.filter_app. cbn [List.filter].
  rewrite Hid, String.eqb_refl. cbn [negb].
  rewrite map_app in Hnodup. cbn [List.map] in Hnodup.
  apply NoDup_app in Hnodup as (_ & Hdisjoint & Hafter).
  apply NoDup_cons in Hafter as [Hfresh _].
  f_equal; apply filter_all, fresh_id_kept.
  - intros Hbefore. apply list_elem_of_In in Hbefore.
    apply (Hdisjoint _ Hbefore). rewrite <- Hid. left.
  - intros Hafter. apply Hfresh. rewrite Hid. now apply list_elem_of_In.
Qed.

(** X13. deleteExpense removes every record that has the id and nothing
    else: the profile is kept, the records left are those with another id,
    in their order (so an ordered list stays ordered); the state is the same
    exactly when no record has the id, and a second deletion changes nothing.
    When the ids are distinct, one record goes and the total cost falls by
    its cost. *)
Theorem deleteExpense_removes (id : string) (app : App.t) :
  App.profile (deleteExpense id app) = App.profile app
  /\ (forall e : Expense.t,
        In e (App.expenses (deleteExpense id app))
        <-> In e (App.expenses app) /\ Expense.id e <> id)
  /\ App.expenses (deleteExpense id app) `sublist_of` App.expenses app
  /\ (StronglySorted latestFirst (App.expenses app) ->
      StronglySorted latestFirst (App.expenses (deleteExpense id app)))
  /\ (deleteExpense id app = app <-> ~ In id (List.map Expense.id (App.expenses app)))
  /\ deleteExpense id (deleteExpense id app) = deleteExpense id app
  /\ (forall e : Expense.t,
        NoDup (List.map Expense.id (App.expenses app)) ->
        In e (App.expenses app) -> Expense.id e = id ->
        (exists before after : list Expense.t,
           App.expenses app = before ++ e :: after
           /\ App.expenses (deleteExpense id app) = before ++ after)
        /\ (Js.sum Expense.cost (App.expenses (deleteExpense id app))
            == Js.sum Expense.cost (App.expenses app) - Expense.cost e)%Q).
Proof.
  destruct app as [profile expenses]. unfold deleteExpense.
  cbn [App.profile App.expenses].
  split; [reflexivity |].
  split; [intros e; now rewrite List.filter_In, otherId_spec |].
  split; [apply filter_is_sublist |].
  split; [apply StronglySorted_filter |].
  split.
  - rewrite fresh_id_kept, <- filter_fixpoint. split.
    + now intros [= Heq].
    + now intros ->.
  - split.
    + f_equal. apply filter_all, Forall_forall. intros e He.
      apply list_elem_of_In, List.filter_In in He. tauto.
    + intros e Hnodup Hin Hid.
      destruct (delete_unique id e expenses Hnodup Hin Hid)
        as (before & after & Hold & Hnew).
      split; [now exists before, after |].
      rewrite Hnew, Hold, !Js_sum_app, Js_sum_cons. ring.
Qed.

(** X14. Deleting a record right after it was added, by the id it was given,
    gives back the old records when that id was not in use: as they were when
    the list was ordered by date, latest first, and sorted so when it was
    not. *)
Theorem deleteExpense_undoes_add (tz now : Z) (uuid : string)
    (form : ExpenseForm.t) (app : App.t) (p : Profile.t) :
  App.profile app = Some p ->
  validateExpenseForm tz now (Some p) form = ∅ ->
  ~ In uuid (List.map Expense.id (App.expenses app)) ->
  App.expenses (deleteExpense uuid (handleExpenseSubmit tz now uuid form app))
  = Js.sort byDateDescending (App.expenses app)
  /\ (StronglySorted latestFirst (App.expenses app) ->
      deleteExpense uuid (handleExpenseSubmit tz now uuid form app) = app).
Proof.
  intros Hprofile Hvalid Hfresh.
  destruct (handleExpenseSubmit_accepted tz now uuid form app p Hprofile Hvalid)
    as (date & cost & quantity & _ & _ & _ & ->).
  unfold deleteExpense. cbn [App.profile App.expenses].
  assert (Hlist :
            List.filter (fun exp => negb (String.eqb (Expense.id exp) uuid))
              (Js.sort byDateDescending
                 (App.expenses app
                  ++ [ {| Expense.id := uuid;
                          Expense.date := date;
                          Expense.mealType := JsText.or_else (ExpenseForm.mealType form) "lunch";
                          Expense.itemType := JsText.or_else (ExpenseForm.itemType form) "veg";
                          Expense.quantity := quantity;
                          Expense.cost := cost;
                          Expense.notes := JsText.or_null (ExpenseForm.notes form) |} ]))
            = Js.sort byDateDescending (App.expenses app)).
  { rewrite !byDateDescending_rank, sort_filter_commute, List.filter_app.
    cbn [List.filter Expense.id]. rewrite String.eqb_refl. cbn [negb].
    rewrite app_nil_r. f_equal. now apply filter_all, fresh_id_kept. }
  rewrite Hlist. split; [reflexivity |].
  intros Hsorted. apply latestFirst_sorted in Hsorted.
  rewrite byDateDescending_rank, (sort_sorted_id _ _ Hsorted).
  destruct app as [profile expenses]. cbn [App.profile App.expenses] in *.
  now rewrite Hprofile.
Qed.

(** ** The setup form *)

(** When validateSetupForm reports no error. *)
Lemma validateSetupForm_empty (form : SetupForm.t) :
  validateSetupForm form = ∅
  <-> exists (credits : Q) (days start : Z),
        SetupForm.monthlyCredits form = Some credits
        /\ SetupForm.monthDays form = Some days
        /\ SetupForm.startDate form = Some start
        /\ (3000 <= credits <= 10000)%Q
        /\ 28 <= days <= 31.
Proof.
  unfold validateSetupForm. cbv zeta.
  destruct (SetupForm.monthlyCredits form) as [credits |],
           (SetupForm.monthDays form) as [days |],
           (SetupForm.startDate form) as [start |];
    try (split; [intros H; exfalso;
                 repeat match type of H with
                        | context [if ?b then _ else _] => destruct b
                        end;
                 now apply insert_non_empty in H
                | intros (? & ? & ? & ? & ? & ? & _); discriminate]).
  destruct (Js.lt credits 3000) eqn:Hlow, (Js.lt 10000 credits) eqn:Hhigh,
           (days <? 28) eqn:Hfew, (31 <? days) eqn:Hmany;
    cbn [orb]; reflect_form;
    (split;
     [ intros H; try (exfalso; now apply insert_non_empty in H);
       exists credits, days, start;
       (split; [reflexivity |]); (split; [reflexivity |]); (split; [reflexivity |]);
       (split; [split; assumption | lia])
     | intros (? & ? & ? & [= <-] & [= <-] & _ & [? ?] & ?);
       try reflexivity; exfalso; (lra || lia) ]).
Qed.

(** X15. A setup form with credits from 3000 to 10000, 28 to 31 days and a
    start date is saved: the new profile holds these values and the user
    type, keeps the preferences of the profile there was (the default ones
    when there was none) but for the vegetarian flag of the form, and the
    expenses are left as they are.  With such a profile the metrics engine
    is defined for every clock reading and expense list, and the target burn
    rate lies between 3000/31 and 10000/28. *)
Theorem handleSetupSubmit_saves (form : SetupForm.t) (app : App.t)
    (credits : Q) (days start : Z) :
  SetupForm.monthlyCredits form = Some credits ->
  SetupForm.monthDays form = Some days ->
  SetupForm.startDate form = Some start ->
  (3000 <= credits <= 10000)%Q ->
  28 <= days <= 31 ->
  exists profile : Profile.t,
    handleSetupSubmit form app
    = {| App.profile := Some profile; App.expenses := App.expenses app |}
    /\ Profile.userType profile = SetupForm.userType form
    /\ Profile.monthlyCredits profile = credits
    /\ Profile.monthDays profile = days
    /\ Profile.startDate profile = start
    /\ (let old := match App.profile app with
                   | Some p => Profile.preferences p
                   | None => defaultPreferences
                   end in
        let new := Profile.preferences profile in
        Preferences.riskTolerance new = Preferences.riskTolerance old
        /\ Preferences.weekendBoost new = Preferences.weekendBoost old
        /\ Preferences.examMode new = Preferences.examMode old
        /\ Preferences.maxSpendPerDay new = Preferences.maxSpendPerDay old
        /\ Preferences.notificationThresholds new
           = Preferences.notificationThresholds old
        /\ (Preferences.vegetarian new = true
            <-> SetupForm.vegetarian form = Some "true"%string))
    /\ (forall (Math_pow : Q -> Q -> Q) (tz now : Z) (expenses : list Expense.t),
          pow_positive Math_pow ->
          exists d : Derived.t,
            computeDerivedData Math_pow tz now profile expenses = Some d
            /\ (3000 / 31 <= Derived.targetBurnRate d <= 10000 / 28)%Q).
Proof.
  intros Hcredits Hdays Hstart Hbc Hbd.
  assert (Hvalid : validateSetupForm form = ∅).
  { apply validateSetupForm_empty. exists credits, days, start. tauto. }
  unfold handleSetupSubmit. cbv zeta.
  rewrite (proj2 (hasErrors_spec _) Hvalid), Hcredits, Hdays, Hstart.
  eexists. split; [reflexivity |].
  cbn [Profile.userType Profile.monthlyCredits Profile.monthDays Profile.startDate
       Profile.preferences Preferences.riskTolerance Preferences.weekendBoost
       Preferences.examMode Preferences.maxSpendPerDay Preferences.vegetarian
       Preferences.notificationThresholds].
  split; [reflexivity |]. split; [reflexivity |]. split; [reflexivity |].
  split; [reflexivity |].
  split.
  - split; [reflexivity |]. split; [reflexivity |]. split; [reflexivity |].
    split; [reflexivity |]. split; [reflexivity |].
    apply bool_decide_eq_true.
  - intros Math_pow tz now expenses Hpow.
    match goal with
    | |- context [computeDerivedData _ _ _ ?p _] =>
        destruct (computeDerivedData_fields Math_pow tz now p expenses Hpow)
          as (d & Hd & _ & _ & _ & _ & _ & _ & _ & _ & Htarget & _)
    end.
    + cbn [Profile.monthDays]. lia.
    + exists d. split; [exact Hd |].
      rewrite Htarget. cbn [Profile.monthlyCredits Profile.monthDays].
      destruct Hbc as [Hlow Hhigh].
      assert (Hd28 : (28 <= inject_Z days)%Q)
        by (change 28%Q with (inject_Z 28); rewrite <- Zle_Qle; lia).
      assert (Hd31 : (inject_Z days <= 31)%Q)
        by (change 31%Q with (inject_Z 31); rewrite <- Zle_Qle; lia).
      assert (Hpos : (0 < inject_Z days)%Q) by lra.
      assert (Hl : (3000 / 31 * 31 == 3000)%Q) by reflexivity.
      assert (Hh : (10000 / 28 * 28 == 10000)%Q) by reflexivity.
      generalize dependent (3000 / 31)%Q. intros low Hl.
      generalize dependent (10000 / 28)%Q. intros high Hh.
      split.
      * apply Qle_shift_div_l; [exact Hpos |]. nra.
      * apply Qle_shift_div_r; [exact Hpos |]. nra.
Qed.

(** X16. A setup form that lacks the credits, the days or the start date,
    or has credits outside 3000 to 10000 or days outside 28 to 31, changes
    nothing: the profile and the expenses stay as they are. *)
Theorem handleSetupSubmit_rejects (form : SetupForm.t) (app : App.t) :
  ~ (exists (credits : Q) (days start : Z),
       SetupForm.monthlyCredits form = Some credits
       /\ SetupForm.monthDays form = Some days
       /\ SetupForm.startDate form = Some start
       /\ (3000 <= credits <= 10000)%Q
       /\ 28 <= days <= 31) ->
  handleSetupSubmit form app = app.
Proof.
  intros Hbad. rewrite <- validateSetupForm_empty in Hbad.
  unfold handleSetupSubmit. cbv zeta.
  destruct (hasErrors _) eqn:Herrors; [reflexivity |].
  apply hasErrors_spec in Herrors. contradiction.
Qed.

(** ** The progress bar of renderMetrics *)

(** X17. The bar of today's progress never gets the class danger: the
    percentage is capped at 100 before it is compared with 100.  The class
    is risk above 80 per cent and safe up to 80; a day's spending at or over
    a positive limit shows as 100 per cent and risk, and without a positive
    limit the bar is empty and safe. *)
Theorem todayProgress_never_danger (derived : Derived.t) :
  exists (percent : Q) (class : string),
    todayProgress derived = Some (percent, class)
    /\ (percent <= 100)%Q
    /\ class <> "danger"%string
    /\ (class = "risk"%string <-> (80 < percent)%Q)
    /\ (class = "safe"%string <-> (percent <= 80)%Q)
    /\ (Derived.dailySafeLimit derived <= 0 ->
        percent = 0%Q /\ class = "safe"%string)
    /\ (0 < Derived.dailySafeLimit derived ->
        (inject_Z (Derived.dailySafeLimit derived) <= Derived.todaySpend derived)%Q ->
        (percent == 100)%Q /\ class = "risk"%string).
Proof.
  unfold todayProgress.
  destruct (0 <? Derived.dailySafeLimit derived) eqn:Hlimit.
  - apply Z.ltb_lt in Hlimit.
    pose proof (inject_Z_pos _ Hlimit) as Hpos.
    rewrite Js_div_Some by now apply Qpos_nonzero.
    cbn [mbind option_bind].
    set (percent := Qmin 100 (Derived.todaySpend derived
                              / inject_Z (Derived.dailySafeLimit derived) * 100)).
    assert (Hcap : (percent <= 100)%Q) by apply Q.le_min_l.
    rewrite (proj2 (Js_lt_false 100 percent) Hcap).
    assert (Hfull : (inject_Z (Derived.dailySafeLimit derived)
                     <= Derived.todaySpend derived)%Q -> (percent == 100)%Q).
    { intros Hover. apply Q.min_l.
      assert (1 <= Derived.todaySpend derived
                   / inject_Z (Derived.dailySafeLimit derived))%Q
        by (apply Qle_shift_div_l; [exact Hpos | lra]).
      lra. }
    destruct (Js.lt 80 percent) eqn:Hrisk.
    + apply Js_lt_spec in Hrisk.
      exists percent, "risk"%string.
      split; [reflexivity |]. split; [exact Hcap |]. split; [discriminate |].
      split; [tauto |].
      split; [split; [discriminate | intros Hle; exfalso; lra] |].
      split; [lia |]. intros _ Hover. split; [now apply Hfull | reflexivity].
    + apply Js_lt_false in Hrisk.
      exists percent, "safe"%string.
      split; [reflexivity |]. split; [exact Hcap |]. split; [discriminate |].
      split; [split; [discriminate | intros Hlt; exfalso; lra] |].
      split; [tauto |].
      split; [lia |]. intros _ Hover. exfalso.
      apply Hfull in Hover. lra.
  - apply Z.ltb_ge in Hlimit. cbn [mbind option_bind].
    exists 0%Q, "safe"%string.
    split; [reflexivity |]. split; [unfold Qle; simpl; lia |].
    split; [discriminate |].
    split; [split; [discriminate | intros Hlt; exfalso; revert Hlt; unfold Qlt; simpl; lia] |].
    split; [split; [intros _; unfold Qle; simpl; lia | reflexivity] |].
    split; [intros _; split; reflexivity | lia].
Qed.

(** ** Dates as texts and as instants *)

Lemma formatDate_parse (tz day : Z) :
  Z.abs tz < Date.MS_PER_DAY ->
  Date.formatDate tz (Date.parse day) = if tz <? 0 then day - 1 else day.
Proof.
  intros Htz. unfold Date.formatDate, Date.localDay, Date.parse.
  pose proof MS_PER_DAY_pos as Hms.
  destruct (tz <? 0) eqn:Hwest.
  - apply Z.ltb_lt in Hwest. symmetry.
    apply (Z.div_unique_pos _ _ _ (tz + Date.MS_PER_DAY)); lia.
  - apply Z.ltb_ge in Hwest. symmetry.
    apply (Z.div_unique_pos _ _ _ tz); lia.
Qed.

(** X18. A date text is read as midnight UTC and written back as a local
    date: east of UTC formatDate gives back the date, west of UTC the day
    before.  So the end date that computeDerivedData reports is the last day
    of the period, startDate + monthDays - 1, only from UTC eastwards, and
    one day earlier in the west; the date of today is the local one. *)
Theorem computeDerivedData_endDate (Math_pow : Q -> Q -> Q) (tz now : Z)
    (profile : Profile.t) (expenses : list Expense.t) :
  pow_positive Math_pow ->
  Profile.monthDays profile <> 0 ->
  Z.abs tz < Date.MS_PER_DAY ->
  (forall day : Z,
     Date.formatDate tz (Date.parse day) = if tz <? 0 then day - 1 else day)
  /\ exists d : Derived.t,
       computeDerivedData Math_pow tz now profile expenses = Some d
       /\ Derived.today d = Date.localDay tz now
       /\ Derived.endDate d
          = Profile.startDate profile + Profile.monthDays profile - 1
            - (if tz <? 0 then 1 else 0).
Proof.
  intros Hpow Hdays Htz.
  split; [intros day; now apply formatDate_parse |].
  destruct (computeDerivedData_fields Math_pow tz now profile expenses Hpow Hdays)
    as (d & Hd & Htoday & _ & _ & _ & _ & _ & _ & _ & _ & _ & _ & Hend).
  exists d. split; [exact Hd |]. split; [exact Htoday |].
  rewrite Hend, formatDate_addDays, formatDate_parse by exact Htz.
  destruct (tz <? 0); lia.
Qed.

(** ** The data of the charts *)

Lemma isProtoName_proto (cat : string) :
  JsObject.isProtoName cat = false -> String.eqb cat "__proto__" = false.
Proof.
  intros Hcat. destruct (String.eqb_spec cat "__proto__") as [-> |]; [| reflexivity].
  vm_compute in Hcat. discriminate Hcat.
Qed.

Lemma JsObject_get_own {A : Type} (o : gmap string A) (cat : string) :
  JsObject.isProtoName cat = false ->
  JsObject.get o cat = match o !! cat with
                       | Some v => JsObject.own v
                       | None => JsObject.absent
                       end.
Proof. intros Hcat. unfold JsObject.get. now rewrite Hcat. Qed.

Lemma JsObject_set_eq {A : Type} (o : gmap string A) (cat : string) (v : A) :
  String.eqb cat "__proto__" = false -> JsObject.set o cat v !! cat = Some v.
Proof. intros Hcat. unfold JsObject.set. rewrite Hcat. apply lookup_insert_eq. Qed.

Lemma JsObject_set_ne {A : Type} (o : gmap string A) (key cat : string) (v : A) :
  key <> cat -> JsObject.set o key v !! cat = o !! cat.
Proof.
  intros Hne. unfold JsObject.set. destruct (String.eqb key "__proto__"); [reflexivity |].
  now apply lookup_insert_ne.
Qed.

Lemma JsObject_set_proto {A : Type} (o : gmap string A) (v : A) :
  JsObject.set o "__proto__" v = o.
Proof. reflexivity. Qed.

(** The loop of updateCategoryChart from any two objects: where a name has a
    property. *)
Lemma categoryStep_fold_None (expenses : list Expense.t)
    (totals : gmap string (Cell.t Q)) (counts : gmap string (Cell.t Z)) (cat : string) :
  String.eqb cat "__proto__" = false ->
  let result := fold_left categoryStep expenses (totals, counts) in
  (fst result !! cat = None <-> totals !! cat = None /\ ofItemType cat expenses = [])
  /\ (snd result !! cat = None <-> counts !! cat = None /\ ofItemType cat expenses = []).
Proof.
  intros Hcat. revert totals counts. unfold ofItemType.
  induction expenses as [| e expenses IH]; intros totals counts; cbn [fold_left List.filter].
  - cbn [fst snd]. tauto.
  - destruct (IH (fst (categoryStep (totals, counts) e))
                (snd (categoryStep (totals, counts) e))) as [Ht Hc].
    rewrite <- surjective_pairing in Ht, Hc. cbv zeta. rewrite Ht, Hc.
    unfold categoryStep. cbn [fst snd].
    destruct (String.eqb_spec (Expense.itemType e) cat) as [Heq | Hne].
    + rewrite Heq, !JsObject_set_eq by exact Hcat.
      split; split; intros [H1 H2]; first [discriminate H1 | discriminate H2].
    + rewrite !JsObject_set_ne by exact Hne. tauto.
Qed.

(** The loop from two objects that have a number for the name, or nothing:
    the name has a number afterwards, or nothing. *)
Lemma categoryStep_fold_num (expenses : list Expense.t)
    (totals : gmap string (Cell.t Q)) (counts : gmap string (Cell.t Z)) (cat : string)
    (total0 : Q) (count0 : Z) :
  JsObject.isProtoName cat = false ->
  (totals !! cat = None /\ (total0 == 0)%Q) \/ totals !! cat = Some (Cell.num total0) ->
  (counts !! cat = None /\ count0 = 0) \/ counts !! cat = Some (Cell.num count0) ->
  let result := fold_left categoryStep expenses (totals, counts) in
  (forall c : Cell.t Q,
     fst result !! cat = Some c ->
     exists total : Q,
       c = Cell.num total
       /\ (total == total0 + Js.sum Expense.cost (ofItemType cat expenses))%Q)
  /\ (forall c : Cell.t Z,
        snd result !! cat = Some c ->
        exists count : Z,
          c = Cell.num count
          /\ count = count0 + Z.of_nat (length (ofItemType cat expenses))).
Proof.
  intros Hcat. pose proof (isProtoName_proto cat Hcat) as Hproto.
  revert totals counts total0 count0. unfold ofItemType.
  induction expenses as [| e expenses IH]; intros totals counts total0 count0 Ht Hc;
    cbn [fold_left List.filter].
  - cbn [fst snd length]. split.
    + intros c Hlook. destruct Ht as [[Hnone _] | Hsome]; [congruence |].
      exists total0. split; [congruence |]. unfold Js.sum. simpl. ring.
    + intros c Hlook. destruct Hc as [[Hnone _] | Hsome]; [congruence |].
      exists count0. split; [congruence | simpl; lia].
  - destruct (String.eqb_spec (Expense.itemType e) cat) as [Heq | Hne].
    + set (total1 := match totals !! cat with
                     | Some (Cell.num v) => ((if Js.truthy v then v else 0) + Expense.cost e)%Q
                     | _ => (0 + Expense.cost e)%Q
                     end).
      set (count1 := match counts !! cat with
                     | Some (Cell.num v) => (if v =? 0 then 0 else v) + 1
                     | _ => 0 + 1
                     end).
      assert (Htotal1 : (total1 == total0 + Expense.cost e)%Q).
      { unfold total1. destruct Ht as [[-> Hzero] | ->]; [rewrite Hzero; ring |].
        unfold Js.truthy. destruct (Qeq_bool total0 0) eqn:Hfalsy; cbn [negb];
          [| reflexivity].
        apply Qeq_bool_iff in Hfalsy. rewrite Hfalsy. ring. }
      assert (Hcount1 : count1 = count0 + 1).
      { unfold count1. destruct Hc as [[-> ->] | ->]; [reflexivity |].
        destruct (Z.eqb_spec count0 0) as [-> |]; reflexivity. }
      assert (Hstep : fst (categoryStep (totals, counts) e) !! cat = Some (Cell.num total1)
                      /\ snd (categoryStep (totals, counts) e) !! cat
                         = Some (Cell.num count1)).
      { unfold categoryStep. cbn [fst snd]. rewrite Heq.
        rewrite !JsObject_set_eq by exact Hproto.
        rewrite !JsObject_get_own by exact Hcat. unfold total1, count1.
        split.
        - destruct Ht as [[-> _] | ->]; reflexivity.
        - destruct Hc as [[-> _] | ->]; reflexivity. }
      destruct Hstep as [Hst Hsc].
      destruct (IH (fst (categoryStep (totals, counts) e))
                  (snd (categoryStep (totals, counts) e)) total1 count1
                  (or_intror Hst) (or_intror Hsc)) as [IHt IHc].
      rewrite <- surjective_pairing in IHt, IHc. cbv zeta. split.
      * intros c Hlook. destruct (IHt c Hlook) as (total & -> & Htotal).
        exists total. split; [reflexivity |].
        rewrite Htotal, Htotal1, Js_sum_cons. ring.
      * intros c Hlook. destruct (IHc c Hlook) as (count & -> & Hcount).
        exists count. split; [reflexivity |]. cbn [length]. lia.
    + assert (Hst : fst (categoryStep (totals, counts) e) !! cat = totals !! cat)
        by (unfold categoryStep; cbn [fst]; now apply JsObject_set_ne).
      assert (Hsc : snd (categoryStep (totals, counts) e) !! cat = counts !! cat)
        by (unfold categoryStep; cbn [snd]; now apply JsObject_set_ne).
      destruct (IH (fst (categoryStep (totals, counts) e))
                  (snd (categoryStep (totals, counts) e)) total0 count0) as [IHt IHc];
        [now rewrite Hst | now rewrite Hsc |].
      rewrite <- surjective_pairing in IHt, IHc. split; assumption.
Qed.

(** The loop from two objects that have a text for the name, or inherit its
    value: the name has a text afterwards. *)
Lemma categoryStep_fold_text (expenses : list Expense.t)
    (totals : gmap string (Cell.t Q)) (counts : gmap string (Cell.t Z)) (cat : string) :
  String.eqb cat "__proto__" = false ->
  totals !! cat = Some Cell.text -> counts !! cat = Some Cell.text ->
  let result := fold_left categoryStep expenses (totals, counts) in
  fst result !! cat = Some Cell.text /\ snd result !! cat = Some Cell.text.
Proof.
  intros Hproto. revert totals counts.
  induction expenses as [| e expenses IH]; intros totals counts Ht Hc; cbn [fold_left].
  - now split.
  - rewrite (surjective_pairing (categoryStep (totals, counts) e)).
    apply IH; unfold categoryStep; cbn [fst snd];
      (destruct (String.eqb_spec (Expense.itemType e) cat) as [Heq | Hne];
       [rewrite Heq, JsObject_set_eq by exact Hproto; unfold JsObject.get
       | now rewrite JsObject_set_ne by exact Hne]).
    + now rewrite Ht.
    + now rewrite Hc.
Qed.

Lemma categoryStep_fold_inherited (expenses : list Expense.t) (cat : string) :
  JsObject.isProtoName cat = true -> String.eqb cat "__proto__" = false ->
  forall (totals : gmap string (Cell.t Q)) (counts : gmap string (Cell.t Z)),
    totals !! cat = None -> counts !! cat = None ->
    In cat (List.map Expense.itemType expenses) ->
    let result := fold_left categoryStep expenses (totals, counts) in
    fst result !! cat = Some Cell.text /\ snd result !! cat = Some Cell.text.
Proof.
  intros Hcat Hproto.
  induction expenses as [| e expenses IH]; intros totals counts Ht Hc Hin;
    [contradiction |].
  cbn [fold_left]. rewrite (surjective_pairing (categoryStep (totals, counts) e)).
  destruct (String.eqb_spec (Expense.itemType e) cat) as [Heq | Hne].
  - apply categoryStep_fold_text; [exact Hproto | |]; unfold categoryStep; cbn [fst snd];
      rewrite Heq, JsObject_set_eq by exact Hproto; unfold JsObject.get.
    + now rewrite Ht, Hcat.
    + now rewrite Hc, Hcat.
  - apply IH.
    + unfold categoryStep. cbn [fst]. now rewrite JsObject_set_ne by exact Hne.
    + unfold categoryStep. cbn [snd]. now rewrite JsObject_set_ne by exact Hne.
    + destruct Hin as [Hhead | Htail]; [contradiction | exact Htail].
Qed.

(** No record gives the objects a property __proto__. *)
Lemma categoryStep_fold_proto (expenses : list Expense.t)
    (totals : gmap string (Cell.t Q)) (counts : gmap string (Cell.t Z)) :
  let result := fold_left categoryStep expenses (totals, counts) in
  fst result !! "__proto__"%string = totals !! "__proto__"%string
  /\ snd result !! "__proto__"%string = counts !! "__proto__"%string.
Proof.
  revert totals counts.
  induction expenses as [| e expenses IH]; intros totals counts; cbn [fold_left];
    [now split |].
  rewrite (surjective_pairing (categoryStep (totals, counts) e)).
  destruct (IH (fst (categoryStep (totals, counts) e))
              (snd (categoryStep (totals, counts) e))) as [Ht Hc].
  cbv zeta. rewrite Ht, Hc. unfold categoryStep. cbn [fst snd].
  destruct (String.eqb_spec (Expense.itemType e) "__proto__") as [-> | Hne].
  - now rewrite !JsObject_set_proto.
  - now rewrite !JsObject_set_ne by exact Hne.
Qed.

Lemma ofItemType_nil (cat : string) (expenses : list Expense.t) :
  ofItemType cat expenses = [] <-> ~ In cat (List.map Expense.itemType expenses).
Proof.
  unfold ofItemType. induction expenses as [| e l IH]; simpl; [tauto |].
  destruct (String.eqb_spec (Expense.itemType e) cat) as [Hcat | Hcat].
  - split; [discriminate | intros Hnot; exfalso; apply Hnot; now left].
  - rewrite IH. tauto.
Qed.

(** The objects are empty exactly when every record has the item type
    __proto__. *)
Lemma categoryAggregates_empty (expenses : list Expense.t) :
  (fst (categoryAggregates expenses) = ∅
   <-> Forall (fun e => Expense.itemType e = "__proto__"%string) expenses)
  /\ (snd (categoryAggregates expenses) = ∅
      <-> Forall (fun e => Expense.itemType e = "__proto__"%string) expenses).
Proof.
  assert (Hall : Forall (fun e => Expense.itemType e = "__proto__"%string) expenses ->
                 categoryAggregates expenses = (∅, ∅)).
  { unfold categoryAggregates. generalize (∅ : gmap string (Cell.t Q)).
    generalize (∅ : gmap string (Cell.t Z)).
    induction expenses as [| e l IH]; intros counts totals Hl; [reflexivity |].
    apply Forall_cons in Hl as [He Hl]. cbn [fold_left].
    unfold categoryStep at 2. cbn [fst snd]. rewrite He, !JsObject_set_proto.
    now apply IH. }
  assert (Hsome : forall e, In e expenses ->
                    Expense.itemType e <> "__proto__"%string ->
                    fst (categoryAggregates expenses) <> ∅
                    /\ snd (categoryAggregates expenses) <> ∅).
  { intros e He Hne. unfold categoryAggregates.
    destruct (categoryStep_fold_None expenses ∅ ∅ (Expense.itemType e)) as [Ht Hc].
    { now apply String.eqb_neq. }
    cbv zeta in Ht, Hc.
    assert (Hsel : ofItemType (Expense.itemType e) expenses <> []).
    { rewrite ofItemType_nil. intros Hnot. apply Hnot. now apply in_map. }
    split; intros Hempty.
    - rewrite Hempty, lookup_empty in Ht. now destruct (proj1 Ht eq_refl).
    - rewrite Hempty, lookup_empty in Hc. now destruct (proj1 Hc eq_refl). }
  assert (Hdec : Forall (fun e => Expense.itemType e = "__proto__"%string) expenses
                 \/ exists e, In e expenses /\ Expense.itemType e <> "__proto__"%string).
  { clear. induction expenses as [| e l [IH | (x & Hx & Hne)]].
    - left. constructor.
    - destruct (String.eqb_spec (Expense.itemType e) "__proto__") as [Heq | Hne].
      + left. now constructor.
      + right. exists e. split; [now left | exact Hne].
    - right. exists x. split; [now right | exact Hne]. }
  destruct Hdec as [Hforall | (e & He & Hne)].
  - rewrite (Hall Hforall). cbn [fst snd]. tauto.
  - destruct (Hsome e He Hne) as [Ht Hc].
    assert (Hnot : ~ Forall (fun e => Expense.itemType e = "__proto__"%string) expenses).
    { intros Hforall. rewrite Forall_forall in Hforall.
      apply Hne, Hforall, list_elem_of_In, He. }
    tauto.
Qed.

(** X19. The category chart.  For an item type that is not the name of a
    property that every object inherits, categoryTotals and categoryCounts
    have an entry exactly when some record has that item type; the total is
    the sum of the costs of these records and the count their number, the
    same selection that the advice rules make for chicken and dessert.  An
    item type that names an inherited property gets a text in both objects,
    but for __proto__, which never gets an entry.  The two objects are empty
    exactly when every record has the item type __proto__, so when there is
    no record. *)
Theorem categoryAggregates_per_category (expenses : list Expense.t) (cat : string) :
  let totals := fst (categoryAggregates expenses) in
  let counts := snd (categoryAggregates expenses) in
  let named := In cat (List.map Expense.itemType expenses) in
  (JsObject.isProtoName cat = false ->
     (totals !! cat = None <-> ~ named)
     /\ (counts !! cat = None <-> ~ named)
     /\ (forall c : Cell.t Q,
           totals !! cat = Some c ->
           exists total : Q,
             c = Cell.num total
             /\ (total == Js.sum Expense.cost (ofItemType cat expenses))%Q)
     /\ (forall c : Cell.t Z,
           counts !! cat = Some c ->
           exists count : Z,
             c = Cell.num count
             /\ count = Z.of_nat (length (ofItemType cat expenses))
             /\ 1 <= count))
  /\ (JsObject.isProtoName cat = true -> cat <> "__proto__"%string -> named ->
      totals !! cat = Some Cell.text /\ counts !! cat = Some Cell.text)
  /\ (totals !! "__proto__"%string = None /\ counts !! "__proto__"%string = None)
  /\ (totals = ∅ <-> Forall (fun e => Expense.itemType e = "__proto__"%string) expenses)
  /\ (counts = ∅ <-> Forall (fun e => Expense.itemType e = "__proto__"%string) expenses)
  /\ (expenses = [] -> totals = ∅ /\ counts = ∅).
Proof.
  cbv zeta. split; [| split; [| split; [| split; [| split]]]].
  - intros Hcat. pose proof (isProtoName_proto cat Hcat) as Hproto.
    unfold categoryAggregates.
    destruct (categoryStep_fold_None expenses ∅ ∅ cat Hproto) as [Ht Hc].
    destruct (categoryStep_fold_num expenses ∅ ∅ cat 0 0 Hcat) as [Hsum Hlen];
      [left; split; [apply lookup_empty | reflexivity]
      | left; split; [apply lookup_empty | reflexivity] |].
    cbv zeta in Ht, Hc, Hsum, Hlen.
    rewrite lookup_empty in Ht. rewrite lookup_empty in Hc.
    pose proof (ofItemType_nil cat expenses) as Hselected.
    split; [rewrite Ht, Hselected; tauto |].
    split; [rewrite Hc, Hselected; tauto |].
    split.
    + intros c Hlook. destruct (Hsum c Hlook) as (total & -> & Htotal).
      exists total. split; [reflexivity |]. rewrite Htotal. ring.
    + intros c Hlook. destruct (Hlen c Hlook) as (count & -> & Hcount).
      exists count. split; [reflexivity |]. split; [lia |].
      destruct (ofItemType cat expenses) eqn:Hsel; [| simpl in Hcount; lia].
      exfalso.
      assert (Habs : snd (fold_left categoryStep expenses (∅, ∅)) !! cat = None)
        by (apply Hc; split; reflexivity).
      congruence.
  - intros Hcat Hne Hnamed. unfold categoryAggregates.
    apply categoryStep_fold_inherited;
      [exact Hcat | now apply String.eqb_neq | apply lookup_empty | apply lookup_empty
      | exact Hnamed].
  - unfold categoryAggregates.
    destruct (categoryStep_fold_proto expenses ∅ ∅) as [Ht Hc].
    cbv zeta in Ht, Hc. now rewrite Ht, Hc, !lookup_empty.
  - apply categoryAggregates_empty.
  - apply categoryAggregates_empty.
  - intros ->. now split.
Qed.

Lemma lookup_map {A B : Type} (f : A -> B) (l : list A) (i : nat) :
  List.map f l !! i = f <$> (l !! i).
Proof.
  revert i. induction l as [| x l IH]; intros [| i]; simpl; auto.
Qed.

(** The test [currentDate <= today] of the charts, in days. *)
Lemma shown_days (tz now start i : Z) :
  Z.abs tz < Date.MS_PER_DAY ->
  (Date.addDays (Date.parse start) i <=? endOfDay tz now)
  = (start + i <=? Date.localDay tz now + (if tz <? 0 then 1 else 0)).
Proof.
  intros Htz.
  replace (Date.addDays (Date.parse start) i) with (Date.parse (start + i))
    by (unfold Date.addDays, Date.parse; ring).
  pose proof (not_future_days tz now (start + i) Htz) as Hdays.
  rewrite Z.ltb_ge in Hdays.
  destruct (Z.leb_spec (Date.parse (start + i)) (endOfDay tz now)) as [Hle | Hgt];
    symmetry; [apply Z.leb_le | apply Z.leb_gt]; lia.
Qed.

(** The date by which the charts select the records of day [i]. *)
Lemma chart_day (tz start i : Z) :
  Z.abs tz < Date.MS_PER_DAY ->
  Date.formatDate tz (Date.addDays (Date.parse start) i)
  = start + i - (if tz <? 0 then 1 else 0).
Proof.
  intros Htz. rewrite formatDate_addDays, formatDate_parse by exact Htz.
  destruct (tz <? 0); lia.
Qed.

(** X20. The daily spending chart has one entry for each day of the period.
    The entry of day i (from 0) is null when startDate + i is after today's
    local date, and else the total cost of the records dated startDate + i.
    West of UTC both are off by one day: tomorrow's entry is shown too, and
    each entry holds the records of the day before. *)
Theorem daysData_entries (tz now : Z) (profile : Profile.t)
    (expenses : list Expense.t) :
  Z.abs tz < Date.MS_PER_DAY ->
  let shift := if tz <? 0 then 1 else 0 in
  length (daysData tz now profile expenses) = Z.to_nat (Profile.monthDays profile)
  /\ forall i : nat,
       Z.of_nat i < Profile.monthDays profile ->
       daysData tz now profile expenses !! i
       = Some (if Profile.startDate profile + Z.of_nat i
                  <=? Date.localDay tz now + shift
               then Some (costOn (Profile.startDate profile + Z.of_nat i - shift) expenses)
               else None).
Proof.
  intros Htz shift. unfold daysData. cbv zeta.
  split; [now rewrite length_map, length_seqZ |].
  intros i Hi. rewrite lookup_map, lookup_seqZ_lt by exact Hi.
  cbn [fmap option_fmap option_map]. rewrite Z.add_0_l.
  rewrite shown_days, chart_day by exact Htz. reflexivity.
Qed.


Lemma Js_sum_ext {A : Type} (f g : A -> Q) (l : list A) :
  (forall x, f x = g x) -> Js.sum f l = Js.sum g l.
Proof.
  intros Hfg. unfold Js.sum. generalize 0%Q as acc.
  induction l as [| x l IH]; intros acc; simpl; [reflexivity |].
  now rewrite Hfg, IH.
Qed.

Lemma Js_sum_snoc {A : Type} (f : A -> Q) (l : list A) (x : A) :
  Js.sum f (l ++ [x]) = (Js.sum f l + f x)%Q.
Proof. unfold Js.sum. now rewrite fold_left_app. Qed.

Lemma seqZ_snoc (k : nat) : seqZ 0 (Z.of_nat (S k)) = seqZ 0 (Z.of_nat k) ++ [Z.of_nat k].
Proof. now rewrite seqZ_S, Z.add_0_l. Qed.

(** The loop of updateDepletionChart after [k] days: [shown] days are shown,
    the rest is null. *)
Lemma actualStep_fold (tz now : Z) (profile : Profile.t) (expenses : list Expense.t)
    (shown : Z) (k : nat) :
  (forall i : Z,
     (Date.addDays (Date.parse (Profile.startDate profile)) i <=? endOfDay tz now)
     = (i <? shown)) ->
  let dayTotal := fun i : Z =>
    Js.sum Expense.cost
      (List.filter
         (fun exp => Expense.date exp
                     =? Date.formatDate tz
                          (Date.addDays (Date.parse (Profile.startDate profile)) i))
         expenses) in
  fold_left (actualStep tz now profile expenses) (seqZ 0 (Z.of_nat k)) (0%Q, [])
  = (Js.sum dayTotal (seqZ 0 (Z.min (Z.of_nat k) shown)),
     List.map (fun i => if i <? shown
                        then Some (Profile.monthlyCredits profile
                                   - Js.sum dayTotal (seqZ 0 (i + 1)))%Q
                        else None)
       (seqZ 0 (Z.of_nat k))).
Proof.
  intros Hshown dayTotal. induction k as [| k IH].
  - rewrite (seqZ_nil 0 (Z.of_nat 0)) by (simpl; lia).
    rewrite (seqZ_nil 0 (Z.min (Z.of_nat 0) shown)) by (simpl; lia). reflexivity.
  - rewrite seqZ_snoc, fold_left_app, IH. cbn [fold_left].
    unfold actualStep at 1. cbv zeta. rewrite Hshown. cbn [fst snd].
    rewrite map_app. cbn [List.map].
    destruct (Z.ltb_spec (Z.of_nat k) shown) as [Hk | Hk].
    + fold (dayTotal (Z.of_nat k)).
      replace (Z.min (Z.of_nat k) shown) with (Z.of_nat k) by lia.
      replace (Z.min (Z.of_nat (S k)) shown) with (Z.of_nat (S k)) by lia.
      replace (Z.of_nat k + 1) with (Z.of_nat (S k)) by lia.
      now rewrite seqZ_snoc, Js_sum_snoc.
    + replace (Z.min (Z.of_nat k) shown) with shown by lia.
      replace (Z.min (Z.of_nat (S k)) shown) with shown by lia.
      reflexivity.
Qed.

(** Summing day by day is summing over the range of the days. *)
Lemma costBetween_last (first last : Z) (expenses : list Expense.t) :
  first <= last + 1 ->
  (costBetween first (last + 1) expenses
   == costBetween first last expenses + costOn (last + 1) expenses)%Q.
Proof.
  intros Hrange. unfold costBetween, costOn.
  induction expenses as [| e l IH]; cbn [List.filter].
  - unfold Js.sum. simpl. ring.
  - destruct (Z.leb_spec first (Expense.date e)),
             (Z.leb_spec (Expense.date e) (last + 1)),
             (Z.leb_spec (Expense.date e) last),
             (Z.eqb_spec (Expense.date e) (last + 1));
      try lia; cbn [andb]; rewrite ?Js_sum_cons, IH; ring.
Qed.

Lemma costBetween_days (first : Z) (expenses : list Expense.t) (k : nat) :
  (Js.sum (fun i => costOn (first + i) expenses) (seqZ 0 (Z.of_nat k))
   == costBetween first (first + Z.of_nat k - 1) expenses)%Q.
Proof.
  induction k as [| k IH].
  - rewrite (seqZ_nil 0 (Z.of_nat 0)) by (simpl; lia).
    change (Z.of_nat 0) with 0.
    unfold costBetween. rewrite filter_none; [reflexivity |].
    apply Forall_forall. intros e _.
    destruct (Z.leb_spec first (Expense.date e)),
             (Z.leb_spec (Expense.date e) (first + 0 - 1)); try reflexivity; lia.
  - rewrite seqZ_snoc, Js_sum_snoc, IH.
    replace (first + Z.of_nat (S k) - 1) with (first + Z.of_nat k - 1 + 1) by lia.
    rewrite costBetween_last by lia.
    replace (first + Z.of_nat k - 1 + 1) with (first + Z.of_nat k) by lia.
    reflexivity.
Qed.

(** X22. The actual line of the depletion chart has one entry for each day
    of the period.  The entry of day i (from 0) is null when startDate + i
    is after today's local date, and else monthlyCredits less the costs of
    the records dated from startDate to startDate + i; it is not cut at 0.
    When these are all the records, the entry is monthlyCredits less the sum
    of all the costs.  West of UTC the days are off by one, as in the daily
    chart. *)
Theorem actualRemaining_entries (tz now : Z) (profile : Profile.t)
    (expenses : list Expense.t) :
  Z.abs tz < Date.MS_PER_DAY ->
  let shift := if tz <? 0 then 1 else 0 in
  let start := Profile.startDate profile in
  length (actualRemaining tz now profile expenses)
  = Z.to_nat (Profile.monthDays profile)
  /\ forall i : nat,
       Z.of_nat i < Profile.monthDays profile ->
       exists entry : option Q,
         actualRemaining tz now profile expenses !! i = Some entry
         /\ (Date.localDay tz now + shift < start + Z.of_nat i -> entry = None)
         /\ (start + Z.of_nat i <= Date.localDay tz now + shift ->
             exists v : Q,
               entry = Some v
               /\ (v == Profile.monthlyCredits profile
                        - costBetween (start - shift) (start + Z.of_nat i - shift)
                            expenses)%Q
               /\ (Forall (fun e => start - shift <= Expense.date e
                                    <= start + Z.of_nat i - shift) expenses ->
                   (v == Profile.monthlyCredits profile
                         - Js.sum Expense.cost expenses)%Q)).
Proof.
  intros Htz shift start. unfold actualRemaining.
  set (shown := Date.localDay tz now + shift - start + 1).
  assert (Hshown : forall i : Z,
             (Date.addDays (Date.parse (Profile.startDate profile)) i
              <=? endOfDay tz now) = (i <? shown)).
  { intros i. rewrite shown_days by exact Htz. fold shift start.
    destruct (Z.leb_spec (start + i) (Date.localDay tz now + shift));
      symmetry; [apply Z.ltb_lt | apply Z.ltb_ge]; unfold shown; lia. }
  destruct (Z_le_gt_dec 0 (Profile.monthDays profile)) as [Hdays | Hdays].
  2: { rewrite seqZ_nil by lia. cbn [fold_left snd length].
       split; [lia |]. intros i Hi. lia. }
  pose proof (actualStep_fold tz now profile expenses shown
                (Z.to_nat (Profile.monthDays profile)) Hshown) as Hfold.
  cbv zeta in Hfold. rewrite Z2Nat.id in Hfold by exact Hdays.
  rewrite Hfold. cbn [snd]. rewrite length_map, length_seqZ.
  split; [reflexivity |].
  intros i Hi. rewrite lookup_map, lookup_seqZ_lt by lia.
  cbn [fmap option_fmap option_map]. rewrite Z.add_0_l.
  eexists. split; [reflexivity |].
  destruct (Z.ltb_spec (Z.of_nat i) shown) as [Hin | Hout].
  - split; [unfold shown in Hin; lia |]. intros _.
    eexists. split; [reflexivity |].
    assert (Hsum :
              (Js.sum
                 (fun i0 : Z =>
                    Js.sum Expense.cost
                      (List.filter
                         (fun exp => Expense.date exp
                                     =? Date.formatDate tz
                                          (Date.addDays
                                             (Date.parse (Profile.startDate profile)) i0))
                         expenses))
                 (seqZ 0 (Z.of_nat i + 1))
               == costBetween (start - shift) (start + Z.of_nat i - shift) expenses)%Q).
    { rewrite (Js_sum_ext _ (fun j => costOn (start - shift + j) expenses)).
      - replace (Z.of_nat i + 1) with (Z.of_nat (S i)) by lia.
        rewrite costBetween_days.
        replace (start - shift + Z.of_nat (S i) - 1)
          with (start + Z.of_nat i - shift) by lia.
        reflexivity.
      - intros j. rewrite chart_day by exact Htz. fold shift start.
        unfold costOn.
        replace (start - shift + j) with (start + j - shift) by lia.
        reflexivity. }
    split; [now rewrite Hsum |].
    intros Hall. rewrite Hsum. unfold costBetween.
    rewrite filter_all; [reflexivity |].
    eapply Forall_impl; [exact Hall |]. intros e He. cbv beta in He.
    apply andb_true_intro. split; apply Z.leb_le; lia.
  - split; [reflexivity |]. intros Hle. unfold shown in Hout. lia.
Qed.

(** ** The metrics after a change of the expense list *)

Lemma filter_perm {A : Type} (p : A -> bool) (l l' : list A) :
  Permutation l l' -> Permutation (List.filter p l) (List.filter p l').
Proof.
  induction 1 as [| x l l' _ IH | x y l | l1 l2 l3 _ IH1 _ IH2]; simpl.
  - constructor.
  - destruct (p x); [now constructor | exact IH].
  - destruct (p x), (p y); try reflexivity. apply perm_swap.
  - now transitivity (List.filter p l2).
Qed.

(** X23. What one accepted expense does to the metrics: the elapsed and the
    remaining days are the same, totalSpent grows by the cost, the remaining
    credits fall, by the cost at most (less when they reach 0), and
    todaySpend grows by the cost when the record is dated today (the local
    date) and stays the same otherwise. *)
Theorem expense_added_metrics (Math_pow : Q -> Q -> Q) (tz now : Z) (uuid : string)
    (form : ExpenseForm.t) (app : App.t) (p : Profile.t) :
  pow_positive Math_pow ->
  Profile.monthDays p <> 0 ->
  App.profile app = Some p ->
  validateExpenseForm tz now (Some p) form = ∅ ->
  exists (date : Z) (cost : Q) (d d' : Derived.t),
    ExpenseForm.date form = Some date
    /\ ExpenseForm.cost form = Some cost
    /\ computeDerivedData Math_pow tz now p (App.expenses app) = Some d
    /\ computeDerivedData Math_pow tz now p
         (App.expenses (handleExpenseSubmit tz now uuid form app)) = Some d'
    /\ Derived.daysElapsed d' = Derived.daysElapsed d
    /\ Derived.remainingDays d' = Derived.remainingDays d
    /\ (Derived.totalSpent d' == Derived.totalSpent d + cost)%Q
    /\ (Derived.remainingCredits d - cost <= Derived.remainingCredits d'
        <= Derived.remainingCredits d)%Q
    /\ (Derived.todaySpend d'
        == Derived.todaySpend d
           + (if date =? Date.localDay tz now then cost else 0))%Q.
Proof.
  intros Hpow Hdays Hprofile Hvalid.
  pose proof (proj1 (validateExpenseForm_empty _ _ _ _) Hvalid)
    as (date0 & cost0 & quantity0 & Hdate0 & Hcost0 & _ & _ & _ & [Hpos _] & _).
  destruct (handleExpenseSubmit_accepted tz now uuid form app p Hprofile Hvalid)
    as (date & cost & quantity & Hdate & Hcost & _ & ->).
  assert (date0 = date) by congruence. assert (cost0 = cost) by congruence.
  subst date0 cost0.
  cbn [App.expenses]. rewrite byDateDescending_rank.
  set (expense := {| Expense.id := uuid; Expense.date := date;
                     Expense.mealType := _; Expense.itemType := _;
                     Expense.quantity := quantity; Expense.cost := cost;
                     Expense.notes := _ |}).
  set (added := Js.sort _ (App.expenses app ++ [expense])).
  assert (Hperm : Permutation added (expense :: App.expenses app)).
  { unfold added. rewrite sort_perm. now rewrite Permutation_app_comm. }
  destruct (computeDerivedData_fields Math_pow tz now p (App.expenses app) Hpow Hdays)
    as (d & Hd & Htoday & Helapsed & Hremaining & Htotal & Hcredits & Hspend & _).
  destruct (computeDerivedData_fields Math_pow tz now p added Hpow Hdays)
    as (d' & Hd' & Htoday' & Helapsed' & Hremaining' & Htotal' & Hcredits' & Hspend' & _).
  exists date, cost, d, d'.
  split; [exact Hdate |]. split; [exact Hcost |]. split; [exact Hd |].
  split; [exact Hd' |].
  split; [congruence |]. split; [congruence |].
  assert (Hsum : (Derived.totalSpent d' == Derived.totalSpent d + cost)%Q).
  { rewrite Htotal', Htotal, (Js_sum_perm _ _ _ Hperm), Js_sum_cons.
    unfold expense. cbn [Expense.cost]. ring. }
  split; [exact Hsum |].
  split.
  - rewrite Hcredits', Hcredits.
    destruct (Q.max_spec 0 (Profile.monthlyCredits p - Derived.totalSpent d'))
      as [[? ->] | [? ->]],
      (Q.max_spec 0 (Profile.monthlyCredits p - Derived.totalSpent d))
      as [[? ->] | [? ->]]; lra.
  - rewrite Hspend', Hspend, Htoday', Htoday. unfold costOn, Date.formatDate.
    rewrite (Js_sum_perm _ _ _ (filter_perm _ _ _ Hperm)).
    unfold expense. cbn [List.filter Expense.date].
    destruct (date =? Date.localDay tz now).
    + rewrite Js_sum_cons. cbn [Expense.cost]. ring.
    + ring.
Qed.

(** ** The history *)

Lemma In_skipped {A : Type} (x : A) (n : nat) (l : list A) :
  In x (skipn n l) -> In x l.
Proof.
  revert l. induction n as [| n IH]; intros [| y l]; simpl; auto.
Qed.

(** X24. The history shows the first ten records of the list: at most ten,
    ten when there are that many, in the order of the list; when the list is
    ordered by date, latest first, no record left out is dated later than
    one that is shown. *)
Theorem recentExpenses_latest (app : App.t) :
  recentExpenses app `prefix_of` App.expenses app
  /\ length (recentExpenses app) = Nat.min 10 (length (App.expenses app))
  /\ (StronglySorted latestFirst (App.expenses app) ->
      forall shown hidden : Expense.t,
        In shown (recentExpenses app) ->
        In hidden (skipn 10 (App.expenses app)) ->
        Expense.date hidden <= Expense.date shown).
Proof.
  unfold recentExpenses, Js.slice0.
  split; [exists (skipn 10 (App.expenses app)); now rewrite firstn_skipn |].
  split; [apply length_firstn |].
  intros Hsorted shown hidden.
  generalize 10%nat as n. revert Hsorted.
  induction 1 as [| x l Hsorted IH Hall]; intros [| n]; simpl; try tauto.
  intros [<- | Hshown] Hhidden.
  - rewrite Forall_forall in Hall. apply Hall, list_elem_of_In.
    eapply In_skipped; eassumption.
  - now apply (IH n).
Qed.

(** ** The safe limit is never negative *)

Lemma Math_max_zero_cases (r : F64.number) :
  (r = F64.NaN /\ F64.Math_max (F64.ofZ 0) r = F64.NaN)
  \/ (r <> F64.NaN /\ F64.le (F64.ofZ 0) (F64.Math_max (F64.ofZ 0) r) = true).
Proof.
  destruct r as [[] | [] | | [] m e];
    first [left; split; reflexivity | right; split; [discriminate | reflexivity]].
Qed.

(** X26. On the numbers of the host, whatever the profile, the preferences
    and the base values are, calculateDailySafeLimit returns NaN or a number
    that is not negative, never a negative number; with no days remaining it
    returns 0. *)
Theorem calculateDailySafeLimit_never_negative
    (Math_pow : F64.number -> F64.number -> F64.number) (tz now : Z)
    (profile : Double.Profile.t) (expenses : list Double.Expense.t)
    (derivedBase : Double.DerivedBase.t) :
  let limit :=
    Double.calculateDailySafeLimit Math_pow tz now profile expenses derivedBase in
  (limit = F64.NaN \/ F64.le (F64.ofZ 0) limit = true)
  /\ F64.lt limit (F64.ofZ 0) = false
  /\ (Double.DerivedBase.remainingDays derivedBase <= 0 -> limit = F64.ofZ 0).
Proof.
  cbv zeta. unfold Double.calculateDailySafeLimit.
  destruct (Z.leb_spec (Double.DerivedBase.remainingDays derivedBase) 0) as [Hdays | Hdays].
  - split; [now right |]. split; reflexivity.
  - match goal with
    | |- context [F64.Math_max (F64.ofZ 0) ?r] =>
        destruct (Math_max_zero_cases r) as [[_ ->] | [_ Hle]]
    end.
    + split; [now left |]. split; [reflexivity | lia].
    + split; [now right |]. split; [| lia].
      match goal with
      | H : F64.le _ ?x = true |- F64.lt ?x _ = false =>
          revert H; generalize x; intros v Hv
      end.
      destruct v as [s | [] | | [] m e]; try reflexivity; discriminate Hv.
Qed.

(** ** The further properties at concrete inputs *)

Lemma derivedB_computed :
  computeDerivedData sqrtApprox 0 (Date.parse 100 + noon)
    (scenarioA "hostel_student" 100) [dinner 100] = Some derivedB.
Proof. vm_compute. reflexivity. Qed.

Lemma computeDerivedData_days_witness :
  pow_positive sqrtApprox
  /\ 0 < Profile.monthDays (scenarioA "hostel_student" 100)
  /\ exists d : Derived.t,
       computeDerivedData sqrtApprox 0 (Date.parse 100 + noon)
         (scenarioA "hostel_student" 100) [dinner 100] = Some d
       /\ Derived.daysElapsed d = 1
       /\ Derived.daysElapsed d + Derived.remainingDays d = 30.
Proof.
  split; [exact sqrtApprox_positive |]. split; [reflexivity |].
  destruct (computeDerivedData_days sqrtApprox 0 (Date.parse 100 + noon)
              (scenarioA "hostel_student" 100) [dinner 100]
              sqrtApprox_positive eq_refl) as (d & Hd & _ & Hin & _).
  exists d. split; [exact Hd |].
  destruct Hin as (Helapsed & _ & Hsum).
  - unfold Date.parse, Date.MS_PER_DAY, noon. simpl. lia.
  - split; [rewrite Helapsed; reflexivity | exact Hsum].
Defined.

Lemma last_day_limit_zero_witness :
  pow_positive sqrtApprox
  /\ 0 < Profile.monthDays (scenarioA "hostel_student" 100)
  /\ Date.parse (Profile.startDate (scenarioA "hostel_student" 100))
     + (Profile.monthDays (scenarioA "hostel_student" 100) - 1) * Date.MS_PER_DAY
     <= Date.parse 129 + noon
  /\ exists d : Derived.t,
       computeDerivedData sqrtApprox 0 (Date.parse 129 + noon)
         (scenarioA "hostel_student" 100) [dinner 100] = Some d
       /\ Derived.remainingDays d = 0
       /\ Derived.dailySafeLimit d = 0
       /\ ~ In "daily_limit_exceeded"%string
              (List.map AdviceItem.id
                 (generateAdvice 0 (Date.parse 129 + noon)
                    (scenarioA "hostel_student" 100) d [dinner 100])).
Proof.
  assert (Hlast : Date.parse (Profile.startDate (scenarioA "hostel_student" 100))
                  + (Profile.monthDays (scenarioA "hostel_student" 100) - 1)
                    * Date.MS_PER_DAY
                  <= Date.parse 129 + noon)
    by (unfold Date.parse, Date.MS_PER_DAY, noon; simpl; lia).
  split; [exact sqrtApprox_positive |]. split; [reflexivity |].
  split; [exact Hlast |].
  exact (last_day_limit_zero sqrtApprox 0 (Date.parse 129 + noon)
           (scenarioA "hostel_student" 100) [dinner 100]
           sqrtApprox_positive eq_refl Hlast).
Defined.

Lemma computeDerivedData_credits_witness :
  pow_positive sqrtApprox
  /\ 0 < Profile.monthDays (scenarioA "hostel_student" 100)
  /\ Forall (fun e => (0 <= Expense.cost e)%Q) [dinner 100]
  /\ exists d : Derived.t,
       computeDerivedData sqrtApprox 0 (Date.parse 100 + noon)
         (scenarioA "hostel_student" 100) [dinner 100] = Some d
       /\ (0 <= Derived.todaySpend d <= Derived.totalSpent d)%Q
       /\ ((Derived.totalSpent d
            <= Profile.monthlyCredits (scenarioA "hostel_student" 100))%Q ->
             (Derived.totalSpent d + Derived.remainingCredits d
              == Profile.monthlyCredits (scenarioA "hostel_student" 100))%Q)
       /\ ((Profile.monthlyCredits (scenarioA "hostel_student" 100)
            <= Derived.totalSpent d)%Q ->
             (Derived.remainingCredits d == 0)%Q).
Proof.
  assert (Hcosts : Forall (fun e => (0 <= Expense.cost e)%Q) [dinner 100])
    by (repeat constructor; unfold Qle; simpl; lia).
  split; [exact sqrtApprox_positive |]. split; [reflexivity |].
  split; [exact Hcosts |].
  exact (computeDerivedData_credits sqrtApprox 0 (Date.parse 100 + noon)
           (scenarioA "hostel_student" 100) [dinner 100]
           sqrtApprox_positive eq_refl Hcosts).
Defined.


Lemma determineConfidenceLevel_monotone_witness :
  (2 <= 12)%nat /\ 1 <= 6
  /\ confidenceRank (determineConfidenceLevel 2 1)
     <= confidenceRank (determineConfidenceLevel 12 6)
  /\ (determineConfidenceLevel 2 1 = Confidence.high <-> (10 <= 2)%nat /\ 5 <= 1)
  /\ (determineConfidenceLevel 2 1 = Confidence.low <-> (2 < 3)%nat \/ 1 < 2).
Proof.
  assert (Hcount : (2 <= 12)%nat) by lia.
  assert (Hdays : 1 <= 6) by lia.
  split; [exact Hcount |]. split; [exact Hdays |].
  exact (determineConfidenceLevel_monotone 2 12 1 6 Hcount Hdays).
Defined.

Lemma generateAdvice_keeps_urgent_witness :
  In daily_limit_exceeded (adviceRules 0)
  /\ Rule.when daily_limit_exceeded (Date.parse 100 + noon)
       (scenarioA "hostel_student" 100) derivedB [dinner 100] = true
  /\ In (toItem (scenarioA "hostel_student" 100) derivedB [dinner 100]
           daily_limit_exceeded)
        (generateAdvice 0 (Date.parse 100 + noon) (scenarioA "hostel_student" 100)
           derivedB [dinner 100]).
Proof.
  assert (Hrule : In daily_limit_exceeded (adviceRules 0))
    by (do 5 right; left; reflexivity).
  assert (Hwhen : Rule.when daily_limit_exceeded (Date.parse 100 + noon)
                    (scenarioA "hostel_student" 100) derivedB [dinner 100] = true)
    by reflexivity.
  split; [exact Hrule |]. split; [exact Hwhen |].
  exact (generateAdvice_keeps_urgent 0 (Date.parse 100 + noon)
           (scenarioA "hostel_student" 100) derivedB [dinner 100]
           daily_limit_exceeded Hrule Hwhen (or_introl eq_refl)).
Defined.

Lemma validateExpenseForm_accepts_witness :
  Z.abs 0 < Date.MS_PER_DAY
  /\ (validateExpenseForm 0 (Date.parse 100 + noon)
        (Some (scenarioA "hostel_student" 100)) (lunchForm 100) = ∅
      <-> exists (date : Z) (cost : Q) (quantity : Z),
            ExpenseForm.date (lunchForm 100) = Some date
            /\ ExpenseForm.cost (lunchForm 100) = Some cost
            /\ ExpenseForm.quantity (lunchForm 100) = Some quantity
            /\ date <= Date.localDay 0 (Date.parse 100 + noon)
                       + (if 0 <? 0 then 1 else 0)
            /\ (forall p, Some (scenarioA "hostel_student" 100) = Some p ->
                  Profile.startDate p <= date
                  <= Profile.startDate p + Profile.monthDays p - 1)
            /\ (0 < cost <= 2000)%Q
            /\ 1 <= quantity).
Proof.
  assert (Htz : Z.abs 0 < Date.MS_PER_DAY) by reflexivity.
  split; [exact Htz |].
  exact (validateExpenseForm_accepts 0 (Date.parse 100 + noon)
           (Some (scenarioA "hostel_student" 100)) (lunchForm 100) Htz).
Defined.

Lemma handleExpenseSubmit_adds_witness :
  App.profile studentApp = Some (scenarioA "hostel_student" 100)
  /\ validateExpenseForm 0 (Date.parse 100 + noon)
       (Some (scenarioA "hostel_student" 100)) (lunchForm 100) = ∅
  /\ exists expense : Expense.t,
       Expense.id expense = "3f2b8c1e-5a7d-4e9f-8b6a-1c2d3e4f5a6b"%string
       /\ ExpenseForm.cost (lunchForm 100) = Some (Expense.cost expense)
       /\ Permutation
            (App.expenses
               (handleExpenseSubmit 0 (Date.parse 100 + noon)
                  "3f2b8c1e-5a7d-4e9f-8b6a-1c2d3e4f5a6b" (lunchForm 100) studentApp))
            (expense :: App.expenses studentApp)
       /\ StronglySorted latestFirst
            (App.expenses
               (handleExpenseSubmit 0 (Date.parse 100 + noon)
                  "3f2b8c1e-5a7d-4e9f-8b6a-1c2d3e4f5a6b" (lunchForm 100) studentApp)).
Proof.
  assert (Hvalid : validateExpenseForm 0 (Date.parse 100 + noon)
                     (Some (scenarioA "hostel_student" 100)) (lunchForm 100) = ∅)
    by reflexivity.
  split; [reflexivity |]. split; [exact Hvalid |].
  destruct (handleExpenseSubmit_adds 0 (Date.parse 100 + noon)
              "3f2b8c1e-5a7d-4e9f-8b6a-1c2d3e4f5a6b" (lunchForm 100) studentApp
              (scenarioA "hostel_student" 100) eq_refl Hvalid)
    as (expense & Hid & _ & Hcost & _ & _ & Hperm & Hsorted & _).
  exists expense. split; [exact Hid |]. split; [exact Hcost |].
  split; [exact Hperm | exact Hsorted].
Defined.

Lemma deleteExpense_undoes_add_witness :
  App.profile studentApp = Some (scenarioA "hostel_student" 100)
  /\ validateExpenseForm 0 (Date.parse 100 + noon)
       (Some (scenarioA "hostel_student" 100)) (lunchForm 100) = ∅
  /\ ~ In "3f2b8c1e-5a7d-4e9f-8b6a-1c2d3e4f5a6b"%string
         (List.map Expense.id (App.expenses studentApp))
  /\ App.expenses
       (deleteExpense "3f2b8c1e-5a7d-4e9f-8b6a-1c2d3e4f5a6b"
          (handleExpenseSubmit 0 (Date.parse 100 + noon)
             "3f2b8c1e-5a7d-4e9f-8b6a-1c2d3e4f5a6b" (lunchForm 100) studentApp))
     = Js.sort byDateDescending (App.expenses studentApp).
Proof.
  assert (Hvalid : validateExpenseForm 0 (Date.parse 100 + noon)
                     (Some (scenarioA "hostel_student" 100)) (lunchForm 100) = ∅)
    by reflexivity.
  assert (Hfresh : ~ In "3f2b8c1e-5a7d-4e9f-8b6a-1c2d3e4f5a6b"%string
                       (List.map Expense.id (App.expenses studentApp)))
    by (intros [Hsame | []]; discriminate Hsame).
  split; [reflexivity |]. split; [exact Hvalid |]. split; [exact Hfresh |].
  exact (proj1 (deleteExpense_undoes_add 0 (Date.parse 100 + noon)
                  "3f2b8c1e-5a7d-4e9f-8b6a-1c2d3e4f5a6b" (lunchForm 100) studentApp
                  (scenarioA "hostel_student" 100) eq_refl Hvalid Hfresh)).
Defined.

Lemma handleSetupSubmit_saves_witness :
  SetupForm.monthlyCredits (setupForm 6000) = Some 6000%Q
  /\ SetupForm.monthDays (setupForm 6000) = Some 30
  /\ SetupForm.startDate (setupForm 6000) = Some 100
  /\ (3000 <= 6000 <= 10000)%Q
  /\ 28 <= 30 <= 31
  /\ exists profile : Profile.t,
       handleSetupSubmit (setupForm 6000) studentApp
       = {| App.profile := Some profile; App.expenses := App.expenses studentApp |}
       /\ Profile.monthlyCredits profile = 6000%Q
       /\ Profile.monthDays profile = 30
       /\ Profile.startDate profile = 100
       /\ forall (Math_pow : Q -> Q -> Q) (tz now : Z) (expenses : list Expense.t),
            pow_positive Math_pow ->
            exists d : Derived.t,
              computeDerivedData Math_pow tz now profile expenses = Some d
              /\ (3000 / 31 <= Derived.targetBurnRate d <= 10000 / 28)%Q.
Proof.
  assert (Hcredits : (3000 <= 6000 <= 10000)%Q)
    by (split; unfold Qle; simpl; lia).
  assert (Hdays : 28 <= 30 <= 31) by lia.
  split; [reflexivity |]. split; [reflexivity |]. split; [reflexivity |].
  split; [exact Hcredits |]. split; [exact Hdays |].
  destruct (handleSetupSubmit_saves (setupForm 6000) studentApp 6000 30 100
              eq_refl eq_refl eq_refl Hcredits Hdays)
    as (profile & Hstate & _ & Hc & Hd & Hs & _ & Hengine).
  exists profile. split; [exact Hstate |]. split; [exact Hc |].
  split; [exact Hd |]. split; [exact Hs | exact Hengine].
Defined.

Lemma handleSetupSubmit_rejects_witness :
  ~ (exists (credits : Q) (days start : Z),
       SetupForm.monthlyCredits (setupForm 2000) = Some credits
       /\ SetupForm.monthDays (setupForm 2000) = Some days
       /\ SetupForm.startDate (setupForm 2000) = Some start
       /\ (3000 <= credits <= 10000)%Q
       /\ 28 <= days <= 31)
  /\ handleSetupSubmit (setupForm 2000) studentApp = studentApp.
Proof.
  assert (Hbad : ~ (exists (credits : Q) (days start : Z),
                      SetupForm.monthlyCredits (setupForm 2000) = Some credits
                      /\ SetupForm.monthDays (setupForm 2000) = Some days
                      /\ SetupForm.startDate (setupForm 2000) = Some start
                      /\ (3000 <= credits <= 10000)%Q
                      /\ 28 <= days <= 31)).
  { intros (credits & days & start & Hcredits & _ & _ & [Hlow _] & _).
    injection Hcredits as <-. revert Hlow. unfold Qle. simpl. lia. }
  split; [exact Hbad |].
  exact (handleSetupSubmit_rejects (setupForm 2000) studentApp Hbad).
Defined.

Lemma computeDerivedData_endDate_witness :
  pow_positive sqrtApprox
  /\ Profile.monthDays (scenarioA "hostel_student" 100) <> 0
  /\ Z.abs (- (5 * 60 * 60 * 1000)) < Date.MS_PER_DAY
  /\ exists d : Derived.t,
       computeDerivedData sqrtApprox (- (5 * 60 * 60 * 1000)) (Date.parse 100 + noon)
         (scenarioA "hostel_student" 100) [dinner 100] = Some d
       /\ Derived.today d = 100
       /\ Derived.endDate d = 128.
Proof.
  assert (Hdays : Profile.monthDays (scenarioA "hostel_student" 100) <> 0)
    by discriminate.
  assert (Htz : Z.abs (- (5 * 60 * 60 * 1000)) < Date.MS_PER_DAY) by reflexivity.
  split; [exact sqrtApprox_positive |]. split; [exact Hdays |]. split; [exact Htz |].
  destruct (computeDerivedData_endDate sqrtApprox (- (5 * 60 * 60 * 1000))
              (Date.parse 100 + noon) (scenarioA "hostel_student" 100) [dinner 100]
              sqrtApprox_positive Hdays Htz)
    as (_ & d & Hd & Htoday & Hend).
  exists d. split; [exact Hd |].
  split; [rewrite Htoday; reflexivity | rewrite Hend; reflexivity].
Defined.

Lemma daysData_entries_witness :
  Z.abs 0 < Date.MS_PER_DAY
  /\ length (daysData 0 (Date.parse 100 + noon) (scenarioA "hostel_student" 100)
               [dinner 100]) = 30%nat
  /\ daysData 0 (Date.parse 100 + noon) (scenarioA "hostel_student" 100)
       [dinner 100] !! 0%nat
     = Some (Some (costOn 100 [dinner 100]))
  /\ daysData 0 (Date.parse 100 + noon) (scenarioA "hostel_student" 100)
       [dinner 100] !! 1%nat
     = Some None.
Proof.
  assert (Htz : Z.abs 0 < Date.MS_PER_DAY) by reflexivity.
  split; [exact Htz |].
  destruct (daysData_entries 0 (Date.parse 100 + noon)
              (scenarioA "hostel_student" 100) [dinner 100] Htz)
    as [Hlength Hentry].
  split; [exact Hlength |].
  split; [exact (Hentry 0%nat eq_refl) | exact (Hentry 1%nat eq_refl)].
Defined.

Lemma actualRemaining_entries_witness :
  Z.abs 0 < Date.MS_PER_DAY
  /\ length (actualRemaining 0 (Date.parse 100 + noon)
               (scenarioA "hostel_student" 100) [dinner 100]) = 30%nat
  /\ exists entry : option Q,
       actualRemaining 0 (Date.parse 100 + noon) (scenarioA "hostel_student" 100)
         [dinner 100] !! 0%nat = Some entry
       /\ exists v : Q,
            entry = Some v
            /\ (v == 6000 - costBetween 100 100 [dinner 100])%Q.
Proof.
  assert (Htz : Z.abs 0 < Date.MS_PER_DAY) by reflexivity.
  split; [exact Htz |].
  destruct (actualRemaining_entries 0 (Date.parse 100 + noon)
              (scenarioA "hostel_student" 100) [dinner 100] Htz)
    as [Hlength Hentry].
  split; [exact Hlength |].
  destruct (Hentry 0%nat eq_refl) as (entry & Hlookup & _ & Hshown).
  exists entry. split; [exact Hlookup |].
  destruct Hshown as (v & Hv & Hvalue & _).
  - vm_compute. discriminate.
  - exists v. split; [exact Hv | exact Hvalue].
Defined.

Lemma expense_added_metrics_witness :
  pow_positive sqrtApprox
  /\ Profile.monthDays (scenarioA "hostel_student" 100) <> 0
  /\ App.profile studentApp = Some (scenarioA "hostel_student" 100)
  /\ validateExpenseForm 0 (Date.parse 100 + noon)
       (Some (scenarioA "hostel_student" 100)) (lunchForm 100) = ∅
  /\ exists d d' : Derived.t,
       computeDerivedData sqrtApprox 0 (Date.parse 100 + noon)
         (scenarioA "hostel_student" 100) (App.expenses studentApp) = Some d
       /\ computeDerivedData sqrtApprox 0 (Date.parse 100 + noon)
            (scenarioA "hostel_student" 100)
            (App.expenses
               (handleExpenseSubmit 0 (Date.parse 100 + noon)
                  "3f2b8c1e-5a7d-4e9f-8b6a-1c2d3e4f5a6b" (lunchForm 100) studentApp))
          = Some d'
       /\ (Derived.totalSpent d' == Derived.totalSpent d + 90)%Q
       /\ (Derived.todaySpend d' == Derived.todaySpend d + 90)%Q.
Proof.
  assert (Hdays : Profile.monthDays (scenarioA "hostel_student" 100) <> 0)
    by discriminate.
  assert (Hvalid : validateExpenseForm 0 (Date.parse 100 + noon)
                     (Some (scenarioA "hostel_student" 100)) (lunchForm 100) = ∅)
    by reflexivity.
  split; [exact sqrtApprox_positive |]. split; [exact Hdays |].
  split; [reflexivity |]. split; [exact Hvalid |].
  destruct (expense_added_metrics sqrtApprox 0 (Date.parse 100 + noon)
              "3f2b8c1e-5a7d-4e9f-8b6a-1c2d3e4f5a6b" (lunchForm 100) studentApp
              (scenarioA "hostel_student" 100) sqrtApprox_positive Hdays eq_refl Hvalid)
    as (date & cost & d & d' & Hdate & Hcost & Hd & Hd' & _ & _ & Htotal & _ & Htoday).
  injection Hdate as <-. injection Hcost as <-.
  exists d, d'. split; [exact Hd |]. split; [exact Hd' |].
  split; [exact Htotal | exact Htoday].
Defined.

